(** * hiddenalpha: the account classifier and its stores

    A shallow embedding of the account lifecycle of the crawler
    ([fetch_accounts.py], [fetch_tweets.py], [reclassify_relevant.py],
    [reevaluate_relevant_accounts.py]): Python dictionaries as
    insertion-ordered association lists, JSON files as explicit values,
    exceptions and in-place mutation through a small state-and-exception
    monad, Python floats as binary64 primitive floats. *)

From Stdlib Require Import ZArith List String Ascii Bool Lia.
From Stdlib Require Import Floats Uint63 DecimalString Permutation.
From Stdlib Require OrderedTypeEx.
Import ListNotations.

Set Warnings "-inexact-float".
Local Open Scope string_scope.
Local Open Scope Z_scope.
Local Open Scope list_scope.

(** ** Python dictionaries with string keys

    A [dict] keeps its keys in insertion order, and [json.dump] of
    [list(d.values())] writes them in that order, so the order is part of
    the model.  Assigning to a key that is present keeps its position. *)

Module PyDict.

Section Ops.
Context {V : Type}.

Definition t : Type := list (string * V).

Definition empty : t := [].

(** [d.get(k)] *)
Fixpoint get (k : string) (d : t) : option V :=
  match d with
  | [] => None
  | (k', v) :: rest => if String.eqb k k' then Some v else get k rest
  end.

(** [k in d] *)
Definition contains (k : string) (d : t) : bool :=
  match get k d with Some _ => true | None => false end.

(** [d[k] = v] *)
Fixpoint set (k : string) (v : V) (d : t) : t :=
  match d with
  | [] => [(k, v)]
  | (k', v') :: rest =>
      if String.eqb k k' then (k', v) :: rest else (k', v') :: set k v rest
  end.

(** [del d[k]], used under a [k in d] test; a dictionary holds one
    binding per key and this leaves none. *)
Definition del (k : string) (d : t) : t :=
  filter (fun kv => negb (String.eqb k (fst kv))) d.

Definition keys (d : t) : list string := map fst d.
Definition values (d : t) : list V := map snd d.

(** The representation invariant: keys are pairwise distinct. *)
Definition wf (d : t) : Prop := NoDup (keys d).

End Ops.

Arguments t : clear implicits.

End PyDict.

(** ** Exceptions, state, and mutation in place

    A Python exception leaves every mutation made before it in place, so
    a computation returns the new state together with either the
    exception raised or its value. *)

Inductive Exn : Type :=
| KeyError (key : string)
| TypeError
| ValueError
| OSError
| JSONDecodeError
| AttributeError
| Exception (msg : string).

Definition M (S A : Type) : Type := S -> S * (Exn + A).

Definition ret {S A : Type} (a : A) : M S A := fun s => (s, inr a).

Definition bind {S A B : Type} (m : M S A) (k : A -> M S B) : M S B :=
  fun s =>
    match m s with
    | (s', inr a) => k a s'
    | (s', inl e) => (s', inl e)
    end.

Definition raise {S A : Type} (e : Exn) : M S A := fun s => (s, inl e).

(** [try: m  except Exception as e: h e] *)
Definition try_except {S A : Type} (m : M S A) (h : Exn -> M S A) : M S A :=
  fun s =>
    match m s with
    | (s', inr a) => (s', inr a)
    | (s', inl e) => h e s'
    end.

Definition gets {S A : Type} (f : S -> A) : M S A := fun s => (s, inr (f s)).

Definition modify {S : Type} (f : S -> S) : M S unit := fun s => (f s, inr tt).

Definition when {S : Type} (b : bool) (m : M S unit) : M S unit :=
  if b then m else ret tt.

Declare Scope py_scope.
Delimit Scope py_scope with py.
Notation "x <- c1 ;; c2" := (bind c1 (fun x => c2))
  (at level 61, c1 at next level, right associativity) : py_scope.
Notation "c1 ;; c2" := (bind c1 (fun _ => c2))
  (at level 61, right associativity) : py_scope.
Local Open Scope py_scope.

(** ** The data model: account records, posts, files *)

(** [public_metrics] of a user object; a key may be absent. *)
Record PublicMetrics : Type := mkMetrics {
  followers_count : option Z;
  tweet_count : option Z
}.

(** An account record: the keys of the JSON object the code reads or
    writes, each possibly absent. *)
Record Account : Type := mkAccount {
  id : option string;
  username : option string;
  public_metrics : option PublicMetrics;
  classified_at : option string;
  too_many_followers : option bool;
  last_checked_at : option string;
  last_relevant_tweet_count : option Z
}.

(** What [datetime.fromisoformat] makes of a string: a [ValueError]; a
    datetime without offset, as the microseconds from the epoch to its
    wall-clock reading; or an aware one, as the microseconds from the
    epoch to its UTC instant, with its offset from UTC. *)
Inductive Parsed : Type :=
| Unparsable
| Naive (wall : Z)
| Aware (utc : Z) (utcoffset : Z).

(** The built-ins the code relies on, kept abstract: how a UTC instant
    (in microseconds) prints with [isoformat()], how [fromisoformat]
    reads a string, and how [int()] reads a header value ([None] for a
    [ValueError]). *)
Class PyRuntime : Type := {
  isoformat : Z -> string;
  fromisoformat : string -> Parsed;
  int_of_str : string -> option Z
}.

(** A JSON file holding an array of account records. *)
Inductive File : Type :=
| Missing
| Json (records : list Account)
| Corrupt.

(** How a rewrite [with open(path, 'w') as f: json.dump(...)] ends:
    it succeeds; [open] fails and the file is as before; or [json.dump]
    fails after [open] has truncated the file. *)
Inductive WriteOutcome : Type :=
| WriteOk
| OpenFails
| DumpFails.

Inductive LogEntry : Type :=
| LoadedRelevant (n : nat)
| LoadedIrrelevant (n : nat)
| ErrorParsingFiles
| ErrorLoading (e : Exn)
| RemovingOld (user_id : string)
| SavedRelevant (user_id : string)
| SavedIrrelevant (user_id : string)
| ErrorSaving (user_id : option string) (e : Exn)
| FailsMetricThresholds (user_id : string)
| SkippingNoOriginalTweets (user_id : string)
| ClassifiedRelevant (user_id : string)
| ClassifiedIrrelevant (user_id : string)
| ClassificationError (e : Exn).

(** The classifier object together with the two files it owns. *)
Record State : Type := mkState {
  relevant_accounts : PyDict.t Account;
  irrelevant_accounts : PyDict.t Account;
  relevant_file : File;
  irrelevant_file : File;
  log : list LogEntry
}.

(** [save_account] and [process_user] receive the dictionary [user_data]
    and change it in place: it is part of the state they run in. *)
Record Frame : Type := mkFrame {
  self : State;
  user_data : Account
}.

(** *** Configuration ([AccountClassifier.__init__]) *)

Definition max_followers : Z := 2000.
Definition min_tweets : Z := 300.
Definition max_retries : Z := 3.
Definition tweets_per_user : nat := 5.
Definition classification_threshold : float := 0.8%float.
Definition relevant_tweet_ratio : float := 0.4%float.

(** *** Field updates *)

Definition set_classified_at (s : string) (a : Account) : Account :=
  mkAccount (id a) (username a) (public_metrics a) (Some s)
            (too_many_followers a) (last_checked_at a)
            (last_relevant_tweet_count a).

(** [user_data["too_many_followers"] = True] *)
Definition set_too_many_followers (a : Account) : Account :=
  mkAccount (id a) (username a) (public_metrics a) (classified_at a)
            (Some true) (last_checked_at a) (last_relevant_tweet_count a).

(** [user_data.pop("too_many_followers", None)] *)
Definition pop_too_many_followers (a : Account) : Account :=
  mkAccount (id a) (username a) (public_metrics a) (classified_at a)
            None (last_checked_at a) (last_relevant_tweet_count a).

(** [account_data.get("too_many_followers")] read as a condition. *)
Definition flagged (a : Account) : bool :=
  match too_many_followers a with
  | Some true => true
  | _ => false
  end.

(** [user_data.get("public_metrics", {}).get("followers_count", 0)] *)
Definition followers_of (a : Account) : Z :=
  match public_metrics a with
  | Some m => match followers_count m with Some f => f | None => 0 end
  | None => 0
  end.

(** [user_data.get("public_metrics", {}).get("tweet_count", 0)] *)
Definition tweet_count_of (a : Account) : Z :=
  match public_metrics a with
  | Some m => match tweet_count m with Some t => t | None => 0 end
  | None => 0
  end.

Definition with_relevant_accounts (d : PyDict.t Account) (s : State) : State :=
  mkState d (irrelevant_accounts s) (relevant_file s) (irrelevant_file s) (log s).

Definition with_irrelevant_accounts (d : PyDict.t Account) (s : State) : State :=
  mkState (relevant_accounts s) d (relevant_file s) (irrelevant_file s) (log s).

Definition with_relevant_file (f : File) (s : State) : State :=
  mkState (relevant_accounts s) (irrelevant_accounts s) f (irrelevant_file s) (log s).

Definition with_irrelevant_file (f : File) (s : State) : State :=
  mkState (relevant_accounts s) (irrelevant_accounts s) (relevant_file s) f (log s).

Definition with_log (l : list LogEntry) (s : State) : State :=
  mkState (relevant_accounts s) (irrelevant_accounts s) (relevant_file s)
          (irrelevant_file s) l.

(** *** Primitive steps on a frame *)

Definition on_self (f : State -> State) : M Frame unit :=
  modify (fun fr => mkFrame (f (self fr)) (user_data fr)).

Definition on_user_data (f : Account -> Account) : M Frame unit :=
  modify (fun fr => mkFrame (self fr) (f (user_data fr))).

Definition logging (e : LogEntry) : M Frame unit :=
  on_self (fun s => with_log (log s ++ [e]) s).

(** [user_data["id"]] *)
Definition subscript_id : M Frame string :=
  fun fr =>
    match id (user_data fr) with
    | Some k => (fr, inr k)
    | None => (fr, inl (KeyError "id"))
    end.

(** [with open(file, 'w') as f: json.dump(records, f)] *)
Definition rewrite_file (put : File -> State -> State) (records : list Account)
    (w : WriteOutcome) : M Frame unit :=
  match w with
  | WriteOk => on_self (put (Json records))
  | OpenFails => raise OSError
  | DumpFails => on_self (put Corrupt) ;; raise OSError
  end.

(** ** [AccountClassifier] ([fetch_accounts.py]) *)

Section Classifier.
Context `{PyRuntime}.

(** *** [save_account] *)

Definition save_account_body (now : Z) (w : WriteOutcome) (relevant : bool)
    : M Frame unit :=
  user_id <- subscript_id ;;
  on_user_data (set_classified_at (isoformat now)) ;;
  if relevant then
    known <- gets (fun fr => PyDict.contains user_id (irrelevant_accounts (self fr))) ;;
    when known
      (on_self (fun s => with_irrelevant_accounts
                           (PyDict.del user_id (irrelevant_accounts s)) s)) ;;
    on_user_data pop_too_many_followers ;;
    data <- gets user_data ;;
    on_self (fun s => with_relevant_accounts
                        (PyDict.set user_id data (relevant_accounts s)) s) ;;
    records <- gets (fun fr => PyDict.values (relevant_accounts (self fr))) ;;
    rewrite_file with_relevant_file records w ;;
    logging (SavedRelevant user_id)
  else
    followers <- gets (fun fr => followers_of (user_data fr)) ;;
    when (max_followers <=? followers) (on_user_data set_too_many_followers) ;;
    known <- gets (fun fr => PyDict.contains user_id (relevant_accounts (self fr))) ;;
    when known
      (on_self (fun s => with_relevant_accounts
                           (PyDict.del user_id (relevant_accounts s)) s)) ;;
    data <- gets user_data ;;
    on_self (fun s => with_irrelevant_accounts
                        (PyDict.set user_id data (irrelevant_accounts s)) s) ;;
    records <- gets (fun fr => PyDict.values (irrelevant_accounts (self fr))) ;;
    rewrite_file with_irrelevant_file records w ;;
    logging (SavedIrrelevant user_id).

Definition save_account (now : Z) (w : WriteOutcome) (relevant : bool)
    : M Frame unit :=
  try_except (save_account_body now w relevant)
    (fun e => who <- gets (fun fr => id (user_data fr)) ;;
              logging (ErrorSaving who e)).

(** *** [load_existing_accounts] *)

(** [for acc in accounts: d[acc["id"]] = acc]; a record without ["id"]
    stops the loop with a [KeyError], the entries before it stay. *)
Fixpoint index_by_id (accounts : list Account) (d : PyDict.t Account)
    : PyDict.t Account * option Exn :=
  match accounts with
  | [] => (d, None)
  | acc :: rest =>
      match id acc with
      | None => (d, Some (KeyError "id"))
      | Some k => index_by_id rest (PyDict.set k acc d)
      end
  end.

(** Reading one file into one of the two dictionaries. *)
Definition load_file (file : State -> File)
    (store : State -> PyDict.t Account)
    (put : PyDict.t Account -> State -> State)
    (loaded : nat -> LogEntry) : M State unit :=
  f <- gets file ;;
  match f with
  | Missing => ret tt
  | Corrupt => raise JSONDecodeError
  | Json accounts =>
      d <- gets store ;;
      let (d', err) := index_by_id accounts d in
      modify (put d') ;;
      match err with
      | Some e => raise e
      | None => modify (fun s => with_log (log s ++ [loaded (List.length d')]) s)
      end
  end.

Definition microseconds_per_day : Z := 86400 * 1000000.

(** [timedelta.days]: whole days, rounded down. *)
Definition timedelta_days (microseconds : Z) : Z :=
  microseconds / microseconds_per_day.

(** [datetime.utcnow().replace(microsecond=0, tzinfo=timezone.utc)] *)
Definition whole_seconds (now : Z) : Z := (now / 1000000) * 1000000.

(** One turn of the ageing loop: is the record kept? *)
Definition keeps (now_utc : Z) (account_data : Account) : Exn + bool :=
  if flagged account_data then inr true
  else
    match classified_at account_data with
    | None => inr true
    | Some classified_str =>
        if String.eqb classified_str "" then inr true
        else
          match fromisoformat classified_str with
          | Unparsable => inr true
          | Naive _ => inl TypeError
          | Aware classified_time _ =>
              let days_elapsed := timedelta_days (now_utc - classified_time) in
              inr (days_elapsed <? 30)
          end
    end.

Fixpoint age_out (now_utc : Z) (items : list (string * Account))
    (fresh_irrelevant : PyDict.t Account) : M State (PyDict.t Account) :=
  match items with
  | [] => ret fresh_irrelevant
  | (user_id, account_data) :: rest =>
      match keeps now_utc account_data with
      | inl e => raise e
      | inr true =>
          age_out now_utc rest (PyDict.set user_id account_data fresh_irrelevant)
      | inr false =>
          modify (fun s => with_log (log s ++ [RemovingOld user_id]) s) ;;
          age_out now_utc rest fresh_irrelevant
      end
  end.

(** The body of the [try]: the relevant file, then the irrelevant one. *)
Definition load_files : M State unit :=
  load_file relevant_file relevant_accounts with_relevant_accounts LoadedRelevant ;;
  load_file irrelevant_file irrelevant_accounts with_irrelevant_accounts
    LoadedIrrelevant.

(** [now] is the clock in microseconds. *)
Definition load_existing_accounts (now : Z) : M State unit :=
  try_except load_files
    (fun e =>
       modify (fun s => with_log (log s ++ [match e with
                                            | JSONDecodeError => ErrorParsingFiles
                                            | _ => ErrorLoading e
                                            end]) s) ;;
       raise e) ;;
  items <- gets irrelevant_accounts ;;
  fresh_irrelevant <- age_out (whole_seconds now) items PyDict.empty ;;
  modify (with_irrelevant_accounts fresh_irrelevant).

(** The state [__init__] starts from: empty dictionaries, the files as
    they are on disk. *)
Definition initial (rel irr : File) : State :=
  mkState PyDict.empty PyDict.empty rel irr [].

(** *** Metric thresholds *)

Definition meets_metric_thresholds (user : Account) : bool :=
  (followers_of user <? max_followers) && (min_tweets <? tweet_count_of user).

(** The test applied in [fetch_recent_tweets] to each user of
    [includes.users] before it enters [users_map]. *)
Definition passes_inline_filter (user : Account) : bool :=
  (min_tweets <=? tweet_count_of user) && (followers_of user <? max_followers).

(** The loop over [includes.users]; both branches read [user["id"]]. *)
Fixpoint collect_users (users : list Account) (users_map : PyDict.t Account)
    : Exn + PyDict.t Account :=
  match users with
  | [] => inr users_map
  | user :: rest =>
      match id user with
      | None => inl (KeyError "id")
      | Some k =>
          if passes_inline_filter user
          then collect_users rest (PyDict.set k user users_map)
          else collect_users rest users_map
      end
  end.

End Classifier.

(** *** Rate limiting: [handle_rate_limit] *)

Record Response : Type := mkResponse {
  status : Z;
  headers : PyDict.t string
}.

(** What [handle_rate_limit] returns: [False], or [True] after it has
    slept [wait_time] seconds. *)
Inductive RateLimitDecision : Type :=
| NoRetry
| RetryAfter (wait_time : Z).

Section RateLimit.
Context `{PyRuntime}.

(** [response.headers.get(name, '0')] *)
Definition header_or_zero (name : string) (response : Response) : string :=
  match PyDict.get name (headers response) with
  | Some v => v
  | None => "0"
  end.

(** The wait computed from the header string, before the cap. *)
Definition uncapped_wait (current_time : Z) (reset : string) : Exn + Z :=
  if String.eqb reset "" then inr 60
  else
    match int_of_str reset with
    | Some reset_time => inr (Z.max (reset_time - current_time) 1)
    | None => inl ValueError
    end.

(** [current_time] is [int(time.time())], in seconds. *)
Definition handle_rate_limit (current_time : Z) (response : Response)
    (retry_count : Z) : Exn + RateLimitDecision :=
  let reset := header_or_zero "x-rate-limit-reset" response in
  if negb (status response =? 429) then inr NoRetry
  else if max_retries <=? retry_count then inr NoRetry
  else
    match uncapped_wait current_time reset with
    | inl e => inl e
    | inr wait_time => inr (RetryAfter (Z.min wait_time 900))
    end.

End RateLimit.

(** *** Content classification: [classify_tweets] and [process_user] *)

(** [float(n)] for a count; exact below 2^53. *)
Definition float_of_count (n : Z) : float :=
  PrimFloat.of_uint63 (Uint63.of_Z n).

Definition float_of_nat (n : nat) : float := float_of_count (Z.of_nat n).

(** [any(score > self.classification_threshold for score in result["scores"])] *)
Definition above_threshold (scores : list float) : bool :=
  existsb (fun score => PrimFloat.ltb classification_threshold score) scores.

(** The counting loop over [results]. *)
Fixpoint count_relevant (results : list (list float)) (relevant_tweets : nat) : nat :=
  match results with
  | [] => relevant_tweets
  | result :: rest =>
      count_relevant rest
        (if above_threshold result then S relevant_tweets else relevant_tweets)
  end.

(** [relevant_tweets >= len(tweets) * self.relevant_tweet_ratio], in
    binary64 as Python computes it. *)
Definition ratio_met (relevant_tweets n : nat) : bool :=
  PrimFloat.leb (PrimFloat.mul (float_of_nat n) relevant_tweet_ratio)
                (float_of_nat relevant_tweets).

Section Pipeline.
Context `{PyRuntime}.

(** The zero-shot model: the score lists of its results, one per
    sequence, or the exception it raises. *)
Variable classifier : list string -> Exn + list (list float).

Definition call_classifier (tweets : list string) : M Frame (list (list float)) :=
  fun fr => (fr, classifier tweets).

Definition classify_tweets (tweets : list string) : M Frame bool :=
  match tweets with
  | [] => ret false
  | _ :: _ =>
      try_except
        (results <- call_classifier tweets ;;
         ret (ratio_met (count_relevant results 0) (List.length tweets)))
        (fun e => logging (ClassificationError e) ;; ret false)
  end.

(** [fetched] is what [fetch_user_tweets] answers for this user: the
    texts of the original tweets of the last seven days (at most
    [tweets_per_user] of them), or the exception that escapes it. *)
Definition process_user (now : Z) (fetched : Exn + list string)
    (w : WriteOutcome) : M Frame unit :=
  user_id <- subscript_id ;;
  data <- gets user_data ;;
  if negb (meets_metric_thresholds data) then
    logging (FailsMetricThresholds user_id) ;;
    save_account now w false
  else
    recent_tweets <- (fun fr => (fr, fetched)) ;;
    if Nat.eqb (List.length recent_tweets) 0 then
      logging (SkippingNoOriginalTweets user_id)
    else
      is_relevant <- classify_tweets recent_tweets ;;
      if is_relevant then
        logging (ClassifiedRelevant user_id) ;;
        save_account now w true
      else
        logging (ClassifiedIrrelevant user_id) ;;
        save_account now w false.

End Pipeline.

(** ** A runtime to evaluate the model with

    Decimal [int()], and a calendar of the strings used below with the
    instants Python 3.11 reads from them
    ([datetime.fromisoformat(s).timestamp()], in microseconds). *)

Definition calendar : list (string * Z) :=
  [ ("1970-01-01T00:00:00Z", 0);
    ("2023-10-23T00:00:00+00:00", 1698019200000000);
    ("2024-01-01T00:00:00+00:00", 1704067200000000);
    ("2024-01-30T00:00:00+00:00", 1706572800000000);
    ("2024-01-31T00:00:00+00:00", 1706659200000000);
    ("2024-02-01T00:00:00+00:00", 1706745600000000) ].

(** Strings without offset, with their wall-clock reading. *)
Definition naive_calendar : list (string * Z) :=
  [ ("2024-01-01T00:00:00", 1704067200000000);
    ("2024-01-30T00:00:00.000", 1706572800000000) ].

Fixpoint calendar_string (t : Z) (c : list (string * Z)) : string :=
  match c with
  | [] => ""
  | (s, t') :: rest => if t =? t' then s else calendar_string t rest
  end.

Definition calendar_instant (s : string) : Parsed :=
  match PyDict.get s calendar, PyDict.get s naive_calendar with
  | Some t, _ => Aware t 0
  | None, Some wall => Naive wall
  | None, None => Unparsable
  end.

Definition decimal (s : string) : option Z :=
  option_map Z.of_int (NilZero.int_of_string s).

#[local] Instance sample_runtime : PyRuntime := {
  isoformat t := calendar_string t (tl calendar);
  fromisoformat := calendar_instant;
  int_of_str := decimal
}.

(** ** The tweet store ([fetch_tweets.py]) *)

Record Tweet : Type := mkTweet {
  tweet_id : string;
  created_at : string;
  text : string
}.

(** [tweet["id"] in existing_ids] *)
Definition seen (existing_ids : list string) (tweet : Tweet) : bool :=
  existsb (String.eqb (tweet_id tweet)) existing_ids.

(** [[tweet for tweet in tweets if tweet["id"] not in existing_ids]],
    with [existing_ids] the ids of [existing]. *)
Definition new_tweets (existing tweets : list Tweet) : list Tweet :=
  filter (fun tweet => negb (seen (map tweet_id existing) tweet)) tweets.

(** [all_tweets.get(username, [])] *)
Definition collected (username : string) (all_tweets : PyDict.t (list Tweet))
    : list Tweet :=
  match PyDict.get username all_tweets with
  | Some tweets => tweets
  | None => []
  end.

(** The merge in [process_account], under its [if tweets:]. *)
Definition merge_fetched (username : string) (tweets : list Tweet)
    (all_tweets : PyDict.t (list Tweet)) : PyDict.t (list Tweet) :=
  match tweets with
  | [] => all_tweets
  | _ :: _ =>
      PyDict.set username
        (collected username all_tweets
           ++ new_tweets (collected username all_tweets) tweets)
        all_tweets
  end.

(** One turn of the merging loop of [save_all_tweets]. *)
Definition merge_into (existing_data : PyDict.t (list Tweet))
    (item : string * list Tweet) : PyDict.t (list Tweet) :=
  let (username, tweets) := item in
  match PyDict.get username existing_data with
  | None => PyDict.set username tweets existing_data
  | Some stored =>
      PyDict.set username (stored ++ new_tweets stored tweets) existing_data
  end.

(** [{user: tweets for user, tweets in data.items() if tweets}] *)
Definition cleaned (data : PyDict.t (list Tweet)) : PyDict.t (list Tweet) :=
  filter (fun item => match snd item with [] => false | _ :: _ => true end) data.

(** The [existing_data] that [save_all_tweets] starts from: the content
    of the file, or [{}] when there is none. *)
Definition on_disk (file : option (PyDict.t (list Tweet))) : PyDict.t (list Tweet) :=
  match file with
  | Some d => d
  | None => PyDict.empty
  end.

(** [save_all_tweets]: what [data/all_tweets.json] holds afterwards,
    from the dictionary in memory and the file as it was ([None] when it
    does not exist). *)
Definition save_all_tweets (all_tweets : PyDict.t (list Tweet))
    (file : option (PyDict.t (list Tweet))) : PyDict.t (list Tweet) :=
  cleaned (fold_left merge_into all_tweets (on_disk file)).

Record FetchTweets : Type := mkFetchTweets {
  all_tweets : PyDict.t (list Tweet);
  all_tweets_file : option (PyDict.t (list Tweet))
}.

(** [process_account], from the point where [fetch_user_tweets] has
    answered [tweets] (it answers [[]] on any error). *)
Definition process_account (account : Account) (tweets : list Tweet)
    (st : FetchTweets) : FetchTweets :=
  match id account with
  | None => st
  | Some user_id =>
      if String.eqb user_id "" then st
      else
        let name := match username account with
                    | Some u => u
                    | None => String.append "User_" user_id
                    end in
        match tweets with
        | [] => st
        | _ :: _ =>
            let merged := merge_fetched name tweets (all_tweets st) in
            mkFetchTweets merged (Some (save_all_tweets merged (all_tweets_file st)))
        end
  end.

(** ** The re-evaluation scripts

    [reclassify_relevant.py] and [reevaluate_relevant_accounts.py] work
    on the two files directly.  [fetch_user_metrics] answers the user
    object for an id, or [{}] ([None] here) on any failure. *)

Definition MAX_FOLLOWERS : Z := 2000.
Definition DAYS_BACK : Z := 30.

Definition set_last_checked (count : Z) (checked : string) (a : Account) : Account :=
  mkAccount (id a) (username a) (public_metrics a) (classified_at a)
            (too_many_followers a) (Some checked) (Some count).

(** [s.replace("Z", "")] *)
Fixpoint remove_Z (s : string) : string :=
  match s with
  | EmptyString => EmptyString
  | String c rest =>
      if Ascii.eqb c "Z" then remove_Z rest else String c (remove_Z rest)
  end.

Section Reevaluation.
Context `{PyRuntime}.
Variable fetch_user_metrics : string -> option Account.

(** *** [reclassify_large_accounts] *)

(** The guarded loads of [reclassify_large_accounts]: an error is logged
    and what was read before it is kept. *)
Definition load_quietly (f : File) : PyDict.t Account :=
  match f with
  | Json arr => fst (index_by_id arr PyDict.empty)
  | Missing | Corrupt => PyDict.empty
  end.

(** [now user_id] is the clock when that user is moved. *)
Fixpoint reclassify_loop (now : string -> Z) (items : list (string * Account))
    (updated_relevant irrelevant : PyDict.t Account)
    : PyDict.t Account * PyDict.t Account :=
  match items with
  | [] => (updated_relevant, irrelevant)
  | (user_id, data) :: rest =>
      match fetch_user_metrics user_id with
      | None =>
          reclassify_loop now rest (PyDict.set user_id data updated_relevant) irrelevant
      | Some new_data =>
          if MAX_FOLLOWERS <=? followers_of new_data then
            let moved := set_classified_at (isoformat (now user_id))
                           (set_too_many_followers data) in
            reclassify_loop now rest updated_relevant
              (PyDict.set user_id moved irrelevant)
          else
            reclassify_loop now rest (PyDict.set user_id data updated_relevant) irrelevant
      end
  end.

(** The two files after the script, both rewrites succeeding. *)
Definition reclassify_large_accounts (now : string -> Z) (rel irr : File)
    : File * File :=
  let relevant := load_quietly rel in
  let irrelevant := load_quietly irr in
  match relevant with
  | [] => (rel, irr)
  | _ :: _ =>
      let (updated_relevant, irrelevant') :=
        reclassify_loop now relevant PyDict.empty irrelevant in
      (Json (PyDict.values updated_relevant), Json (PyDict.values irrelevant'))
  end.

(** *** [purge_irrelevant_accounts] *)

(** [load_json]: [[]] for a file that does not exist. *)
Definition load_json (f : File) : Exn + list Account :=
  match f with
  | Missing => inr []
  | Json arr => inr arr
  | Corrupt => inl JSONDecodeError
  end.

(** [datetime.fromisoformat(tweet["created_at"].replace("Z", ""))
      .replace(tzinfo=timezone.utc)]: the wall-clock reading, as UTC. *)
Definition tweet_time (tweet : Tweet) : Exn + Z :=
  match fromisoformat (remove_Z (created_at tweet)) with
  | Unparsable => inl ValueError
  | Naive wall => inr wall
  | Aware utc utcoffset => inr (utc + utcoffset)
  end.

Fixpoint recent_after (cutoff_time : Z) (tweets : list Tweet) : Exn + list Tweet :=
  match tweets with
  | [] => inr []
  | tweet :: rest =>
      match tweet_time tweet with
      | inl e => inl e
      | inr t =>
          match recent_after cutoff_time rest with
          | inl e => inl e
          | inr l => inr (if cutoff_time <? t then tweet :: l else l)
          end
      end
  end.

(** One turn of the loop: the record as updated, and whether it is
    purged ([true]) or stays relevant. *)
Definition review (now : Z) (tweets_file : option (PyDict.t (list Tweet)))
    (account : Account) : Exn + (bool * Account) :=
  match id account, username account with
  | None, _ => inl (KeyError "id")
  | Some _, None => inl (KeyError "username")
  | Some user_id, Some name =>
      let stamp := match last_checked_at account with
                   | Some s => s
                   | None => "1970-01-01T00:00:00Z"
                   end in
      match fromisoformat stamp with
      | Unparsable => inl ValueError
      | checked =>
          match tweets_file with
          | None => inl AttributeError
          | Some store =>
              match recent_after (now - DAYS_BACK * microseconds_per_day)
                                 (collected name store) with
              | inl e => inl e
              | inr recent =>
                  let followers := match fetch_user_metrics user_id with
                                   | Some new_data => followers_of new_data
                                   | None => 0
                                   end in
                  let account' := set_last_checked (Z.of_nat (List.length recent))
                                    (isoformat now) account in
                  let by_followers :=
                    if MAX_FOLLOWERS <=? followers
                    then (true, set_too_many_followers account')
                    else (false, account') in
                  match recent with
                  | _ :: _ => inr by_followers
                  | [] =>
                      match checked with
                      | Aware last _ =>
                          if DAYS_BACK <? timedelta_days (now - last)
                          then inr (true, account')
                          else inr by_followers
                      | _ => inl TypeError
                      end
                  end
              end
          end
      end
  end.

Fixpoint purge_loop (now : Z) (tweets_file : option (PyDict.t (list Tweet)))
    (accounts remaining_relevant purged_accounts : list Account)
    : Exn + (list Account * list Account) :=
  match accounts with
  | [] => inr (remaining_relevant, purged_accounts)
  | account :: rest =>
      match review now tweets_file account with
      | inl e => inl e
      | inr (true, account') =>
          purge_loop now tweets_file rest remaining_relevant
                     (purged_accounts ++ [account'])
      | inr (false, account') =>
          purge_loop now tweets_file rest (remaining_relevant ++ [account'])
                     purged_accounts
      end
  end.

(** The two files after the script, both rewrites succeeding; an
    exception before them leaves the files as they were. *)
Definition purge_irrelevant_accounts (now : Z) (rel irr : File)
    (tweets_file : option (PyDict.t (list Tweet))) : Exn + (File * File) :=
  match load_json rel, load_json irr with
  | inl e, _ | _, inl e => inl e
  | inr relevant, inr irrelevant =>
      match purge_loop now tweets_file relevant [] [] with
      | inl e => inl e
      | inr (remaining_relevant, purged_accounts) =>
          inr (Json remaining_relevant, Json (irrelevant ++ purged_accounts))
      end
  end.

End Reevaluation.

(** ** Outcomes and samples

    What the operations are expected to leave behind, in closed form,
    and the records, instants and oracles the examples run on. *)

Section Outcomes.
Context `{PyRuntime}.

(** The record as [save_account] stores it. *)
Definition promoted (now : Z) (a : Account) : Account :=
  pop_too_many_followers (set_classified_at (isoformat now) a).

Definition demoted (now : Z) (a : Account) : Account :=
  if max_followers <=? followers_of a
  then set_too_many_followers (set_classified_at (isoformat now) a)
  else set_classified_at (isoformat now) a.

(** The record survives one turn of the ageing loop. *)
Definition kept (now_utc : Z) (account : Account) : bool :=
  match keeps now_utc account with
  | inr false => false
  | _ => true
  end.

End Outcomes.

(** A file after a rewrite that ends as [w]. *)
Definition written (w : WriteOutcome) (records : list Account) (before : File) : File :=
  match w with
  | WriteOk => Json records
  | OpenFails => before
  | DumpFails => Corrupt
  end.

Definition save_logged (w : WriteOutcome) (saved : LogEntry) (user_id : string) : LogEntry :=
  match w with
  | WriteOk => saved
  | OpenFails | DumpFails => ErrorSaving (Some user_id) OSError
  end.

(** No id is a key of both dictionaries. *)
Definition disjoint_in_memory (s : State) : Prop :=
  forall k, PyDict.contains k (relevant_accounts s) = true ->
            PyDict.contains k (irrelevant_accounts s) = true -> False.

Definition carol : Account :=
  mkAccount (Some "42") (Some "carol")
            (Some (mkMetrics (Some 150) (Some 900)))
            (Some "2024-01-01T00:00:00+00:00") None None None.

(** Carol was classified irrelevant on 1 January 2024: in memory and on
    disk she is in the irrelevant store only. *)
Definition carol_irrelevant : State :=
  mkState PyDict.empty [("42", carol)] (Json []) (Json [carol]) [].

(** Dave is in the relevant store only. *)
Definition dave : Account :=
  mkAccount (Some "7") (Some "dave")
            (Some (mkMetrics (Some 2500) (Some 900)))
            (Some "2024-01-01T00:00:00+00:00") None None None.

Definition dave_relevant : State :=
  mkState [("7", dave)] PyDict.empty (Json [dave]) (Json []) [].

(** 30 January 2024, 00:00 UTC, in microseconds. *)
Definition jan30 : Z := 1706572800000000.
(** 31 January 2024, 00:00 UTC. *)
Definition jan31 : Z := 1706659200000000.
(** 1 February 2024, 00:00 UTC. *)
Definition feb01 : Z := 1706745600000000.

(** The ids a file lists. *)
Definition listed (f : File) : list (option string) :=
  match f with
  | Json records => map id records
  | Missing | Corrupt => []
  end.

(** What the tweet store holds for Carol: one tweet of 30 January. *)
Definition carol_tweets : PyDict.t (list Tweet) :=
  [("carol", [mkTweet "t1" "2024-01-30T00:00:00.000Z" "gm web3"])].

(** A user with no followers and exactly [min_tweets] tweets. *)
Definition at_min_tweets : Account :=
  mkAccount (Some "300") (Some "erin")
            (Some (mkMetrics (Some 0) (Some 300))) None None None None.

(** The ratio test in exact arithmetic: [k >= n * 2/5]. *)
Definition ratio_exact (relevant_tweets n : nat) : bool :=
  2 * Z.of_nat n <=? 5 * Z.of_nat relevant_tweets.

(** The counts [start], [start + 1], ... *)
Fixpoint counts (start : Z) (len : nat) : list Z :=
  match len with
  | O => []
  | S len' => start :: counts (start + 1) len'
  end.

Definition ratio_agrees_at (k n : Z) : bool :=
  Bool.eqb (PrimFloat.leb (PrimFloat.mul (float_of_count n) relevant_tweet_ratio)
                          (float_of_count k))
           (2 * n <=? 5 * k).

Definition ratio_agrees_upto (bound : nat) : bool :=
  forallb (fun n => forallb (fun k => ratio_agrees_at k n) (counts 0 bound))
          (counts 0 bound).

(** Five posts; the first two score above 0.8 on some label. *)
Definition five_posts : list string := ["a"; "b"; "c"; "d"; "e"].

Definition two_of_five (tweets : list string) : Exn + list (list float) :=
  inr [ [0.9%float; 0.1%float]; [0.2%float; 0.85%float]; [0.8%float];
        [0.5%float; 0.79%float]; [0.1%float] ].

(** A model with nothing to score. *)
Definition scores_nothing (tweets : list string) : Exn + list (list float) :=
  inr [].

(** A model that is down. *)
Definition model_down (tweets : list string) : Exn + list (list float) :=
  inl (Exception "CUDA out of memory").

(** What the two dictionaries and the two files are, whatever the log. *)
Definition same_stores (s s' : State) : Prop :=
  relevant_accounts s' = relevant_accounts s
  /\ irrelevant_accounts s' = irrelevant_accounts s
  /\ relevant_file s' = relevant_file s
  /\ irrelevant_file s' = irrelevant_file s.

(** A garbled stamp, no stamp, and a flagged account classified 100
    days before 31 January 2024. *)
Definition garbled : Account :=
  mkAccount (Some "1") (Some "gus") None (Some "last week") None None None.

Definition unstamped : Account :=
  mkAccount (Some "2") (Some "uma") None None None None None.

Definition whale : Account :=
  mkAccount (Some "3") (Some "walt")
            (Some (mkMetrics (Some 90000) (Some 5000)))
            (Some "2023-10-23T00:00:00+00:00") (Some true) None None.

(** What the merging loop leaves under each name. *)
Definition merged_entry (in_memory on_disk : option (list Tweet))
    : option (list Tweet) :=
  match in_memory, on_disk with
  | None, _ => on_disk
  | Some tweets, None => Some tweets
  | Some tweets, Some stored => Some (stored ++ new_tweets stored tweets)
  end.

(** An entry of the file after the save: the merged entry, unless it
    is empty. *)
Definition unless_empty (entry : option (list Tweet)) : option (list Tweet) :=
  match entry with
  | Some ((_ :: _) as tweets) => Some tweets
  | _ => None
  end.

(** X's API answers 2500 followers for Dave and nothing for anyone else. *)
Definition dave_has_grown (user_id : string) : option Account :=
  if String.eqb user_id "7"
  then Some (mkAccount (Some "7") (Some "dave")
                       (Some (mkMetrics (Some 2500) (Some 950)))
                       None None None None)
  else None.

(** * The rest of the crawler *)

(** ** API usage and the retry loop of [fetch_user_tweets] ([fetch_accounts.py]) *)

Definition post_cap_monthly : Z := 15000.
Definition base_delay : Z := 1.

(** [self.post_cap_monthly * 0.9]: the product is 13500.0 exactly, and
    Python compares an [int] with a [float] by value. *)
Definition warning_level : Z := 13500.

Inductive Notice : Type :=
| ApproachingCap (used : Z)
| CapReached
| InvalidTimeRange
| ErrorFetchingUserTweets
| ErrorFetchingTweets.

(** The usage counters of the classifier, the seconds it has slept, in
    order, and what it has logged about its requests. *)
Record Traffic : Type := mkTraffic {
  post_cap_used : Z;
  requests_made : Z;
  slept : list Z;
  notices : list Notice
}.

Definition count_request (tweets_count : Z) (t : Traffic) : Traffic :=
  mkTraffic (post_cap_used t + tweets_count) (requests_made t + 1)
            (slept t) (notices t).

Definition notice (n : Notice) : M Traffic unit :=
  modify (fun t => mkTraffic (post_cap_used t) (requests_made t) (slept t)
                             (notices t ++ [n])).

(** [await asyncio.sleep(seconds)] *)
Definition sleep (seconds : Z) : M Traffic unit :=
  modify (fun t => mkTraffic (post_cap_used t) (requests_made t)
                             (slept t ++ [seconds]) (notices t)).

Definition update_usage_metrics (tweets_count : Z) : M Traffic unit :=
  modify (count_request tweets_count) ;;
  used <- gets post_cap_used ;;
  when (warning_level <=? used) (notice (ApproachingCap used)) ;;
  if post_cap_monthly <=? used
  then notice CapReached ;; raise (Exception "Monthly post cap reached")
  else ret tt.

(** What the code meets once it has an answer.  [aiohttp] raises a
    [ContentTypeError], which is a [ClientError], on a body that is not
    declared as JSON, and [json] raises a [JSONDecodeError] on one that
    does not parse.  On a value that is not an object (a list, a
    string, a number, [null]) [data.get] raises an [AttributeError].
    On an object of another shape than the API documents, the code
    raises [e] while it reads it, after it has counted [counted] tweets
    when [data["data"]] is a non-empty value with a length;
    [Misshapen None e] also stands for any other exception [e] of
    [response.json()], such as a [UnicodeDecodeError].  Otherwise the
    code reads [data]. *)
Inductive Body (A : Type) : Type :=
| WrongContentType
| Malformed
| NotAnObject
| Misshapen (counted : option nat) (e : Exn)
| Data (data : A).

Arguments WrongContentType {A}.
Arguments Malformed {A}.
Arguments NotAnObject {A}.
Arguments Misshapen {A} counted e.
Arguments Data {A} data.

(** What a request meets: an [aiohttp.ClientError] before any answer,
    an answer, or an exception that is not a [ClientError] (the
    [TimeoutError] of the session's total timeout, for instance), which
    no [except] of the two loops catches. *)
Inductive Attempt (A : Type) : Type :=
| ClientError
| Answered (response : Response) (body : Body A)
| Raised (e : Exn).

Arguments ClientError {A}.
Arguments Answered {A} response body.
Arguments Raised {A} e.

Section Fetching.
Context `{PyRuntime}.

(** The network and the clock, by the value of [retry_count] when the
    request is sent; an answer holds the texts of
    [data.get("data", [])], which the request asks for with
    [tweet.fields].  The session is open, as it is under
    [async with AccountClassifier(...)]. *)
Variable server : Z -> Attempt (list string).
Variable clock : Z -> Z.

(** The [except aiohttp.ClientError] branch, up to the next turn. *)
Definition after_client_error (retry_count : Z) : M Traffic Z :=
  notice ErrorFetchingUserTweets ;;
  let retry_count := retry_count + 1 in
  when (retry_count <? max_retries) (sleep (base_delay * 2 ^ retry_count)) ;;
  ret retry_count.

(** [while retry_count < self.max_retries]: every turn that does not
    leave the function adds one to [retry_count], so the loop is a
    recursion on [retries_left = max_retries - retry_count]. *)
Fixpoint fetch_attempts (retries_left : nat) : M Traffic (list string) :=
  match retries_left with
  | O => ret []
  | S retries_left' =>
      let retry_count := max_retries - Z.of_nat retries_left in
      match server retry_count with
      | ClientError =>
          after_client_error retry_count ;; fetch_attempts retries_left'
      | Answered response body =>
          match handle_rate_limit (clock retry_count) response retry_count with
          | inl e => raise e
          | inr (RetryAfter wait_time) =>
              sleep wait_time ;; fetch_attempts retries_left'
          | inr NoRetry =>
              if 400 <=? status response then
                (* [response.raise_for_status()] *)
                after_client_error retry_count ;; fetch_attempts retries_left'
              else
                match body with
                | WrongContentType =>
                    after_client_error retry_count ;; fetch_attempts retries_left'
                | Malformed => raise JSONDecodeError
                | NotAnObject => raise AttributeError
                | Misshapen counted e =>
                    match counted with
                    | Some (S _ as n) => update_usage_metrics (Z.of_nat n)
                    | Some O | None => ret tt
                    end ;;
                    raise e
                | Data tweets =>
                    match tweets with
                    | [] => ret tt
                    | _ :: _ => update_usage_metrics (Z.of_nat (List.length tweets))
                    end ;;
                    ret (firstn tweets_per_user tweets)
                end
          end
      | Raised e => raise e
      end
  end.

(** [start_time] and [end_time] are the two formatted bounds of the
    seven-day window. *)
Definition fetch_user_tweets (start_time end_time : string)
    : M Traffic (list string) :=
  if negb (String.ltb start_time end_time)
  then notice InvalidTimeRange ;; ret []
  else fetch_attempts (Z.to_nat max_retries).

End Fetching.

(** ** The search: [fetch_recent_tweets] ([fetch_accounts.py]) *)

Definition max_pages : nat := 5.

(** What the code reads from an answer of the search: [data], the users
    of [includes], and [meta.next_token]. *)
Record Page : Type := mkPage {
  page_tweets : list Tweet;
  page_users : list Account;
  page_next_token : option string
}.

(** How the [while True] of one page ends: with a [return] of the
    function, or with a [break], and then with the retries that are
    left and the number of requests sent so far. *)
Inductive PageEnd : Type :=
| Return (all_tweets : list Tweet) (users_map : PyDict.t Account)
| Break (all_tweets : list Tweet) (users_map : PyDict.t Account)
        (retries_left request : nat).

Section Searching.
Context `{PyRuntime}.

(** The network and the clock, by the number of requests sent before;
    the session is open. *)
Variable search : nat -> Attempt Page.
Variable clock : nat -> Z.

(** The [while True] of one page.  [retry_count] is never reset and
    grows by one with every turn that is repeated, so the loop is a
    recursion on [retries_left = max_retries - retry_count]; the test
    [retry_count >= self.max_retries] is [retries_left = 0]. *)
Fixpoint while_true (retries_left request : nat) (all_tweets : list Tweet)
    (users_map : PyDict.t Account) {struct retries_left} : M Traffic PageEnd :=
  let retry_count := max_retries - Z.of_nat retries_left in
  let except_client_error :=
    notice ErrorFetchingTweets ;;
    match retries_left with
    | O => ret (Return all_tweets users_map)
    | S retries_left' =>
        sleep 10 ;;
        while_true retries_left' (S request) all_tweets users_map
    end in
  match search request with
  | ClientError => except_client_error
  | Answered response body =>
      match handle_rate_limit (clock request) response retry_count with
      | inl e => raise e
      | inr (RetryAfter wait_time) =>
          match retries_left with
          | S retries_left' =>
              sleep wait_time ;;
              while_true retries_left' (S request) all_tweets users_map
          | O =>
              (* not reached: no retry is asked for at [max_retries] *)
              ret (Return all_tweets users_map)
          end
      | inr NoRetry =>
          if 400 <=? status response then except_client_error
          else
            match body with
            | WrongContentType => except_client_error
            | Malformed => raise JSONDecodeError
            | NotAnObject => raise AttributeError
            | Misshapen counted e =>
                match counted with
                | Some (S _ as n) => update_usage_metrics (Z.of_nat n)
                | Some O | None => ret tt
                end ;;
                raise e
            | Data page =>
                all_tweets' <-
                  match page_tweets page with
                  | [] => ret all_tweets
                  | _ :: _ =>
                      update_usage_metrics
                        (Z.of_nat (List.length (page_tweets page))) ;;
                      ret (all_tweets ++ page_tweets page)
                  end ;;
                match collect_users (page_users page) users_map with
                | inl e => raise e
                | inr users_map' =>
                    match page_next_token page with
                    | Some (String _ _) =>
                        sleep 60 ;;
                        ret (Break all_tweets' users_map' retries_left (S request))
                    | Some EmptyString | None =>
                        ret (Return all_tweets' users_map')
                    end
                end
            end
      end
  | Raised e => raise e
  end.

(** [for page in range(self.max_pages)] *)
Fixpoint pages (pages_left retries_left request : nat) (all_tweets : list Tweet)
    (users_map : PyDict.t Account) {struct pages_left}
    : M Traffic (list Tweet * PyDict.t Account) :=
  match pages_left with
  | O => ret (all_tweets, users_map)
  | S pages_left' =>
      page_end <- while_true retries_left request all_tweets users_map ;;
      match page_end with
      | Return all_tweets' users_map' => ret (all_tweets', users_map')
      | Break all_tweets' users_map' retries_left' request' =>
          pages pages_left' retries_left' request' all_tweets' users_map'
      end
  end.

Definition fetch_recent_tweets : M Traffic (list Tweet * PyDict.t Account) :=
  pages max_pages (Z.to_nat max_retries) 0 [] PyDict.empty.

End Searching.

(** ** The lock file: [check_existing_process] and [cleanup_lock] *)

Inductive Platform : Type := Posix | Windows_NT.

(** What [os.kill(pid, 0)] or [OpenProcess(1, False, pid)] finds: the
    process; no such process ([ProcessLookupError], or a null handle);
    a process that may not be signalled ([PermissionError], or a null
    handle); or a number that is no process id ([OverflowError]). *)
Inductive Probe : Type := Alive | NoSuchProcess | NotPermitted | OutOfRange.

Record Host : Type := mkHost {
  os_name : Platform;
  probe : Z -> Probe;
  getpid : Z
}.

(** The content of [account_classifier.lock], [None] when the file does
    not exist. *)
Definition Lock : Type := option string.

Section LockFile.
Context `{PyRuntime}.

(** [str] on integers. *)
Variable str : Z -> string.

Definition unlink : M Lock unit := modify (fun _ => None).

Definition write_lock (content : string) : M Lock unit :=
  modify (fun _ => Some content).

(** [int(f.read().strip())]; [int] ignores surrounding whitespace. *)
Definition read_pid : M Lock Z :=
  fun lock =>
    match lock with
    | None => (lock, inl OSError)
    | Some content =>
        match int_of_str content with
        | Some pid => (lock, inr pid)
        | None => (lock, inl ValueError)
        end
    end.

(** [os.kill(pid, 0)] *)
Definition kill0 (host : Host) (pid : Z) : M Lock unit :=
  match probe host pid with
  | Alive => ret tt
  | NoSuchProcess | NotPermitted => raise OSError
  | OutOfRange => raise (Exception "OverflowError")
  end.

(** [kernel32.OpenProcess(1, False, pid)], read as a condition. *)
Definition open_process (host : Host) (pid : Z) : M Lock bool :=
  match probe host pid with
  | Alive => ret true
  | NoSuchProcess | NotPermitted => ret false
  | OutOfRange => raise (Exception "OverflowError")
  end.

(** The part under [if lock_file.exists():]; [true] when it returns
    [True] from the function. *)
Definition probe_lock (host : Host) : M Lock bool :=
  try_except
    (pid <- read_pid ;;
     match os_name host with
     | Windows_NT => open_process host pid
     | Posix => kill0 host pid ;; ret true
     end)
    (fun e =>
       match e with
       | ValueError | OSError => unlink ;; ret false
       | _ => raise e
       end).

Definition check_existing_process (host : Host) : M Lock bool :=
  lock <- gets (fun lock : Lock => lock) ;;
  running <- match lock with
             | Some _ => probe_lock host
             | None => ret false
             end ;;
  if running then ret true
  else write_lock (str (getpid host)) ;; ret false.

Definition cleanup_lock : M Lock unit := unlink.

End LockFile.

(** ** [reevaluate_irrelevant] ([reevaluate_irrelevant_accounts.py]) *)


Section ReevaluateIrrelevant.
Context `{PyRuntime}.

Variable classifier : list string -> Exn + list (list float).

(** [fetch_user_data]: the user object, or [{}] ([None] here) on any
    failure; and, for each user id, what [fetch_user_tweets] answers,
    how the rewrite of the file ends, and the clock at the save. *)
Variable fetch_user_data : string -> option Account.
Variable fetched : string -> Exn + list string.
Variable write_outcome : string -> WriteOutcome.
Variable now : string -> Z.




End ReevaluateIrrelevant.

(** ** More of the tweet store ([fetch_tweets.py]) *)

(** [max(...)] over strings: the first of the largest, compared as
    Python compares [str]. *)
Fixpoint latest (best : string) (rest : list string) : string :=
  match rest with
  | [] => best
  | s :: rest' => latest (if String.ltb best s then s else best) rest'
  end.

(** [get_latest_collected_time] *)
Definition get_latest_collected_time (username : string)
    (all_tweets : PyDict.t (list Tweet)) : option string :=
  match PyDict.get username all_tweets with
  | None | Some [] => None
  | Some (tweet :: rest) => Some (latest (created_at tweet) (map created_at rest))
  end.

(** [clean_all_tweets]: the file afterwards; nothing is done when it
    does not exist. *)
Definition clean_all_tweets (file : option (PyDict.t (list Tweet)))
    : option (PyDict.t (list Tweet)) :=
  option_map cleaned file.

(** ** Text clean-up: [fix_double_ellipses] ([analyze_tweets.py], [streamlit_app.py]) *)

(** [sub in text] *)
Fixpoint occurs (sub text : string) : bool :=
  if String.prefix sub text then true
  else
    match text with
    | EmptyString => false
    | String _ rest => occurs sub rest
    end.

(** [text.replace(old, new)] for a non-empty [old]: the occurrences are
    taken from the left and do not overlap; [skip] counts the
    characters of the occurrence just replaced that are still ahead. *)
Fixpoint replace_skipping (skip : nat) (old new text : string) : string :=
  match text with
  | EmptyString => EmptyString
  | String c rest =>
      match skip with
      | S skip' => replace_skipping skip' old new rest
      | O =>
          if String.prefix old text
          then String.append new
                 (replace_skipping (String.length old - 1) old new rest)
          else String c (replace_skipping 0 old new rest)
      end
  end.

Definition replace (old new text : string) : string :=
  replace_skipping 0 old new text.

(** [while "... ..." in text: text = text.replace("... ...", "...")],
    for at most [fuel] turns. *)
Fixpoint fix_double_ellipses_loop (fuel : nat) (text : string) : string :=
  match fuel with
  | O => text
  | S fuel' =>
      if occurs "... ..." text
      then fix_double_ellipses_loop fuel' (replace "... ..." "..." text)
      else text
  end.

(** Every turn shortens the text, so its length is fuel enough. *)
Definition fix_double_ellipses (text : string) : string :=
  fix_double_ellipses_loop (String.length text) text.

(** ** Further outcomes and samples *)

(** An attempt that ends in the [except aiohttp.ClientError] branch
    whatever the retry count: no answer, an error status other than
    429, or a body that is not declared as JSON. *)
Definition fails {A : Type} (a : Attempt A) : bool :=
  match a with
  | ClientError => true
  | Answered response body =>
      negb (status response =? 429)
      && ((400 <=? status response)
          || match body with WrongContentType => true | _ => false end)
  | Raised _ => false
  end.

(** What a search may raise: [int()] on a reset header, [json] on a
    body, [data.get] on a body that is not an object, [user["id"]],
    the monthly cap, what the reading of a misshapen object raises,
    and what a request itself raises that is not a [ClientError]. *)
Definition may_escape (search : nat -> Attempt Page) (e : Exn) : Prop :=
  e = ValueError \/ e = JSONDecodeError \/ e = AttributeError
  \/ e = KeyError "id"
  \/ e = Exception "Monthly post cap reached"
  \/ (exists request response counted,
        search request = Answered response (Misshapen counted e))
  \/ (exists request, search request = Raised e).

(** Every entry is a user under its own id that passes the inline
    filter. *)
Definition admitted (users_map : PyDict.t Account) : Prop :=
  forall k user,
    PyDict.get k users_map = Some user ->
    id user = Some k /\ passes_inline_filter user = true.

(** From [t] to [t'] the classifier has slept at most [n] times,
    between 1 and 900 seconds each, and has counted at most [requests]
    requests. *)
Definition paused (t t' : Traffic) (n : nat) (requests : Z) : Prop :=
  exists pauses,
    slept t' = slept t ++ pauses
    /\ (List.length pauses <= n)%nat
    /\ Forall (fun p => 1 <= p <= 900) pauses
    /\ requests_made t <= requests_made t' <= requests_made t + requests.

(** What one page leaves behind, however its [while True] ends. *)
Definition page_bound (search : nat -> Attempt Page)
    (retries_left request : nat) (t t' : Traffic)
    (r : Exn + PageEnd) : Prop :=
  match r with
  | inl e => may_escape search e /\ paused t t' retries_left 1
  | inr (Return _ users_map') =>
      admitted users_map' /\ paused t t' retries_left 1
  | inr (Break _ users_map' retries_left' request') =>
      admitted users_map'
      /\ (retries_left' <= retries_left)%nat
      /\ paused t t' (retries_left - retries_left' + 1) 1
      /\ (request' + retries_left' <= request + retries_left + 1)%nat
  end.

(** What may escape [fetch_user_tweets]. *)
Definition may_escape_fetch (server : Z -> Attempt (list string)) (e : Exn)
    : Prop :=
  e = ValueError \/ e = JSONDecodeError \/ e = AttributeError
  \/ e = Exception "Monthly post cap reached"
  \/ (exists retry_count response counted,
        server retry_count = Answered response (Misshapen counted e))
  \/ (exists retry_count, server retry_count = Raised e).

(** What [retries_left] turns of the retry loop leave behind. *)
Definition fetch_bound (server : Z -> Attempt (list string))
    (retries_left : nat) (t t' : Traffic) (r : Exn + list string) : Prop :=
  paused t t' retries_left 1
  /\ match r with
     | inr texts => (List.length texts <= tweets_per_user)%nat
     | inl e => may_escape_fetch server e
     end.

(** No tweet id comes twice under one name. *)
Definition distinct_ids (store : PyDict.t (list Tweet)) : Prop :=
  forall name, NoDup (map tweet_id (collected name store)).

(** X's API answers [MAX_FOLLOWERS] followers or more for this id; a
    failed fetch answers [{}], which counts as 0 followers. *)
Definition outgrown (fetch_user_metrics : string -> option Account)
    (user_id : string) : bool :=
  match fetch_user_metrics user_id with
  | Some new_data => MAX_FOLLOWERS <=? followers_of new_data
  | None => false
  end.

(** Every record is stored under its own id, once. *)
Definition keyed_by_id (d : PyDict.t Account) : Prop :=
  PyDict.wf d /\ forall k a, In (k, a) d -> id a = Some k.

(** A record without ["id"]. *)
Definition nameless : Account :=
  mkAccount None (Some "anon") None None None None None.

(** A record whose stamp carries no offset, as
    [datetime.utcnow().isoformat()] writes it. *)
Definition naive_stamped : Account :=
  mkAccount (Some "5") (Some "nora") None (Some "2024-01-01T00:00:00")
            None None None.

(** An answer of the API for Carol: the tweet already stored and a new one. *)
Definition carol_batch : list Tweet :=
  [ mkTweet "t1" "2024-01-30T00:00:00.000Z" "gm web3";
    mkTweet "t2" "2024-01-31T08:00:00.000Z" "gn" ].

(** The tweet store with one tweet of Dave, of 30 January. *)
Definition dave_tweets : PyDict.t (list Tweet) :=
  [("dave", [mkTweet "d1" "2024-01-30T00:00:00.000Z" "gm"])].

(** X's API is down. *)
Definition api_down (user_id : string) : option Account := None.

(** A network that is down, and a fresh classifier. *)
Definition network_down (retry_count : Z) : Attempt (list string) := ClientError.

Definition fresh_traffic : Traffic := mkTraffic 0 0 [] [].

(** A search that meets three connection errors and then five pages,
    each with a token for the next. *)
Definition one_tweet_page : Page :=
  mkPage [mkTweet "t" "2024-01-30T00:00:00.000Z" "gm web3"] [carol] (Some "next").

Definition busy_search (request : nat) : Attempt Page :=
  if (request <? 3)%nat then ClientError
  else Answered (mkResponse 200 []) (Data one_tweet_page).

(** The same for the first eight requests, and garbage afterwards. *)
Definition busy_search_then_garbage (request : nat) : Attempt Page :=
  if (request <? 8)%nat then busy_search request
  else Answered (mkResponse 200 []) Malformed.

(** The same for the first seven requests only. *)
Definition busy_search_then_early_garbage (request : nat) : Attempt Page :=
  if (request <? 7)%nat then busy_search request
  else Answered (mkResponse 200 []) Malformed.

(** [str] on the integers, in decimal. *)
Definition decimal_str (n : Z) : string := NilZero.string_of_int (Z.to_int n).

(** A classifier that runs as process 4711, and a second one started on
    the same machine while the first is running. *)
Definition first_instance : Host :=
  mkHost Posix (fun _ => NoSuchProcess) 4711.

Definition second_instance : Host :=
  mkHost Posix (fun pid => if pid =? 4711 then Alive else NoSuchProcess) 4712.

(** * Properties *)

(** ** Dictionaries *)

Module PyDictFacts.
Import PyDict.

Section Facts.
Context {V : Type}.
Implicit Types (d : PyDict.t V) (k : string) (v : V).

Lemma get_set_same k v d : get k (set k v d) = Some v.
Proof.
  induction d as [|[k' v'] rest IH]; simpl.
  - now rewrite String.eqb_refl.
  - destruct (String.eqb k k') eqn:E; simpl; rewrite E; auto.
Qed.

Lemma get_set_other k k' v d : k' <> k -> get k' (set k v d) = get k' d.
Proof.
  intros Hne. induction d as [|[k0 v0] rest IH]; simpl.
  - apply String.eqb_neq in Hne. now rewrite Hne.
  - destruct (String.eqb k k0) eqn:E; simpl.
    + apply String.eqb_eq in E. subst k0.
      apply String.eqb_neq in Hne. now rewrite Hne.
    + now rewrite IH.
Qed.

Lemma get_del_same k d : get k (del k d) = None.
Proof.
  induction d as [|[k' v'] rest IH]; simpl; auto.
  destruct (String.eqb k k') eqn:E; simpl; auto.
  now rewrite E.
Qed.

Lemma get_del_other k k' d : k' <> k -> get k' (del k d) = get k' d.
Proof.
  intros Hne. induction d as [|[k0 v0] rest IH]; simpl; auto.
  destruct (String.eqb k k0) eqn:E; simpl.
  - apply String.eqb_eq in E. subst k0.
    apply String.eqb_neq in Hne. now rewrite Hne.
  - now rewrite IH.
Qed.

Lemma contains_set_same k v d : contains k (set k v d) = true.
Proof. unfold contains. now rewrite get_set_same. Qed.

Lemma contains_set_other k k' v d :
  k' <> k -> contains k' (set k v d) = contains k' d.
Proof. intros. unfold contains. now rewrite get_set_other. Qed.

Lemma contains_del_same k d : contains k (del k d) = false.
Proof. unfold contains. now rewrite get_del_same. Qed.

Lemma contains_del_other k k' d :
  k' <> k -> contains k' (del k d) = contains k' d.
Proof. intros. unfold contains. now rewrite get_del_other. Qed.

(** Re-assigning the value a key already has changes nothing. *)
Lemma set_get_id k v d : get k d = Some v -> set k v d = d.
Proof.
  induction d as [|[k' v'] rest IH]; simpl; [discriminate|].
  destruct (String.eqb k k') eqn:E.
  - now intros [= ->].
  - intros H. now rewrite IH.
Qed.

Lemma get_In k v d : get k d = Some v -> In (k, v) d.
Proof.
  induction d as [|[k' v'] rest IH]; simpl; [discriminate|].
  destruct (String.eqb k k') eqn:E.
  - apply String.eqb_eq in E. subst k'. intros [= ->]. now left.
  - intros H. right. auto.
Qed.

Lemma get_None_keys k d : get k d = None <-> ~ In k (keys d).
Proof.
  induction d as [|[k' v'] rest IH]; simpl.
  - tauto.
  - destruct (String.eqb k k') eqn:E.
    + apply String.eqb_eq in E. subst k'. split; [discriminate | tauto].
    + apply String.eqb_neq in E. rewrite IH. split.
      * intros H [H1 | H1]; [now subst | tauto].
      * tauto.
Qed.

Lemma contains_keys k d : contains k d = true <-> In k (keys d).
Proof.
  unfold contains. destruct (get k d) eqn:E.
  - split; auto. intros _.
    apply get_In in E. unfold keys. now apply (in_map fst) in E.
  - apply get_None_keys in E. split; [discriminate | tauto].
Qed.

Lemma In_get k v d : wf d -> In (k, v) d -> get k d = Some v.
Proof.
  unfold wf, keys. induction d as [|[k' v'] rest IH]; simpl; [tauto|].
  intros Hnd [H | H]; inversion Hnd as [|? ? Hnotin Hnd']; subst.
  - injection H as -> ->. now rewrite String.eqb_refl.
  - destruct (String.eqb k k') eqn:E; auto.
    apply String.eqb_eq in E. subst k'.
    exfalso. apply Hnotin. now apply (in_map fst) in H.
Qed.

Lemma keys_set k v d :
  keys (set k v d) = if contains k d then keys d else keys d ++ [k].
Proof.
  unfold contains. induction d as [|[k' v'] rest IH]; simpl; auto.
  destruct (String.eqb k k') eqn:E; simpl; auto.
  rewrite IH. now destruct (get k rest).
Qed.

Lemma wf_empty : wf (@empty V).
Proof. constructor. Qed.

Lemma wf_set k v d : wf d -> wf (set k v d).
Proof.
  unfold wf. intros Hnd. rewrite keys_set.
  destruct (contains k d) eqn:E; auto.
  assert (Hnot : ~ In k (keys d)).
  { intros Hin. apply contains_keys in Hin. congruence. }
  clear E. induction (keys d) as [|a l IH]; simpl.
  - constructor; [tauto | constructor].
  - inversion Hnd; subst. constructor.
    + rewrite in_app_iff. simpl. intros [H | [H | []]]; [tauto|].
      subst. apply Hnot. now left.
    + apply IH; auto. intros H. apply Hnot. now right.
Qed.

Lemma wf_del k d : wf d -> wf (del k d).
Proof.
  unfold wf, keys, del. induction d as [|[k' v'] rest IH]; simpl; auto.
  intros Hnd. inversion Hnd; subst.
  destruct (String.eqb k k'); simpl; auto.
  constructor; auto.
  intros Hin. apply in_map_iff in Hin as [[k0 v0] [Hk Hin]].
  simpl in Hk. subst k0. apply filter_In in Hin as [Hin _].
  apply H1. now apply (in_map fst) in Hin.
Qed.

End Facts.

End PyDictFacts.

(** ** Deleting a key that is absent *)

Lemma del_absent {V : Type} (k : string) (d : PyDict.t V) :
  PyDict.contains k d = false -> PyDict.del k d = d.
Proof.
  unfold PyDict.contains, PyDict.del.
  induction d as [|[k' v'] rest IH]; simpl; auto.
  destruct (String.eqb k k') eqn:E; simpl; [discriminate|].
  intros Hc. now rewrite IH.
Qed.

(** ** What [save_account] leaves behind *)

Section SaveAccount.
Context `{PyRuntime}.

Lemma save_account_relevant now w s data user_id :
  id data = Some user_id ->
  save_account now w true (mkFrame s data) =
    (let relevant' := PyDict.set user_id (promoted now data) (relevant_accounts s) in
     mkFrame
       (mkState relevant'
                (PyDict.del user_id (irrelevant_accounts s))
                (written w (PyDict.values relevant') (relevant_file s))
                (irrelevant_file s)
                (log s ++ [save_logged w (SavedRelevant user_id) user_id]))
       (promoted now data),
     inr tt).
Proof.
  intros Hid. destruct s as [rel irr rf irf lg].
  unfold save_account, try_except, save_account_body, bind, subscript_id.
  simpl. rewrite Hid. simpl.
  destruct (PyDict.contains user_id irr) eqn:E; simpl;
    try rewrite (del_absent _ _ E);
    destruct w; simpl; unfold bind; simpl; rewrite ?Hid; reflexivity.
Qed.

Lemma save_account_irrelevant now w s data user_id :
  id data = Some user_id ->
  save_account now w false (mkFrame s data) =
    (let irrelevant' := PyDict.set user_id (demoted now data) (irrelevant_accounts s) in
     mkFrame
       (mkState (PyDict.del user_id (relevant_accounts s))
                irrelevant'
                (relevant_file s)
                (written w (PyDict.values irrelevant') (irrelevant_file s))
                (log s ++ [save_logged w (SavedIrrelevant user_id) user_id]))
       (demoted now data),
     inr tt).
Proof.
  intros Hid. destruct s as [rel irr rf irf lg].
  unfold save_account, try_except, save_account_body, bind, subscript_id, demoted.
  simpl. rewrite Hid. simpl.
  change (followers_of (set_classified_at (isoformat now) data))
    with (followers_of data).
  destruct (max_followers <=? followers_of data) eqn:F; simpl;
    (destruct (PyDict.contains user_id rel) eqn:E; simpl;
     try rewrite (del_absent _ _ E);
     destruct w; simpl; unfold bind; simpl; rewrite ?Hid; reflexivity).
Qed.

Lemma save_account_without_id now w relevant s data :
  id data = None ->
  save_account now w relevant (mkFrame s data) =
    (mkFrame (with_log (log s ++ [ErrorSaving None (KeyError "id")]) s) data, inr tt).
Proof.
  intros Hid.
  unfold save_account, try_except, save_account_body, bind, subscript_id.
  simpl. rewrite Hid. simpl. rewrite Hid. reflexivity.
Qed.

End SaveAccount.

(** ** The two dictionaries in memory stay disjoint *)

Section MemoryExclusion.
Context `{PyRuntime}.

(** After [save_account] the account is a key of the dictionary it was
    saved to and of no other, whatever the rewrite of the file did. *)
Lemma save_account_moves now w relevant s data user_id :
  id data = Some user_id ->
  let s' := self (fst (save_account now w relevant (mkFrame s data))) in
  PyDict.contains user_id (relevant_accounts s') = relevant
  /\ PyDict.contains user_id (irrelevant_accounts s') = negb relevant.
Proof.
  intros Hid. destruct relevant.
  - rewrite (save_account_relevant _ _ _ _ _ Hid). simpl.
    now rewrite PyDictFacts.contains_set_same, PyDictFacts.contains_del_same.
  - rewrite (save_account_irrelevant _ _ _ _ _ Hid). simpl.
    now rewrite PyDictFacts.contains_set_same, PyDictFacts.contains_del_same.
Qed.

Lemma save_account_keeps_disjoint now w relevant s data :
  disjoint_in_memory s ->
  disjoint_in_memory (self (fst (save_account now w relevant (mkFrame s data)))).
Proof.
  intros Hd. destruct (id data) as [user_id|] eqn:Hid.
  - destruct relevant;
      [rewrite (save_account_relevant _ _ _ _ _ Hid)
      |rewrite (save_account_irrelevant _ _ _ _ _ Hid)];
      cbv zeta; unfold disjoint_in_memory, fst, self, relevant_accounts,
        irrelevant_accounts; intros k;
      (destruct (String.eqb_spec k user_id) as [->|Hne];
       [ rewrite PyDictFacts.contains_del_same; discriminate
       | rewrite PyDictFacts.contains_set_other, PyDictFacts.contains_del_other by auto;
         apply Hd ]).
  - rewrite (save_account_without_id _ _ _ _ _ Hid). simpl. exact Hd.
Qed.

End MemoryExclusion.

(** ** [save_account] and the files *)

(** C3 (the code against the claim): a promotion rewrites the relevant
    file only and a demotion the irrelevant file only.  Carol, promoted
    with every write succeeding, is stored with the flag cleared and the
    new [classified_at], leaves the irrelevant dictionary, and stays in
    the irrelevant file; Dave, demoted with 2500 followers, is stored
    flagged, leaves the relevant dictionary, and stays in the relevant
    file. *)
Theorem save_account_rewrites_one_file :
  (let s' := self (fst (save_account jan30 WriteOk true
                          (mkFrame carol_irrelevant carol))) in
   relevant_accounts s' = [("42", promoted jan30 carol)]
   /\ too_many_followers (promoted jan30 carol) = None
   /\ classified_at (promoted jan30 carol) = Some "2024-01-30T00:00:00+00:00"
   /\ relevant_file s' = Json [promoted jan30 carol]
   /\ irrelevant_accounts s' = []
   /\ irrelevant_file s' = Json [carol])
  /\
  (let s' := self (fst (save_account jan30 WriteOk false
                          (mkFrame dave_relevant dave))) in
   irrelevant_accounts s' = [("7", demoted jan30 dave)]
   /\ too_many_followers (demoted jan30 dave) = Some true
   /\ classified_at (demoted jan30 dave) = Some "2024-01-30T00:00:00+00:00"
   /\ irrelevant_file s' = Json [demoted jan30 dave]
   /\ relevant_accounts s' = []
   /\ relevant_file s' = Json [dave]).
Proof.
  split; vm_compute; repeat split; reflexivity.
Qed.

(** C1 (the code against the claim): after Carol's promotion both files
    list her; a classifier started from these files has her in both
    dictionaries; and a run of [purge_irrelevant_accounts] on them the
    next day, which keeps her as relevant, writes her to both files
    again. *)
Theorem promoted_account_is_in_both_files :
  let s' := self (fst (save_account jan30 WriteOk true
                         (mkFrame carol_irrelevant carol))) in
  In (Some "42") (listed (relevant_file s'))
  /\ In (Some "42") (listed (irrelevant_file s'))
  /\ (exists restarted,
        load_existing_accounts jan30
          (initial (relevant_file s') (irrelevant_file s')) = (restarted, inr tt)
        /\ PyDict.contains "42" (relevant_accounts restarted) = true
        /\ PyDict.contains "42" (irrelevant_accounts restarted) = true)
  /\ purge_irrelevant_accounts (fun _ => None) jan31
       (relevant_file s') (irrelevant_file s') (Some carol_tweets)
     = inr (Json [set_last_checked 1 "2024-01-31T00:00:00+00:00"
                    (promoted jan30 carol)],
            Json [carol]).
Proof.
  vm_compute. split; [now left|]. split; [now left|]. split.
  - eexists. split; [reflexivity|]. split; reflexivity.
  - reflexivity.
Qed.

(** C10: [save_account] returns normally on every record, for either
    classification and however the rewrite ends: when its body raises,
    the exception is logged with the record's id and nothing else
    changes after the point of failure.  The price: with [open] failing,
    Carol's promotion leaves her in the relevant dictionary and absent
    from the relevant file. *)
Theorem save_account_never_raises :
  (forall (R : PyRuntime) now w relevant fr,
     exists fr',
       save_account now w relevant fr = (fr', inr tt)
       /\ match save_account_body now w relevant fr with
          | (fr1, inr _) => fr' = fr1
          | (fr1, inl e) =>
              fr' = mkFrame (with_log (log (self fr1)
                                        ++ [ErrorSaving (id (user_data fr1)) e])
                               (self fr1))
                            (user_data fr1)
          end)
  /\ (let s' := self (fst (save_account jan30 OpenFails true
                             (mkFrame carol_irrelevant carol))) in
      PyDict.contains "42" (relevant_accounts s') = true
      /\ relevant_file s' = Json []
      /\ log s' = [ErrorSaving (Some "42") OSError]).
Proof.
  split.
  - intros R now w relevant fr.
    unfold save_account, try_except.
    destruct (save_account_body now w relevant fr) as [fr1 [e | []]].
    + eexists. split; reflexivity.
    + eexists. split; reflexivity.
  - vm_compute. repeat split; reflexivity.
Qed.

(** ** The metric gate and the inline filter *)

Lemma inline_filter_spec (user : Account) :
  passes_inline_filter user = true
  <-> followers_of user < max_followers /\ min_tweets <= tweet_count_of user.
Proof.
  unfold passes_inline_filter.
  rewrite andb_true_iff, Z.leb_le, Z.ltb_lt. tauto.
Qed.

Lemma metric_gate_spec (user : Account) :
  meets_metric_thresholds user = true
  <-> followers_of user < max_followers /\ min_tweets < tweet_count_of user.
Proof.
  unfold meets_metric_thresholds.
  rewrite andb_true_iff, !Z.ltb_lt. tauto.
Qed.

(** Away from [tweet_count = min_tweets] the two tests agree, also at
    [followers_count = max_followers], where both reject. *)
Lemma inline_filter_agrees_off_boundary (user : Account) :
  tweet_count_of user <> min_tweets ->
  passes_inline_filter user = meets_metric_thresholds user.
Proof.
  intros Hne. unfold passes_inline_filter, meets_metric_thresholds.
  rewrite andb_comm. f_equal.
  destruct (Z.leb_spec min_tweets (tweet_count_of user));
    destruct (Z.ltb_spec min_tweets (tweet_count_of user)); auto; lia.
Qed.

(** C9 (the code against the claim): at exactly 300 tweets the inline
    filter of [fetch_recent_tweets] lets the user into [users_map] and
    [meets_metric_thresholds] rejects the same user. *)
Theorem inline_filter_differs_at_min_tweets :
  tweet_count_of at_min_tweets = 300
  /\ followers_of at_min_tweets = 0
  /\ passes_inline_filter at_min_tweets = true
  /\ meets_metric_thresholds at_min_tweets = false
  /\ collect_users [at_min_tweets] PyDict.empty = inr [("300", at_min_tweets)].
Proof.
  repeat split; reflexivity.
Qed.

(** ** The wait on a 429 *)

Section RateLimitFacts.
Context `{PyRuntime}.

(** With a reset header that [int()] reads, the wait is
    [min(max(reset - now, 1), 900)]. *)
Lemma handle_rate_limit_with_reset current_time hs retry_count reset reset_time :
  PyDict.get "x-rate-limit-reset" hs = Some reset ->
  reset <> "" ->
  int_of_str reset = Some reset_time ->
  retry_count < max_retries ->
  handle_rate_limit current_time (mkResponse 429 hs) retry_count
  = inr (RetryAfter (Z.min (Z.max (reset_time - current_time) 1) 900)).
Proof.
  intros Hget Hne Hint Hretry.
  unfold handle_rate_limit, header_or_zero, uncapped_wait. simpl.
  rewrite Hget.
  destruct (Z.leb_spec max_retries retry_count); [lia|].
  apply String.eqb_neq in Hne. now rewrite Hne, Hint.
Qed.

Lemma handle_rate_limit_wait_bounds current_time response retry_count wait_time :
  handle_rate_limit current_time response retry_count = inr (RetryAfter wait_time) ->
  1 <= wait_time <= 900.
Proof.
  unfold handle_rate_limit, uncapped_wait.
  destruct (negb (status response =? 429)); [discriminate|].
  destruct (max_retries <=? retry_count); [discriminate|].
  destruct (String.eqb _ ""); [intros [= <-]; lia|].
  destruct (int_of_str _); [|discriminate].
  intros [= <-]. lia.
Qed.

(** Without the header, the default ['0'] is read as a reset at the
    epoch: the wait is one second at any time after it. *)
Lemma handle_rate_limit_without_reset current_time hs retry_count :
  PyDict.get "x-rate-limit-reset" hs = None ->
  int_of_str "0" = Some 0 ->
  0 <= current_time ->
  retry_count < max_retries ->
  handle_rate_limit current_time (mkResponse 429 hs) retry_count
  = inr (RetryAfter 1).
Proof.
  intros Hget Hint Hnow Hretry.
  unfold handle_rate_limit, header_or_zero, uncapped_wait. simpl.
  rewrite Hget.
  destruct (Z.leb_spec max_retries retry_count); [lia|].
  simpl. rewrite Hint. do 2 f_equal. lia.
Qed.

End RateLimitFacts.

(** C4 (the code against the claim): a 429 without the reset header, on
    the first attempt, at 14 November 2023 22:13:20 UTC: the client
    waits 1 second, not 60; with the header at now + 30 it waits 30, and
    with the header a day ahead it waits 900. *)
Theorem handle_rate_limit_absent_header_waits_one_second :
  handle_rate_limit 1700000000 (mkResponse 429 []) 0 = inr (RetryAfter 1)
  /\ handle_rate_limit 1700000000
       (mkResponse 429 [("x-rate-limit-reset", "1700000030")]) 0
     = inr (RetryAfter 30)
  /\ handle_rate_limit 1700000000
       (mkResponse 429 [("x-rate-limit-reset", "1700086400")]) 0
     = inr (RetryAfter 900)
  /\ handle_rate_limit 1700000000
       (mkResponse 429 [("x-rate-limit-reset", "")]) 0
     = inr (RetryAfter 60).
Proof.
  repeat split; vm_compute; reflexivity.
Qed.

(** ** The content verdict *)

Lemma in_counts z start len :
  start <= z < start + Z.of_nat len -> In z (counts start len).
Proof.
  revert start. induction len as [|len IH]; intros start Hz; simpl.
  - lia.
  - destruct (Z.eq_dec start z) as [->|Hne]; [now left|].
    right. apply IH. lia.
Qed.

Lemma ratio_agrees_sound (bound : nat) :
  ratio_agrees_upto bound = true ->
  forall n k, In n (counts 0 bound) -> In k (counts 0 bound) ->
              ratio_agrees_at k n = true.
Proof.
  unfold ratio_agrees_upto. intros T n k Hn Hk.
  rewrite forallb_forall in T. specialize (T n Hn).
  rewrite forallb_forall in T. exact (T k Hk).
Qed.

Lemma ratio_agrees_table : ratio_agrees_upto 1001 = true.
Proof. vm_compute. reflexivity. Qed.

Lemma in_counts_1001 (m : nat) : (m <= 1000)%nat -> In (Z.of_nat m) (counts 0 1001).
Proof.
  intros Hm. apply in_counts.
  replace (Z.of_nat 1001) with 1001 by (vm_compute; reflexivity). lia.
Qed.

(** Up to a thousand posts the binary64 product [n * 0.4] compares with
    a count as the exact product does. *)
Lemma ratio_met_exact (k n : nat) :
  (k <= 1000)%nat -> (n <= 1000)%nat -> ratio_met k n = ratio_exact k n.
Proof.
  intros Hk Hn.
  apply Bool.eqb_prop.
  exact (ratio_agrees_sound 1001 ratio_agrees_table _ _
           (in_counts_1001 n Hn) (in_counts_1001 k Hk)).
Qed.

Lemma count_relevant_filter (results : list (list float)) (acc : nat) :
  count_relevant results acc
  = (acc + List.length (filter above_threshold results))%nat.
Proof.
  revert acc. induction results as [|r rest IH]; intros acc; simpl.
  - lia.
  - rewrite IH. destruct (above_threshold r); simpl; lia.
Qed.

Lemma filter_length_le {A : Type} (f : A -> bool) (l : list A) :
  (List.length (filter f l) <= List.length l)%nat.
Proof.
  induction l as [|a l IH]; simpl; auto.
  destruct (f a); simpl; lia.
Qed.

Section Verdict.
Variable classifier : list string -> Exn + list (list float).

Lemma classify_tweets_scored tweets results fr :
  tweets <> [] ->
  classifier tweets = inr results ->
  classify_tweets classifier tweets fr
  = (fr, inr (ratio_met (List.length (filter above_threshold results))
                        (List.length tweets))).
Proof.
  intros Hne Hres. destruct tweets as [|t rest]; [congruence|].
  unfold classify_tweets, try_except, bind, call_classifier.
  rewrite Hres. unfold ret. now rewrite count_relevant_filter.
Qed.

Lemma classify_tweets_error tweets e fr :
  tweets <> [] ->
  classifier tweets = inl e ->
  classify_tweets classifier tweets fr
  = (mkFrame (with_log (log (self fr) ++ [ClassificationError e]) (self fr))
             (user_data fr),
     inr false).
Proof.
  intros Hne Hres. destruct tweets as [|t rest]; [congruence|].
  unfold classify_tweets, try_except, bind, call_classifier.
  rewrite Hres. reflexivity.
Qed.

End Verdict.

(** C6, as amended: on the empty list the verdict is irrelevant, and
    the model is not consulted; on a non-empty list of posts that the
    model scores, the verdict is the test "count >= len(tweets) * 0.4"
    on the number of results with some score above the threshold; up to
    a thousand posts that test is exactly
    [5 * count >= 2 * len(tweets)]; with five posts, two above the
    threshold give relevant and one gives irrelevant. *)
Theorem classify_tweets_ratio_rule :
  forall (classifier : list string -> Exn + list (list float)) (fr : Frame),
    classify_tweets classifier [] fr = (fr, inr false)
    /\ forall (tweets : list string) (results : list (list float)),
         tweets <> [] ->
         classifier tweets = inr results ->
         let relevant_tweets := List.length (filter above_threshold results) in
         classify_tweets classifier tweets fr
         = (fr, inr (ratio_met relevant_tweets (List.length tweets)))
         /\ ((List.length tweets <= 1000)%nat ->
             (List.length results <= 1000)%nat ->
             (ratio_met relevant_tweets (List.length tweets) = true
              <-> 2 * Z.of_nat (List.length tweets) <= 5 * Z.of_nat relevant_tweets))
         /\ (List.length tweets = 5%nat -> relevant_tweets = 2%nat ->
             classify_tweets classifier tweets fr = (fr, inr true))
         /\ (List.length tweets = 5%nat -> relevant_tweets = 1%nat ->
             classify_tweets classifier tweets fr = (fr, inr false)).
Proof.
  intros classifier fr. split; [reflexivity|].
  intros tweets results Hne Hres relevant_tweets.
  pose proof (classify_tweets_scored classifier tweets results fr Hne Hres) as E.
  fold relevant_tweets in E.
  split; [exact E|]. split; [|split].
  - intros Hn Hr.
    assert (Hk : (relevant_tweets <= 1000)%nat).
    { unfold relevant_tweets.
      pose proof (filter_length_le above_threshold results). lia. }
    rewrite (ratio_met_exact _ _ Hk Hn). unfold ratio_exact.
    apply Z.leb_le.
  - intros H5 H2. rewrite E, H5, H2. reflexivity.
  - intros H5 H1. rewrite E, H5, H1. reflexivity.
Qed.

Lemma classify_tweets_ratio_rule_witness :
  classify_tweets two_of_five five_posts (mkFrame carol_irrelevant carol)
  = (mkFrame carol_irrelevant carol, inr true).
Proof.
  refine (proj1 (proj2 (proj2
    (proj2 (classify_tweets_ratio_rule two_of_five _) five_posts _ _ _))) _ _).
  - discriminate.
  - reflexivity.
  - reflexivity.
  - vm_compute. reflexivity.
Defined.

(** C6 as stated fails on the empty list: no post scores above the
    threshold, which is at least 0 * 0.4, and the verdict is
    irrelevant. *)
Lemma classify_tweets_empty_list_is_irrelevant :
  scores_nothing [] = inr []
  /\ ratio_met (List.length (filter above_threshold []))
               (List.length (@nil string)) = true
  /\ classify_tweets scores_nothing [] (mkFrame carol_irrelevant carol)
     = (mkFrame carol_irrelevant carol, inr false).
Proof.
  repeat split; vm_compute; reflexivity.
Qed.

(** ** The pipeline: the gates of [process_user] *)

Section PipelineFacts.
Context `{PyRuntime}.
Variable classifier : list string -> Exn + list (list float).

(** A user that fails the metric gate is saved as irrelevant without
    any fetch. *)
Lemma process_user_metric_gate now fetched w s data user_id :
  id data = Some user_id ->
  meets_metric_thresholds data = false ->
  process_user classifier now fetched w (mkFrame s data)
  = save_account now w false
      (mkFrame (with_log (log s ++ [FailsMetricThresholds user_id]) s) data).
Proof.
  intros Hid Hgate.
  unfold process_user, bind, subscript_id, gets. cbn [user_data].
  rewrite Hid. cbn [user_data]. rewrite Hgate. reflexivity.
Qed.

(** The activity gate: no original tweet, nothing but a log line. *)
Lemma process_user_activity_gate now w s data user_id :
  id data = Some user_id ->
  meets_metric_thresholds data = true ->
  process_user classifier now (inr []) w (mkFrame s data)
  = (mkFrame (with_log (log s ++ [SkippingNoOriginalTweets user_id]) s) data,
     inr tt).
Proof.
  intros Hid Hgate.
  unfold process_user, bind, subscript_id, gets. cbn [user_data].
  rewrite Hid. cbn [user_data]. rewrite Hgate. reflexivity.
Qed.

(** The content gate when the model raises. *)
Lemma process_user_classifier_error now w s data user_id tweets e :
  id data = Some user_id ->
  meets_metric_thresholds data = true ->
  tweets <> [] ->
  classifier tweets = inl e ->
  process_user classifier now (inr tweets) w (mkFrame s data)
  = save_account now w false
      (mkFrame (with_log (log s ++ [ClassificationError e;
                                    ClassifiedIrrelevant user_id]) s) data).
Proof.
  intros Hid Hgate Hne Herr.
  unfold process_user, bind, subscript_id, gets. cbn [user_data].
  rewrite Hid. cbn [user_data]. rewrite Hgate. cbn [negb].
  destruct tweets as [|t rest]; [congruence|]. cbn [List.length Nat.eqb].
  rewrite (classify_tweets_error classifier (t :: rest) e _ Hne Herr).
  unfold logging, on_self, modify, with_log. cbn [self user_data log].
  rewrite <- app_assoc. reflexivity.
Qed.

End PipelineFacts.

(** C7: a user that passes the metric gate and has no original tweet in
    the window is logged and nothing else: both dictionaries and both
    files are as before, and the record itself, with its
    [classified_at], is untouched. *)
Theorem process_user_without_tweets_writes_nothing :
  forall (R : PyRuntime) (classifier : list string -> Exn + list (list float))
         (now : Z) (w : WriteOutcome) (s : State) (data : Account)
         (user_id : string),
    id data = Some user_id ->
    meets_metric_thresholds data = true ->
    exists fr',
      process_user classifier now (inr []) w (mkFrame s data) = (fr', inr tt)
      /\ relevant_accounts (self fr') = relevant_accounts s
      /\ irrelevant_accounts (self fr') = irrelevant_accounts s
      /\ relevant_file (self fr') = relevant_file s
      /\ irrelevant_file (self fr') = irrelevant_file s
      /\ user_data fr' = data
      /\ log (self fr') = log s ++ [SkippingNoOriginalTweets user_id].
Proof.
  intros R classifier now w s data user_id Hid Hgate.
  eexists. split.
  - apply (process_user_activity_gate classifier now w s data user_id Hid Hgate).
  - simpl. repeat split; reflexivity.
Qed.

Lemma process_user_without_tweets_writes_nothing_witness :
  exists fr',
    process_user two_of_five jan30 (inr []) WriteOk
      (mkFrame carol_irrelevant carol) = (fr', inr tt)
    /\ relevant_accounts (self fr') = relevant_accounts carol_irrelevant
    /\ irrelevant_accounts (self fr') = irrelevant_accounts carol_irrelevant
    /\ relevant_file (self fr') = relevant_file carol_irrelevant
    /\ irrelevant_file (self fr') = irrelevant_file carol_irrelevant
    /\ user_data fr' = carol
    /\ log (self fr') = log carol_irrelevant ++ [SkippingNoOriginalTweets "42"].
Proof.
  apply (process_user_without_tweets_writes_nothing sample_runtime two_of_five
           jan30 WriteOk carol_irrelevant carol "42").
  - reflexivity.
  - reflexivity.
Defined.

(** C5: when the model raises on a non-empty batch, [classify_tweets]
    logs the error and answers [False]; [process_user] then returns
    normally and saves the account as irrelevant: it is in the
    irrelevant dictionary, stored as a demotion stores it, with the new
    [classified_at], and out of the relevant one; the irrelevant file is
    rewritten from that dictionary, so that when the rewrite succeeds
    the file lists the record; and the relevant file is not written. *)
Theorem classification_error_fails_closed :
  forall (R : PyRuntime) (classifier : list string -> Exn + list (list float))
         (tweets : list string) (e : Exn),
    tweets <> [] ->
    classifier tweets = inl e ->
    (forall fr,
       classify_tweets classifier tweets fr
       = (mkFrame (with_log (log (self fr) ++ [ClassificationError e]) (self fr))
                  (user_data fr),
          inr false))
    /\ (forall now w s data user_id,
          id data = Some user_id ->
          meets_metric_thresholds data = true ->
          exists fr',
            process_user classifier now (inr tweets) w (mkFrame s data)
            = (fr', inr tt)
            /\ PyDict.get user_id (irrelevant_accounts (self fr'))
               = Some (demoted now data)
            /\ PyDict.contains user_id (relevant_accounts (self fr')) = false
            /\ classified_at (demoted now data) = Some (isoformat now)
            /\ irrelevant_file (self fr')
               = match w with
                 | WriteOk => Json (PyDict.values (irrelevant_accounts (self fr')))
                 | OpenFails => irrelevant_file s
                 | DumpFails => Corrupt
                 end
            /\ (w = WriteOk ->
                exists records,
                  irrelevant_file (self fr') = Json records
                  /\ In (demoted now data) records)
            /\ relevant_file (self fr') = relevant_file s).
Proof.
  intros R classifier tweets e Hne Herr. split.
  - intros fr. now apply classify_tweets_error.
  - intros now w s data user_id Hid Hgate.
    rewrite (process_user_classifier_error classifier now w s data user_id
               tweets e Hid Hgate Hne Herr).
    rewrite (save_account_irrelevant now w _ data user_id Hid).
    eexists. split; [reflexivity|].
    cbn [fst self irrelevant_accounts relevant_accounts irrelevant_file
         relevant_file with_log].
    split; [apply PyDictFacts.get_set_same|].
    split; [apply PyDictFacts.contains_del_same|].
    split.
    { unfold demoted.
      destruct (max_followers <=? followers_of data); reflexivity. }
    split; [destruct w; reflexivity|].
    split; [|reflexivity].
    intros ->. eexists. split; [reflexivity|].
    unfold PyDict.values.
    apply (in_map snd _ (user_id, demoted now data)).
    apply PyDictFacts.get_In. apply PyDictFacts.get_set_same.
Qed.

Lemma classification_error_fails_closed_witness :
  exists fr',
    process_user model_down jan30 (inr five_posts) WriteOk
      (mkFrame dave_relevant carol) = (fr', inr tt)
    /\ PyDict.get "42" (irrelevant_accounts (self fr')) = Some (demoted jan30 carol)
    /\ PyDict.contains "42" (relevant_accounts (self fr')) = false
    /\ classified_at (demoted jan30 carol) = Some (isoformat jan30)
    /\ irrelevant_file (self fr')
       = Json (PyDict.values (irrelevant_accounts (self fr')))
    /\ (WriteOk = WriteOk ->
        exists records,
          irrelevant_file (self fr') = Json records
          /\ In (demoted jan30 carol) records)
    /\ relevant_file (self fr') = relevant_file dave_relevant.
Proof.
  refine (proj2 (classification_error_fails_closed sample_runtime model_down
                   five_posts (Exception "CUDA out of memory") _ _)
            jan30 WriteOk dave_relevant carol "42" _ _).
  - discriminate.
  - reflexivity.
  - reflexivity.
  - reflexivity.
Defined.

(** ** Loading the stores and ageing out *)

Lemma set_absent {V : Type} (k : string) (v : V) (d : PyDict.t V) :
  PyDict.get k d = None -> PyDict.set k v d = d ++ [(k, v)].
Proof.
  induction d as [|[k' v'] rest IH]; simpl; auto.
  destruct (String.eqb k k'); [discriminate|].
  intros Hn. now rewrite IH.
Qed.

(** In a well-formed dictionary, filtering on the values keeps or
    drops each binding on its own. *)
Lemma get_filter_values {V : Type} (f : V -> bool) (k : string) (d : PyDict.t V) :
  PyDict.wf d ->
  PyDict.get k (filter (fun item => f (snd item)) d)
  = match PyDict.get k d with
    | Some v => if f v then Some v else None
    | None => None
    end.
Proof.
  unfold PyDict.wf, PyDict.keys.
  induction d as [|[k' v'] rest IH]; simpl; auto.
  intros Hnd. inversion Hnd as [|? ? Hnotin Hnd']; subst.
  destruct (String.eqb k k') eqn:E.
  - apply String.eqb_eq in E. subst k'.
    assert (Hrest : PyDict.get k rest = None) by now apply PyDictFacts.get_None_keys.
    destruct (f v'); simpl.
    + now rewrite String.eqb_refl.
    + rewrite IH by assumption. now rewrite Hrest.
  - destruct (f v'); simpl; [rewrite E|]; now apply IH.
Qed.

Lemma index_by_id_wf (accounts : list Account) (d : PyDict.t Account) :
  PyDict.wf d -> PyDict.wf (fst (index_by_id accounts d)).
Proof.
  revert d. induction accounts as [|acc rest IH]; intros d Hd; simpl; auto.
  destruct (id acc); simpl; auto.
  apply IH. now apply PyDictFacts.wf_set.
Qed.

Lemma load_quietly_wf (f : File) : PyDict.wf (load_quietly f).
Proof.
  destruct f; simpl; try apply PyDictFacts.wf_empty.
  apply index_by_id_wf, PyDictFacts.wf_empty.
Qed.

Section LoadFacts.
Context `{PyRuntime}.

Lemma age_out_run now_utc items :
  forall fresh s s' fresh',
    NoDup (PyDict.keys fresh ++ PyDict.keys items) ->
    age_out now_utc items fresh s = (s', inr fresh') ->
    fresh' = fresh ++ filter (fun item => kept now_utc (snd item)) items
    /\ same_stores s s'.
Proof.
  induction items as [|[user_id account] rest IH]; intros fresh s s' fresh' Hnd.
  - simpl. intros [= <- <-]. rewrite app_nil_r. repeat split.
  - simpl. unfold kept at 1. simpl.
    destruct (keeps now_utc account) as [e|[|]] eqn:K.
    + discriminate.
    + intros Hrun.
      assert (Habs : PyDict.get user_id fresh = None).
      { apply PyDictFacts.get_None_keys. intros Hin.
        apply NoDup_remove_2 in Hnd. apply Hnd.
        apply in_or_app. now left. }
      rewrite (set_absent _ _ _ Habs) in Hrun.
      apply IH in Hrun.
      * destruct Hrun as [-> Hs]. split; [|exact Hs].
        now rewrite <- app_assoc.
      * unfold PyDict.keys in *. rewrite map_app, <- app_assoc. exact Hnd.
    + unfold bind, modify. intros Hrun.
      apply IH in Hrun.
      * destruct Hrun as [-> Hs]. split; [reflexivity|exact Hs].
      * now apply NoDup_remove_1 in Hnd.
Qed.

Lemma age_out_returns now_utc items :
  forall fresh s,
    (forall item e, In item items -> keeps now_utc (snd item) <> inl e) ->
    exists s' fresh', age_out now_utc items fresh s = (s', inr fresh').
Proof.
  induction items as [|[user_id account] rest IH]; intros fresh s Hok; simpl.
  - now eexists _, _.
  - destruct (keeps now_utc account) as [e|[|]] eqn:K.
    + exfalso. apply (Hok (user_id, account) e); [now left|exact K].
    + apply IH. intros item e Hin. apply Hok. now right.
    + unfold bind, modify. apply IH. intros item e Hin. apply Hok. now right.
Qed.

(** When it is dropped: no flag, a stamp that parses to an aware
    datetime, and thirty whole days or more since. *)
Lemma kept_false_iff now_utc account :
  kept now_utc account = false
  <-> flagged account = false
      /\ exists stamp t utcoffset,
           classified_at account = Some stamp
           /\ stamp <> ""
           /\ fromisoformat stamp = Aware t utcoffset
           /\ 30 * microseconds_per_day <= now_utc - t.
Proof.
  unfold kept, keeps, timedelta_days.
  assert (Hday : 0 < microseconds_per_day) by reflexivity.
  destruct (flagged account).
  { split; [discriminate | intros [? _]; discriminate]. }
  destruct (classified_at account) as [stamp|].
  2:{ split; [discriminate | intros [_ (? & ? & ? & ? & _)]; discriminate]. }
  destruct (String.eqb_spec stamp "") as [->|Hne].
  { split; [discriminate | intros [_ (? & ? & ? & [= <-] & Hc & _)]; congruence]. }
  destruct (fromisoformat stamp) as [|wall|t off] eqn:P.
  - split; [discriminate | intros [_ (? & ? & ? & [= <-] & _ & Hp & _)]; congruence].
  - split; [discriminate | intros [_ (? & ? & ? & [= <-] & _ & Hp & _)]; congruence].
  - destruct (Z.ltb_spec ((now_utc - t) / microseconds_per_day) 30) as [Hlt|Hge].
    + split; [discriminate|].
      intros [_ (s0 & t0 & o0 & [= <-] & _ & Hp & Hold)].
      rewrite P in Hp. injection Hp as <- <-.
      exfalso.
      assert (30 <= (now_utc - t) / microseconds_per_day)
        by (apply Z.div_le_lower_bound; lia).
      lia.
    + split; [|reflexivity]. intros _. split; [reflexivity|].
      exists stamp, t, off. repeat split; auto.
      pose proof (Z.mul_div_le (now_utc - t) microseconds_per_day Hday).
      nia.
Qed.

Lemma load_files_run rel irr s1 :
  load_files (initial rel irr) = (s1, inr tt) ->
  relevant_accounts s1 = load_quietly rel
  /\ irrelevant_accounts s1 = load_quietly irr
  /\ relevant_file s1 = rel
  /\ irrelevant_file s1 = irr.
Proof.
  unfold load_files, load_file, bind, gets, modify, raise, ret, initial.
  destruct rel as [|rs|]; simpl; try discriminate;
    try (destruct (index_by_id rs PyDict.empty) as [d [e|]] eqn:Er; simpl;
         try discriminate);
    (destruct irr as [|irs|]; simpl; try discriminate;
     try (destruct (index_by_id irs PyDict.empty) as [d' [e'|]] eqn:Ei; simpl;
          try discriminate);
     intros [= <-]; simpl; rewrite ?Er, ?Ei; repeat split; reflexivity).
Qed.

End LoadFacts.

Section Decay.
Context `{PyRuntime}.

(** A load that returns has read both files and aged the irrelevant
    dictionary with [kept]. *)
Lemma load_existing_accounts_run now rel irr s' :
  load_existing_accounts now (initial rel irr) = (s', inr tt) ->
  relevant_accounts s' = load_quietly rel
  /\ irrelevant_accounts s'
     = filter (fun item => kept (whole_seconds now) (snd item)) (load_quietly irr)
  /\ relevant_file s' = rel
  /\ irrelevant_file s' = irr.
Proof.
  unfold load_existing_accounts, bind at 1, try_except.
  destruct (load_files (initial rel irr)) as [s1 [e|[]]] eqn:L.
  - unfold bind, modify, raise. discriminate.
  - apply load_files_run in L. destruct L as (Lr & Li & Lrf & Lif).
    unfold bind, gets, modify. rewrite Li.
    destruct (age_out (whole_seconds now) (load_quietly irr) PyDict.empty s1)
      as [s2 [e|fresh]] eqn:A; [discriminate|].
    intros [= <-]. simpl.
    apply age_out_run in A.
    + destruct A as [-> (Ar & _ & Arf & Aif)]. simpl.
      repeat split; congruence.
    + simpl. apply load_quietly_wf.
Qed.

(** It returns when neither file is corrupt, every record has an id,
    and no unflagged irrelevant record carries a stamp without offset. *)
Lemma load_existing_accounts_returns now rs irs :
  Forall (fun a => id a <> None) rs ->
  Forall (fun a => id a <> None) irs ->
  (forall a e, In a irs -> keeps (whole_seconds now) a <> inl e) ->
  exists s', load_existing_accounts now (initial (Json rs) (Json irs)) = (s', inr tt).
Proof.
  intros Hrs Hirs Hnaive.
  assert (Hidx : forall l d, Forall (fun a => id a <> None) l ->
                             snd (index_by_id l d) = None).
  { induction l as [|a l IH]; intros d Hl; simpl; auto.
    inversion Hl; subst. destruct (id a); [now apply IH | congruence]. }
  assert (Hin : forall l d k a,
             PyDict.get k (fst (index_by_id l d)) = Some a ->
             In a l \/ PyDict.get k d = Some a).
  { induction l as [|b l IH]; intros d k a; simpl; auto.
    destruct (id b) as [kb|]; simpl; auto.
    intros Hg. apply IH in Hg as [Hg|Hg]; auto.
    destruct (String.eqb_spec k kb) as [->|Hne].
    - rewrite PyDictFacts.get_set_same in Hg. injection Hg as ->. auto.
    - rewrite PyDictFacts.get_set_other in Hg by auto. auto. }
  unfold load_existing_accounts, bind at 1, try_except.
  unfold load_files, load_file, bind, gets, modify, raise, ret, initial. simpl.
  pose proof (Hidx rs PyDict.empty Hrs) as Er.
  destruct (index_by_id rs PyDict.empty) as [d er]. simpl in Er. subst er. simpl.
  pose proof (Hidx irs PyDict.empty Hirs) as Ei.
  pose proof (Hin irs PyDict.empty) as Hirr.
  pose proof (index_by_id_wf irs PyDict.empty PyDictFacts.wf_empty) as W.
  destruct (index_by_id irs PyDict.empty) as [d' ei]. simpl in Ei, Hirr, W.
  subst ei.
  simpl.
  match goal with
  | |- context [age_out ?n ?items ?fresh ?s] =>
      destruct (age_out_returns n items fresh s) as (s2 & fresh' & A)
  end.
  - intros [k a] e Hitem. simpl.
    apply Hnaive. apply PyDictFacts.In_get in Hitem.
    + apply Hirr in Hitem as [Hitem|Hitem]; [assumption|discriminate].
    + exact W.
  - rewrite A. now eexists.
Qed.

End Decay.

(** C2, as amended: on a load that returns, the relevant dictionary is
    what the relevant file holds and the files are not written; every
    record of the irrelevant file is either kept as it is or dropped,
    and it is dropped exactly when it has no truthy
    [too_many_followers], its [classified_at] parses to an aware
    datetime, and at least 30 days lie between that instant and now
    (taken to the whole second): at exactly 30 days it is dropped.  So a
    flagged record, one without [classified_at], and one whose
    [classified_at] does not parse are kept. *)
Theorem decay_on_load :
  forall (R : PyRuntime) (now : Z) (rel irr : File) (s' : State),
    load_existing_accounts now (initial rel irr) = (s', inr tt) ->
    relevant_accounts s' = load_quietly rel
    /\ relevant_file s' = rel
    /\ irrelevant_file s' = irr
    /\ forall user_id account,
         PyDict.get user_id (load_quietly irr) = Some account ->
         (PyDict.get user_id (irrelevant_accounts s') = Some account
          \/ PyDict.get user_id (irrelevant_accounts s') = None)
         /\ (PyDict.get user_id (irrelevant_accounts s') = None
             <-> flagged account = false
                 /\ exists stamp t utcoffset,
                      classified_at account = Some stamp
                      /\ stamp <> ""
                      /\ fromisoformat stamp = Aware t utcoffset
                      /\ 30 * microseconds_per_day <= whole_seconds now - t)
         /\ (flagged account = true ->
             PyDict.get user_id (irrelevant_accounts s') = Some account)
         /\ (classified_at account = None ->
             PyDict.get user_id (irrelevant_accounts s') = Some account)
         /\ (forall stamp,
               classified_at account = Some stamp ->
               fromisoformat stamp = Unparsable ->
               PyDict.get user_id (irrelevant_accounts s') = Some account).
Proof.
  intros R now rel irr s' Hload.
  apply load_existing_accounts_run in Hload.
  destruct Hload as (Hr & Hi & Hrf & Hif).
  split; [exact Hr|]. split; [exact Hrf|]. split; [exact Hif|].
  intros user_id account Hget.
  rewrite Hi, (get_filter_values _ _ _ (load_quietly_wf irr)), Hget.
  pose proof (kept_false_iff (whole_seconds now) account) as K.
  destruct (kept (whole_seconds now) account) eqn:E.
  - assert (Hnot : ~ (flagged account = false
                      /\ exists stamp t utcoffset,
                           classified_at account = Some stamp
                           /\ stamp <> ""
                           /\ fromisoformat stamp = Aware t utcoffset
                           /\ 30 * microseconds_per_day <= whole_seconds now - t)).
    { intros Hd. apply K in Hd. discriminate. }
    split; [now left|]. split; [|repeat split; reflexivity].
    split; [discriminate | intros Hd; contradiction].
  - destruct (proj1 K eq_refl) as (Hflag & stamp & t & off & Hc & Hne & Hp & Hold).
    split; [now right|]. split; [|split; [|split]].
    + split; [intros _; apply K; reflexivity | reflexivity].
    + congruence.
    + congruence.
    + intros stamp' Hc' Hp'. congruence.
Qed.

Lemma decay_on_load_witness :
  let s' := fst (load_existing_accounts feb01
                   (initial (Json [dave]) (Json [carol; garbled; unstamped; whale]))) in
  relevant_accounts s' = load_quietly (Json [dave])
  /\ relevant_file s' = Json [dave]
  /\ irrelevant_file s' = Json [carol; garbled; unstamped; whale]
  /\ forall user_id account,
       PyDict.get user_id (load_quietly (Json [carol; garbled; unstamped; whale]))
       = Some account ->
       (PyDict.get user_id (irrelevant_accounts s') = Some account
        \/ PyDict.get user_id (irrelevant_accounts s') = None)
       /\ (PyDict.get user_id (irrelevant_accounts s') = None
           <-> flagged account = false
               /\ exists stamp t utcoffset,
                    classified_at account = Some stamp
                    /\ stamp <> ""
                    /\ fromisoformat stamp = Aware t utcoffset
                    /\ 30 * microseconds_per_day <= whole_seconds feb01 - t)
       /\ (flagged account = true ->
           PyDict.get user_id (irrelevant_accounts s') = Some account)
       /\ (classified_at account = None ->
           PyDict.get user_id (irrelevant_accounts s') = Some account)
       /\ (forall stamp,
             classified_at account = Some stamp ->
             fromisoformat stamp = Unparsable ->
             PyDict.get user_id (irrelevant_accounts s') = Some account).
Proof.
  apply (decay_on_load sample_runtime feb01 (Json [dave])
           (Json [carol; garbled; unstamped; whale])).
  vm_compute. reflexivity.
Defined.

(** The decay law on the calendar: Carol, classified on 1 January, is
    kept on 30 January (29 days) and dropped on 31 January (30 days) and
    on 1 February (31 days); the flagged account, 100 and more days old,
    and the records without a readable stamp are kept throughout. *)
Lemma decay_law_examples :
  PyDict.keys (irrelevant_accounts
     (fst (load_existing_accounts jan30
             (initial Missing (Json [carol; garbled; unstamped; whale])))))
  = ["42"; "1"; "2"; "3"]
  /\ PyDict.keys (irrelevant_accounts
       (fst (load_existing_accounts jan31
               (initial Missing (Json [carol; garbled; unstamped; whale])))))
     = ["1"; "2"; "3"]
  /\ PyDict.keys (irrelevant_accounts
       (fst (load_existing_accounts feb01
               (initial Missing (Json [carol; garbled; unstamped; whale])))))
     = ["1"; "2"; "3"].
Proof.
  repeat split; vm_compute; reflexivity.
Qed.

(** C2 as stated fails at the boundary: on 31 January 2024, 00:00 UTC,
    Carol's classification of 1 January, 00:00 UTC, is exactly 30 days
    old, which does not exceed 30 days, and the load drops her. *)
Lemma decay_drops_at_exactly_30_days :
  fromisoformat "2024-01-01T00:00:00+00:00" = Aware 1704067200000000 0
  /\ jan31 - 1704067200000000 = 30 * microseconds_per_day
  /\ ~ (jan31 - 1704067200000000 > 30 * microseconds_per_day)
  /\ flagged carol = false
  /\ load_existing_accounts jan31 (initial (Json []) (Json [carol]))
     = (mkState [] [] (Json []) (Json [carol])
                [LoadedRelevant 0; LoadedIrrelevant 1; RemovingOld "42"],
        inr tt).
Proof.
  repeat split; try (vm_compute; reflexivity).
  vm_compute. intros Hgt. discriminate.
Qed.

(** ** Merging tweets *)

Lemma seen_In (ids : list string) (tweet : Tweet) :
  seen ids tweet = true <-> In (tweet_id tweet) ids.
Proof.
  unfold seen. rewrite existsb_exists. split.
  - intros (x & Hin & Heq). apply String.eqb_eq in Heq. now subst.
  - intros Hin. exists (tweet_id tweet). split; [assumption|].
    apply String.eqb_refl.
Qed.

(** The tweets appended: those of the batch whose id is not stored. *)
Lemma new_tweets_In (existing tweets : list Tweet) (tweet : Tweet) :
  In tweet (new_tweets existing tweets)
  <-> In tweet tweets /\ ~ In (tweet_id tweet) (map tweet_id existing).
Proof.
  unfold new_tweets. rewrite filter_In, negb_true_iff.
  rewrite <- seen_In. destruct (seen (map tweet_id existing) tweet);
    intuition congruence.
Qed.

Lemma new_tweets_none (existing tweets : list Tweet) :
  (forall tweet, In tweet tweets -> In (tweet_id tweet) (map tweet_id existing)) ->
  new_tweets existing tweets = [].
Proof.
  intros Hall. unfold new_tweets.
  induction tweets as [|t rest IH]; simpl; auto.
  assert (Hs : seen (map tweet_id existing) t = true).
  { apply seen_In, Hall. now left. }
  rewrite Hs. simpl. apply IH. intros tweet Hin. apply Hall. now right.
Qed.

(** After a merge every id of the batch is stored. *)
Lemma merged_covers (existing tweets : list Tweet) (tweet : Tweet) :
  In tweet tweets ->
  In (tweet_id tweet) (map tweet_id (existing ++ new_tweets existing tweets)).
Proof.
  intros Hin. rewrite map_app, in_app_iff.
  destruct (seen (map tweet_id existing) tweet) eqn:S.
  - left. now apply seen_In.
  - right. apply in_map. apply new_tweets_In. split; [assumption|].
    rewrite <- seen_In. congruence.
Qed.

Lemma collected_merge_fetched username t rest store :
  collected username (merge_fetched username (t :: rest) store)
  = collected username store ++ new_tweets (collected username store) (t :: rest).
Proof.
  unfold merge_fetched, collected at 1.
  now rewrite PyDictFacts.get_set_same.
Qed.

Lemma merge_fetched_stored_ids username tweets store :
  (forall tweet, In tweet tweets ->
                 In (tweet_id tweet) (map tweet_id (collected username store))) ->
  merge_fetched username tweets store = store.
Proof.
  intros Hall. destruct tweets as [|t rest]; [reflexivity|].
  unfold merge_fetched. rewrite (new_tweets_none _ _ Hall), app_nil_r.
  apply PyDictFacts.set_get_id. unfold collected in *.
  destruct (PyDict.get username store) as [stored|]; [reflexivity|].
  exfalso. apply (Hall t). now left.
Qed.

Lemma merge_fetched_twice username tweets store :
  merge_fetched username tweets (merge_fetched username tweets store)
  = merge_fetched username tweets store.
Proof.
  destruct tweets as [|t rest]; [reflexivity|].
  apply merge_fetched_stored_ids. intros tweet Hin.
  rewrite collected_merge_fetched. now apply merged_covers.
Qed.

(** [process_account] is [merge_fetched] on the dictionary in memory,
    followed by [save_all_tweets]; run again on the same answer it
    leaves the dictionary as it is. *)
Lemma process_account_merges account tweets st user_id :
  id account = Some user_id ->
  user_id <> "" ->
  tweets <> [] ->
  let name := match username account with
              | Some u => u
              | None => String.append "User_" user_id
              end in
  process_account account tweets st
  = mkFetchTweets
      (merge_fetched name tweets (all_tweets st))
      (Some (save_all_tweets (merge_fetched name tweets (all_tweets st))
                             (all_tweets_file st))).
Proof.
  intros Hid Hne Ht name. unfold process_account. rewrite Hid.
  apply String.eqb_neq in Hne. rewrite Hne.
  destruct tweets as [|t rest]; [congruence|]. reflexivity.
Qed.

Lemma process_account_again account tweets st :
  all_tweets (process_account account tweets (process_account account tweets st))
  = all_tweets (process_account account tweets st).
Proof.
  unfold process_account.
  destruct (id account) as [user_id|]; [|reflexivity].
  destruct (String.eqb user_id ""); [reflexivity|].
  destruct tweets as [|t rest]; [reflexivity|].
  cbn [all_tweets]. apply merge_fetched_twice.
Qed.

(** Ids are compared with what is stored, not within the batch: an
    unseen tweet that comes twice in one batch is appended twice. *)
Example merge_fetched_keeps_batch_duplicates :
  merge_fetched "carol"
    [mkTweet "t1" "2024-01-30T00:00:00.000Z" "gm";
     mkTweet "t1" "2024-01-30T00:00:00.000Z" "gm"] []
  = [("carol", [mkTweet "t1" "2024-01-30T00:00:00.000Z" "gm";
                mkTweet "t1" "2024-01-30T00:00:00.000Z" "gm"])].
Proof. reflexivity. Qed.

(** *** The file: [save_all_tweets] *)

Lemma merge_into_wf (existing_data : PyDict.t (list Tweet)) item :
  PyDict.wf existing_data -> PyDict.wf (merge_into existing_data item).
Proof.
  destruct item as [name tweets]. unfold merge_into.
  destruct (PyDict.get name existing_data); apply PyDictFacts.wf_set.
Qed.

Lemma fold_merge_into_wf (memory existing_data : PyDict.t (list Tweet)) :
  PyDict.wf existing_data -> PyDict.wf (fold_left merge_into memory existing_data).
Proof.
  revert existing_data.
  induction memory as [|item rest IH]; intros existing_data W; simpl; auto.
  apply IH. now apply merge_into_wf.
Qed.

Lemma fold_merge_into_get (memory : PyDict.t (list Tweet)) :
  forall existing_data name,
    PyDict.wf memory ->
    PyDict.get name (fold_left merge_into memory existing_data)
    = merged_entry (PyDict.get name memory) (PyDict.get name existing_data).
Proof.
  unfold PyDict.wf, PyDict.keys.
  induction memory as [|[k tweets] rest IH]; intros existing_data name Hnd.
  - reflexivity.
  - inversion Hnd as [|? ? Hnotin Hnd']; subst. cbn [fold_left].
    rewrite IH by assumption. cbn [PyDict.get].
    destruct (String.eqb_spec name k) as [->|Hne].
    + assert (Hrest : PyDict.get k rest = None)
        by now apply PyDictFacts.get_None_keys.
      rewrite Hrest. unfold merge_into, merged_entry.
      destruct (PyDict.get k existing_data); now rewrite PyDictFacts.get_set_same.
    + assert (Hsame : PyDict.get name (merge_into existing_data (k, tweets))
                      = PyDict.get name existing_data).
      { unfold merge_into. destruct (PyDict.get k existing_data);
          now apply PyDictFacts.get_set_other. }
      now rewrite Hsame.
Qed.

Lemma save_all_tweets_get memory file name :
  PyDict.wf memory ->
  PyDict.wf (on_disk file) ->
  PyDict.get name (save_all_tweets memory file)
  = unless_empty (merged_entry (PyDict.get name memory)
                               (PyDict.get name (on_disk file))).
Proof.
  intros Wm Wf. unfold save_all_tweets, cleaned.
  rewrite (get_filter_values
             (fun tweets => match tweets with [] => false | _ :: _ => true end)).
  - rewrite fold_merge_into_get by assumption.
    destruct (merged_entry _ _) as [[|t l]|]; reflexivity.
  - now apply fold_merge_into_wf.
Qed.

Lemma save_all_tweets_wf memory file :
  PyDict.wf (on_disk file) -> PyDict.wf (save_all_tweets memory file).
Proof.
  intros Wf. unfold save_all_tweets, cleaned.
  pose proof (fold_merge_into_wf memory (on_disk file) Wf) as W.
  revert W. generalize (fold_left merge_into memory (on_disk file)).
  unfold PyDict.wf, PyDict.keys. intros d.
  induction d as [|[k v] rest IH]; simpl; auto.
  intros Hnd. inversion Hnd; subst.
  destruct v; simpl; auto.
  constructor; auto.
  intros Hin. apply in_map_iff in Hin as [[k0 v0] [Hk Hin]].
  simpl in Hk. subst k0. apply filter_In in Hin as [Hin _].
  apply H1. now apply (in_map fst) in Hin.
Qed.

(** Saving the same dictionary again leaves every entry of the file as
    the first save wrote it. *)
Lemma save_all_tweets_again memory file name :
  PyDict.wf memory ->
  PyDict.wf (on_disk file) ->
  PyDict.get name (save_all_tweets memory (Some (save_all_tweets memory file)))
  = PyDict.get name (save_all_tweets memory file).
Proof.
  intros Wm Wf.
  rewrite (save_all_tweets_get memory (Some _) name Wm)
    by (simpl; now apply save_all_tweets_wf).
  simpl. rewrite (save_all_tweets_get memory file name Wm Wf).
  destruct (PyDict.get name memory) as [tweets|]; simpl.
  - destruct (PyDict.get name (on_disk file)) as [stored|]; simpl.
    + destruct (stored ++ new_tweets stored tweets) as [|t l] eqn:E; simpl.
      * apply app_eq_nil in E as [-> E]. unfold new_tweets in E. simpl in E.
        assert (Ht : tweets = []).
        { destruct tweets; [reflexivity|]. simpl in E. discriminate. }
        subst tweets. reflexivity.
      * rewrite <- E.
        rewrite (new_tweets_none (stored ++ new_tweets stored tweets) tweets).
        -- rewrite app_nil_r, E. reflexivity.
        -- intros tweet Hin. now apply merged_covers.
    + destruct tweets as [|t l]; [reflexivity|].
      cbn [unless_empty merged_entry].
      rewrite (new_tweets_none (t :: l) (t :: l)).
      * now rewrite app_nil_r.
      * intros tweet Hin. now apply in_map.
  - destruct (PyDict.get name (on_disk file)) as [[|t l]|]; reflexivity.
Qed.

(** C8: the merge of [process_account], in memory and on file. For an
    account with an id, [process_account] stores in [all_tweets], under
    the account's name, what was stored followed by the tweets of the
    batch whose id was not among the stored ones, in the order of the
    batch, and touches no other name; a batch whose ids are all stored
    already leaves [all_tweets] as it is.  With a non-empty batch it
    then rewrites [data/all_tweets.json]: under the name the file holds
    what it held followed by the tweets of the merged entry whose id it
    did not hold, and the posts it held for another name are still
    there, at the head of that entry.  Processing the same batch a
    second time changes neither [all_tweets] nor any entry of the
    file. *)
Theorem process_account_merges_unseen_posts :
  forall (account : Account) (user_id : string) (tweets : list Tweet)
         (st : FetchTweets),
    id account = Some user_id ->
    user_id <> "" ->
    PyDict.wf (all_tweets st) ->
    PyDict.wf (on_disk (all_tweets_file st)) ->
    let name := match username account with
                | Some u => u
                | None => String.append "User_" user_id
                end in
    let stored := match PyDict.get name (all_tweets st) with
                  | Some posts => posts
                  | None => []
                  end in
    let unseen_in (posts : list Tweet) (tweet : Tweet) :=
      negb (existsb (String.eqb (tweet_id tweet)) (map tweet_id posts)) in
    let merged := stored ++ filter (unseen_in stored) tweets in
    let st' := process_account account tweets st in
    (tweets <> [] -> PyDict.get name (all_tweets st') = Some merged)
    /\ (forall tweet,
          In tweet (filter (unseen_in stored) tweets)
          <-> In tweet tweets /\ ~ In (tweet_id tweet) (map tweet_id stored))
    /\ (forall other, other <> name ->
          PyDict.get other (all_tweets st') = PyDict.get other (all_tweets st))
    /\ ((forall tweet, In tweet tweets ->
           In (tweet_id tweet) (map tweet_id stored)) ->
        all_tweets st' = all_tweets st)
    /\ (tweets = [] -> st' = st)
    /\ (tweets <> [] ->
        exists file',
          all_tweets_file st' = Some file'
          /\ PyDict.wf file'
          /\ PyDict.get name file'
             = Some (match PyDict.get name (on_disk (all_tweets_file st)) with
                     | Some on_file => on_file ++ filter (unseen_in on_file) merged
                     | None => merged
                     end)
          /\ forall other posts,
               PyDict.get other (on_disk (all_tweets_file st)) = Some posts ->
               posts <> [] ->
               exists added, PyDict.get other file' = Some (posts ++ added))
    /\ all_tweets (process_account account tweets st') = all_tweets st'
    /\ (forall other,
          PyDict.get other
            (on_disk (all_tweets_file (process_account account tweets st')))
          = PyDict.get other (on_disk (all_tweets_file st'))).
Proof.
  intros account user_id tweets st Hid Hne Wm Wf name stored unseen_in merged st'.
  assert (Hstored : stored = collected name (all_tweets st)) by reflexivity.
  assert (Hunseen : forall posts batch,
             filter (unseen_in posts) batch = new_tweets posts batch)
    by reflexivity.
  assert (Hskip : forall st0, process_account account [] st0 = st0).
  { intros st0. unfold process_account. rewrite Hid.
    apply String.eqb_neq in Hne. now rewrite Hne. }
  assert (Hempty : tweets = [] -> st' = st).
  { intros ->. apply Hskip. }
  assert (Hrun : tweets <> [] ->
                 st' = mkFetchTweets
                         (merge_fetched name tweets (all_tweets st))
                         (Some (save_all_tweets
                                  (merge_fetched name tweets (all_tweets st))
                                  (all_tweets_file st)))).
  { intros Ht. exact (process_account_merges account tweets st user_id Hid Hne Ht). }
  assert (Hmem : tweets <> [] ->
                 PyDict.get name (merge_fetched name tweets (all_tweets st))
                 = Some merged).
  { intros Ht. destruct tweets as [|t rest]; [congruence|].
    unfold merge_fetched. now rewrite PyDictFacts.get_set_same. }
  assert (Wmerged : PyDict.wf (merge_fetched name tweets (all_tweets st))).
  { destruct tweets; simpl; [exact Wm|]. now apply PyDictFacts.wf_set. }
  assert (Hfull : merged <> [] \/ tweets = []).
  { destruct tweets as [|t rest]; [now right|]. left. subst merged.
    destruct stored as [|p ps]; [|discriminate]. simpl. discriminate. }
  split; [|split; [|split; [|split; [|split; [|split; [|split]]]]]].
  - intros Ht. rewrite (Hrun Ht). cbn [all_tweets]. now apply Hmem.
  - intros tweet. rewrite Hunseen. apply new_tweets_In.
  - intros other Hother. destruct tweets as [|t rest].
    + now rewrite Hempty.
    + rewrite Hrun by discriminate. cbn [all_tweets].
      unfold merge_fetched. now apply PyDictFacts.get_set_other.
  - intros Hall. destruct tweets as [|t rest].
    + now rewrite Hempty.
    + rewrite Hrun by discriminate. cbn [all_tweets].
      apply merge_fetched_stored_ids. now rewrite <- Hstored.
  - exact Hempty.
  - intros Ht. rewrite (Hrun Ht). cbn [all_tweets_file].
    eexists. split; [reflexivity|].
    split; [now apply save_all_tweets_wf|]. split.
    + rewrite (save_all_tweets_get _ _ name Wmerged Wf), (Hmem Ht).
      destruct Hfull as [Hfull|Hfull]; [|congruence].
      destruct (PyDict.get name (on_disk (all_tweets_file st))) as [on_file|];
        cbn [merged_entry].
      * rewrite <- Hunseen.
        destruct (on_file ++ filter (unseen_in on_file) merged) as [|p ps] eqn:E;
          [|reflexivity].
        exfalso. apply app_eq_nil in E as [-> E].
        assert (Hnil : forall l : list Tweet, filter (unseen_in []) l = l).
        { induction l as [|m ms IH]; [reflexivity|]. simpl. now rewrite IH. }
        rewrite Hnil in E. contradiction.
      * destruct merged; [congruence|reflexivity].
    + intros other posts Hposts Hfilled.
      rewrite (save_all_tweets_get _ _ other Wmerged Wf), Hposts.
      destruct (PyDict.get other (merge_fetched name tweets (all_tweets st)))
        as [mine|]; cbn [merged_entry].
      * exists (new_tweets posts mine).
        destruct posts as [|p ps]; [congruence|reflexivity].
      * exists []. rewrite app_nil_r.
        destruct posts as [|p ps]; [congruence|reflexivity].
  - destruct tweets as [|t rest].
    + subst st'. now rewrite !Hskip.
    + apply process_account_again.
  - intros other. destruct tweets as [|t rest].
    + subst st'. now rewrite !Hskip.
    + assert (Ht : t :: rest <> []) by discriminate.
      rewrite (Hrun Ht).
      rewrite (process_account_merges account (t :: rest) _ user_id Hid Hne Ht).
      cbn [all_tweets all_tweets_file on_disk].
      rewrite merge_fetched_twice.
      exact (save_all_tweets_again _ _ other Wmerged Wf).
Qed.

Lemma process_account_merges_unseen_posts_witness :
  let st := mkFetchTweets carol_tweets (Some carol_tweets) in
  let t1 := mkTweet "t1" "2024-01-30T00:00:00.000Z" "gm web3" in
  let t2 := mkTweet "t2" "2024-01-31T08:00:00.000Z" "gn" in
  PyDict.get "carol" (all_tweets (process_account carol [t1; t2] st))
  = Some [t1; t2]
  /\ (exists file',
        all_tweets_file (process_account carol [t1; t2] st) = Some file'
        /\ PyDict.get "carol" file' = Some [t1; t2]).
Proof.
  assert (W : PyDict.wf carol_tweets) by (repeat constructor; simpl; tauto).
  destruct (process_account_merges_unseen_posts carol "42"
              [mkTweet "t1" "2024-01-30T00:00:00.000Z" "gm web3";
               mkTweet "t2" "2024-01-31T08:00:00.000Z" "gn"]
              (mkFetchTweets carol_tweets (Some carol_tweets))
              eq_refl ltac:(discriminate) W W)
    as (Hmem & _ & _ & _ & _ & Hfile & _).
  split.
  - exact (Hmem ltac:(discriminate)).
  - destruct (Hfile ltac:(discriminate)) as (file' & Hf & _ & Hg & _).
    exists file'. split; [exact Hf|exact Hg].
Defined.

(** ** The re-evaluation scripts on the files *)

Lemma NoDup_app_disjoint {A : Type} (l1 l2 : list A) :
  NoDup (l1 ++ l2) -> forall a, In a l1 -> ~ In a l2.
Proof.
  induction l1 as [|b l1 IH]; simpl; [tauto|].
  intros Hnd a [->|Hin] Hin2; inversion Hnd as [|? ? Hnotin Hnd']; subst.
  - apply Hnotin, in_or_app. now right.
  - exact (IH Hnd' a Hin Hin2).
Qed.

Section ReevaluationFacts.
Context `{PyRuntime}.
Variable fetch_user_metrics : string -> option Account.

Lemma review_keeps_id now tweets_file account purged account' :
  review fetch_user_metrics now tweets_file account = inr (purged, account') ->
  id account' = id account.
Proof.
  unfold review.
  destruct (id account) as [user_id|] eqn:Hid; [|discriminate].
  destruct (username account) as [name|]; [|discriminate].
  destruct (fromisoformat _) as [|wall|last off]; [discriminate| |];
    (destruct tweets_file as [store|]; [|discriminate]);
    (destruct (recent_after _ _) as [e|[|t recent]]; [discriminate| |]);
    try discriminate;
    repeat match goal with
           | |- context [if ?c then _ else _] => destruct c
           end;
    intros [= <- <-]; exact Hid.
Qed.

(** The loop deals every account of the file to one of the two lists. *)
Lemma purge_loop_partition now tweets_file accounts :
  forall remaining purged remaining' purged',
    purge_loop fetch_user_metrics now tweets_file accounts remaining purged
    = inr (remaining', purged') ->
    Permutation (map id remaining' ++ map id purged')
                (map id remaining ++ map id purged ++ map id accounts).
Proof.
  induction accounts as [|account rest IH];
    intros remaining purged remaining' purged'; simpl.
  - intros [= <- <-]. now rewrite app_nil_r.
  - destruct (review fetch_user_metrics now tweets_file account)
      as [e|[[|] account']] eqn:R; [discriminate| |];
      intros Hloop; apply IH in Hloop; rewrite Hloop;
      apply review_keeps_id in R; rewrite !map_app; simpl; rewrite R.
    + rewrite <- !app_assoc. simpl.
      apply Permutation_app_head, Permutation_app_head. reflexivity.
    + rewrite <- !app_assoc. simpl.
      apply Permutation_app_head, Permutation_middle.
Qed.

(** A run of [purge_irrelevant_accounts] that reaches its two writes
    appends the purged accounts to the irrelevant file and leaves the
    others in the relevant file; with distinct ids in the relevant file,
    no purged account stays in it. *)
Lemma purge_irrelevant_accounts_partition now relevant irrelevant tweets_file rel' irr' :
  purge_irrelevant_accounts fetch_user_metrics now
    (Json relevant) (Json irrelevant) tweets_file = inr (rel', irr') ->
  exists remaining purged,
    rel' = Json remaining
    /\ irr' = Json (irrelevant ++ purged)
    /\ Permutation (map id remaining ++ map id purged) (map id relevant)
    /\ (NoDup (map id relevant) ->
        forall x, In x (map id purged) -> ~ In x (map id remaining)).
Proof.
  unfold purge_irrelevant_accounts. simpl.
  destruct (purge_loop fetch_user_metrics now tweets_file relevant [] [])
    as [e|[remaining purged]] eqn:L; [discriminate|].
  intros [= <- <-]. exists remaining, purged.
  apply purge_loop_partition in L. simpl in L.
  repeat split; auto.
  intros Hnd x Hp Hr.
  apply (Permutation_NoDup (Permutation_sym L)) in Hnd.
  exact (NoDup_app_disjoint _ _ Hnd x Hr Hp).
Qed.

End ReevaluationFacts.

(** [reclassify_large_accounts] moves Dave and rewrites both files. *)
Example reclassify_large_accounts_moves_dave :
  reclassify_large_accounts dave_has_grown (fun _ => jan30)
    (Json [dave; carol]) (Json [])
  = (Json [carol],
     Json [set_classified_at "2024-01-30T00:00:00+00:00"
             (set_too_many_followers dave)]).
Proof. vm_compute. reflexivity. Qed.

(** * Further properties *)

(** ** [save_account] in memory *)

(** X1: in memory, [save_account] keeps the two dictionaries disjoint:
    when no id is a key of both before, none is afterwards; the saved
    account is a key of the dictionary it was saved to and not of the
    other; and no other id enters or leaves either dictionary. This
    holds however the rewrite of the file ends. *)
Theorem save_account_keeps_memory_exclusive :
  forall (R : PyRuntime) (now : Z) (w : WriteOutcome) (relevant : bool)
         (s : State) (data : Account) (user_id : string),
    disjoint_in_memory s ->
    id data = Some user_id ->
    let s' := self (fst (save_account now w relevant (mkFrame s data))) in
    disjoint_in_memory s'
    /\ PyDict.contains user_id (relevant_accounts s') = relevant
    /\ PyDict.contains user_id (irrelevant_accounts s') = negb relevant
    /\ forall k, k <> user_id ->
         PyDict.get k (relevant_accounts s') = PyDict.get k (relevant_accounts s)
         /\ PyDict.get k (irrelevant_accounts s')
            = PyDict.get k (irrelevant_accounts s).
Proof.
  intros R now w relevant s data user_id Hd Hid s'.
  split; [apply save_account_keeps_disjoint; exact Hd|].
  destruct (save_account_moves now w relevant s data user_id Hid) as [Hr Hi].
  split; [exact Hr|]. split; [exact Hi|].
  intros k Hne. subst s'. destruct relevant.
  - rewrite (save_account_relevant _ _ _ _ _ Hid). simpl.
    now rewrite PyDictFacts.get_set_other, PyDictFacts.get_del_other.
  - rewrite (save_account_irrelevant _ _ _ _ _ Hid). simpl.
    now rewrite PyDictFacts.get_set_other, PyDictFacts.get_del_other.
Qed.

Lemma save_account_keeps_memory_exclusive_witness :
  let s' := self (fst (save_account jan30 DumpFails true
                         (mkFrame carol_irrelevant carol))) in
  disjoint_in_memory s'
  /\ PyDict.contains "42" (relevant_accounts s') = true
  /\ PyDict.contains "42" (irrelevant_accounts s') = negb true
  /\ forall k, k <> "42" ->
       PyDict.get k (relevant_accounts s')
       = PyDict.get k (relevant_accounts carol_irrelevant)
       /\ PyDict.get k (irrelevant_accounts s')
          = PyDict.get k (irrelevant_accounts carol_irrelevant).
Proof.
  apply (save_account_keeps_memory_exclusive sample_runtime jan30 DumpFails true
           carol_irrelevant carol "42").
  - intros k Hr Hi. simpl in Hr. discriminate.
  - reflexivity.
Defined.

(** ** [handle_rate_limit]: every decision *)

(** The only exception of [handle_rate_limit] is that of [int()]. *)
Lemma handle_rate_limit_raises (R : PyRuntime) (current_time : Z)
    (response : Response) (retry_count : Z) (e : Exn) :
  handle_rate_limit current_time response retry_count = inl e -> e = ValueError.
Proof.
  unfold handle_rate_limit, uncapped_wait.
  destruct (negb (status response =? 429)); [discriminate|].
  destruct (max_retries <=? retry_count); [discriminate|].
  destruct (String.eqb (header_or_zero "x-rate-limit-reset" response) "");
    [discriminate|].
  destruct (int_of_str (header_or_zero "x-rate-limit-reset" response));
    [discriminate|].
  now intros [= <-].
Qed.

(** X2: [handle_rate_limit] asks for a retry only on a 429 answer with
    retries left, and then after a wait between 1 and 900 seconds; on any
    other status, or once [max_retries] retries are used, it answers
    [False] whatever the headers say; and the only exception that
    escapes it is the [ValueError] of [int()] on a reset header that is
    not a number, which can only happen on a 429 with retries left. *)
Theorem handle_rate_limit_decisions :
  forall (R : PyRuntime) (current_time : Z) (response : Response)
         (retry_count : Z),
    (status response <> 429 ->
     handle_rate_limit current_time response retry_count = inr NoRetry)
    /\ (max_retries <= retry_count ->
        handle_rate_limit current_time response retry_count = inr NoRetry)
    /\ (forall wait_time,
          handle_rate_limit current_time response retry_count
          = inr (RetryAfter wait_time) ->
          status response = 429 /\ retry_count < max_retries
          /\ 1 <= wait_time <= 900)
    /\ (forall e,
          handle_rate_limit current_time response retry_count = inl e ->
          e = ValueError
          /\ status response = 429 /\ retry_count < max_retries
          /\ header_or_zero "x-rate-limit-reset" response <> ""
          /\ int_of_str (header_or_zero "x-rate-limit-reset" response) = None).
Proof.
  intros R current_time response retry_count.
  split; [|split; [|split]].
  - intros Hs. unfold handle_rate_limit.
    apply Z.eqb_neq in Hs. now rewrite Hs.
  - intros Hr. unfold handle_rate_limit.
    destruct (status response =? 429); [|reflexivity]. cbn [negb].
    apply Z.leb_le in Hr. now rewrite Hr.
  - intros wait_time Hw.
    pose proof (handle_rate_limit_wait_bounds _ _ _ _ Hw) as Hb.
    unfold handle_rate_limit in Hw.
    destruct (Z.eqb_spec (status response) 429) as [Hs|Hs]; [|discriminate].
    cbn [negb] in Hw.
    destruct (Z.leb_spec max_retries retry_count) as [Hr|Hr]; [discriminate|].
    auto.
  - intros e He. unfold handle_rate_limit in He.
    destruct (Z.eqb_spec (status response) 429) as [Hs|Hs]; [|discriminate].
    cbn [negb] in He.
    destruct (Z.leb_spec max_retries retry_count) as [Hr|Hr]; [discriminate|].
    unfold uncapped_wait in He.
    destruct (String.eqb_spec (header_or_zero "x-rate-limit-reset" response) "")
      as [Hz|Hz]; [discriminate|].
    destruct (int_of_str (header_or_zero "x-rate-limit-reset" response));
      [discriminate|].
    injection He as <-. auto.
Qed.

(** ** [process_user]: the three gates *)

Section PipelineOutcomes.
Context `{PyRuntime}.
Variable classifier : list string -> Exn + list (list float).

(** The content gate when the model answers. *)
Lemma process_user_classified now w s data user_id tweets results :
  id data = Some user_id ->
  meets_metric_thresholds data = true ->
  tweets <> [] ->
  classifier tweets = inr results ->
  process_user classifier now (inr tweets) w (mkFrame s data)
  = if ratio_met (List.length (filter above_threshold results)) (List.length tweets)
    then save_account now w true
           (mkFrame (with_log (log s ++ [ClassifiedRelevant user_id]) s) data)
    else save_account now w false
           (mkFrame (with_log (log s ++ [ClassifiedIrrelevant user_id]) s) data).
Proof.
  intros Hid Hgate Hne Hres.
  unfold process_user, bind, subscript_id, gets. cbn [user_data].
  rewrite Hid. cbn [user_data]. rewrite Hgate. cbn [negb].
  destruct tweets as [|t rest]; [congruence|]. cbn [List.length Nat.eqb].
  rewrite (classify_tweets_scored classifier (t :: rest) results _ Hne Hres).
  cbn [List.length].
  destruct (ratio_met _ _); reflexivity.
Qed.

Lemma process_user_without_id now fetched w fr :
  id (user_data fr) = None ->
  process_user classifier now fetched w fr = (fr, inl (KeyError "id")).
Proof.
  intros Hid. unfold process_user, bind, subscript_id. now rewrite Hid.
Qed.

Lemma process_user_fetch_error now w s data user_id e :
  id data = Some user_id ->
  meets_metric_thresholds data = true ->
  process_user classifier now (inl e) w (mkFrame s data)
  = (mkFrame s data, inl e).
Proof.
  intros Hid Hgate.
  unfold process_user, bind, subscript_id, gets. cbn [user_data].
  rewrite Hid. cbn [user_data]. rewrite Hgate. reflexivity.
Qed.

(** With an id and an answer from the fetch, [process_user] returns. *)
Lemma process_user_returns now w s data user_id tweets :
  id data = Some user_id ->
  exists fr', process_user classifier now (inr tweets) w (mkFrame s data)
              = (fr', inr tt).
Proof.
  intros Hid.
  destruct (meets_metric_thresholds data) eqn:Hgate.
  - destruct tweets as [|t rest].
    + rewrite (process_user_activity_gate classifier now w s data user_id Hid Hgate).
      eauto.
    + assert (Hne : t :: rest <> []) by discriminate.
      destruct (classifier (t :: rest)) as [e|results] eqn:Hc.
      * rewrite (process_user_classifier_error classifier now w s data user_id
                   _ e Hid Hgate Hne Hc).
        rewrite (save_account_irrelevant now w _ data user_id Hid). eauto.
      * rewrite (process_user_classified now w s data user_id _ results
                   Hid Hgate Hne Hc).
        destruct (ratio_met _ _).
        -- rewrite (save_account_relevant now w _ data user_id Hid). eauto.
        -- rewrite (save_account_irrelevant now w _ data user_id Hid). eauto.
  - rewrite (process_user_metric_gate classifier now (inr tweets) w s data
               user_id Hid Hgate).
    rewrite (save_account_irrelevant now w _ data user_id Hid). eauto.
Qed.

End PipelineOutcomes.

(** X3: the metric gate is final. A user with 2000 followers or more, or
    with 300 tweets or fewer, is saved as irrelevant whatever the fetch
    of its tweets would answer (even an exception) and whatever the
    model would say: the record stored under its id in the irrelevant
    dictionary carries the new [classified_at], it is flagged
    [too_many_followers] when the followers are 2000 or more and keeps
    the flag it came with otherwise, and the id is not in the relevant
    dictionary afterwards. *)
Theorem process_user_metric_gate_is_final :
  forall (R : PyRuntime) (classifier : list string -> Exn + list (list float))
         (now : Z) (fetched : Exn + list string) (w : WriteOutcome)
         (s : State) (data : Account) (user_id : string),
    id data = Some user_id ->
    max_followers <= followers_of data \/ tweet_count_of data <= min_tweets ->
    exists fr',
      process_user classifier now fetched w (mkFrame s data) = (fr', inr tt)
      /\ PyDict.get user_id (irrelevant_accounts (self fr'))
         = Some (demoted now data)
      /\ PyDict.contains user_id (relevant_accounts (self fr')) = false
      /\ classified_at (demoted now data) = Some (isoformat now)
      /\ (max_followers <= followers_of data ->
          flagged (demoted now data) = true)
      /\ (followers_of data < max_followers ->
          too_many_followers (demoted now data) = too_many_followers data).
Proof.
  intros R classifier now fetched w s data user_id Hid Hfail.
  assert (Hgate : meets_metric_thresholds data = false).
  { destruct (meets_metric_thresholds data) eqn:E; [|reflexivity].
    apply metric_gate_spec in E. lia. }
  rewrite (process_user_metric_gate classifier now fetched w s data user_id
             Hid Hgate).
  rewrite (save_account_irrelevant now w _ data user_id Hid).
  eexists. split; [reflexivity|]. cbn [fst self irrelevant_accounts relevant_accounts].
  split; [apply PyDictFacts.get_set_same|].
  split; [apply PyDictFacts.contains_del_same|].
  unfold demoted.
  destruct (Z.leb_spec max_followers (followers_of data)) as [Hf|Hf].
  - repeat split; try reflexivity. intros; lia.
  - repeat split; try reflexivity. intros; lia.
Qed.

Lemma process_user_metric_gate_is_final_witness :
  exists fr',
    process_user two_of_five jan30 (inl OSError) WriteOk
      (mkFrame dave_relevant dave) = (fr', inr tt)
    /\ PyDict.get "7" (irrelevant_accounts (self fr')) = Some (demoted jan30 dave)
    /\ PyDict.contains "7" (relevant_accounts (self fr')) = false
    /\ classified_at (demoted jan30 dave) = Some (isoformat jan30)
    /\ (max_followers <= followers_of dave -> flagged (demoted jan30 dave) = true)
    /\ (followers_of dave < max_followers ->
        too_many_followers (demoted jan30 dave) = too_many_followers dave).
Proof.
  apply (process_user_metric_gate_is_final sample_runtime two_of_five jan30
           (inl OSError) WriteOk dave_relevant dave "7").
  - reflexivity.
  - left. vm_compute. discriminate.
Defined.

(** X4: the content gate follows the model. For a user that passes the
    metric gate and has original tweets, when the model answers,
    [process_user] returns and the user ends in exactly one dictionary:
    in the relevant one, without a [too_many_followers] key, when the
    ratio test holds; in the irrelevant one otherwise, and then with
    the [too_many_followers] key exactly as the record came with it
    (this path neither sets nor removes it); in both cases under its
    id, with the new [classified_at], and removed from the other
    dictionary. *)
Theorem process_user_follows_the_verdict :
  forall (R : PyRuntime) (classifier : list string -> Exn + list (list float))
         (now : Z) (w : WriteOutcome) (s : State) (data : Account)
         (user_id : string) (tweets : list string) (results : list (list float)),
    id data = Some user_id ->
    meets_metric_thresholds data = true ->
    tweets <> [] ->
    classifier tweets = inr results ->
    exists fr',
      process_user classifier now (inr tweets) w (mkFrame s data) = (fr', inr tt)
      /\ if ratio_met (List.length (filter above_threshold results))
                      (List.length tweets)
         then PyDict.get user_id (relevant_accounts (self fr'))
              = Some (promoted now data)
              /\ PyDict.contains user_id (irrelevant_accounts (self fr')) = false
              /\ too_many_followers (promoted now data) = None
              /\ classified_at (promoted now data) = Some (isoformat now)
         else PyDict.get user_id (irrelevant_accounts (self fr'))
              = Some (demoted now data)
              /\ PyDict.contains user_id (relevant_accounts (self fr')) = false
              /\ demoted now data = set_classified_at (isoformat now) data
              /\ too_many_followers (demoted now data) = too_many_followers data
              /\ classified_at (demoted now data) = Some (isoformat now).
Proof.
  intros R classifier now w s data user_id tweets results Hid Hgate Hne Hres.
  rewrite (process_user_classified classifier now w s data user_id tweets results
             Hid Hgate Hne Hres).
  destruct (ratio_met _ _).
  - rewrite (save_account_relevant now w _ data user_id Hid).
    eexists. split; [reflexivity|].
    cbn [fst self irrelevant_accounts relevant_accounts].
    split; [apply PyDictFacts.get_set_same|].
    split; [apply PyDictFacts.contains_del_same|].
    split; reflexivity.
  - rewrite (save_account_irrelevant now w _ data user_id Hid).
    eexists. split; [reflexivity|].
    cbn [fst self irrelevant_accounts relevant_accounts].
    split; [apply PyDictFacts.get_set_same|].
    split; [apply PyDictFacts.contains_del_same|].
    unfold demoted. apply metric_gate_spec in Hgate.
    destruct (Z.leb_spec max_followers (followers_of data)); [lia|].
    repeat split.
Qed.

Lemma process_user_follows_the_verdict_witness :
  exists fr',
    process_user two_of_five jan30 (inr five_posts) WriteOk
      (mkFrame carol_irrelevant carol) = (fr', inr tt)
    /\ if ratio_met (List.length (filter above_threshold
                                    [ [0.9%float; 0.1%float]; [0.2%float; 0.85%float];
                                      [0.8%float]; [0.5%float; 0.79%float];
                                      [0.1%float] ]))
                    (List.length five_posts)
       then PyDict.get "42" (relevant_accounts (self fr'))
            = Some (promoted jan30 carol)
            /\ PyDict.contains "42" (irrelevant_accounts (self fr')) = false
            /\ too_many_followers (promoted jan30 carol) = None
            /\ classified_at (promoted jan30 carol) = Some (isoformat jan30)
       else PyDict.get "42" (irrelevant_accounts (self fr'))
            = Some (demoted jan30 carol)
            /\ PyDict.contains "42" (relevant_accounts (self fr')) = false
            /\ demoted jan30 carol = set_classified_at (isoformat jan30) carol
            /\ too_many_followers (demoted jan30 carol) = too_many_followers carol
            /\ classified_at (demoted jan30 carol) = Some (isoformat jan30).
Proof.
  apply (process_user_follows_the_verdict sample_runtime two_of_five jan30 WriteOk
           carol_irrelevant carol "42" five_posts).
  - reflexivity.
  - reflexivity.
  - discriminate.
  - reflexivity.
Defined.

(** X5: what [process_user] raises. A record without ["id"] raises
    [KeyError] before anything is touched; an exception that escapes the
    fetch of the tweets is passed on, with both dictionaries, both files
    and the log as they were; and in every other case [process_user]
    returns: a failure of the model or of the rewrite of a file never
    reaches its caller. *)
Theorem process_user_raises_only_before_saving :
  forall (R : PyRuntime) (classifier : list string -> Exn + list (list float))
         (now : Z) (fetched : Exn + list string) (w : WriteOutcome)
         (s : State) (data : Account),
    (id data = None ->
     process_user classifier now fetched w (mkFrame s data)
     = (mkFrame s data, inl (KeyError "id")))
    /\ (forall e, id data <> None -> meets_metric_thresholds data = true ->
          process_user classifier now (inl e) w (mkFrame s data)
          = (mkFrame s data, inl e))
    /\ (id data <> None -> meets_metric_thresholds data = false ->
        exists fr',
          process_user classifier now fetched w (mkFrame s data) = (fr', inr tt))
    /\ (forall tweets, id data <> None ->
          exists fr',
            process_user classifier now (inr tweets) w (mkFrame s data)
            = (fr', inr tt)).
Proof.
  intros R classifier now fetched w s data.
  split; [|split; [|split]].
  - intros Hid. now apply process_user_without_id.
  - intros e Hid Hgate. destruct (id data) as [user_id|] eqn:E; [|congruence].
    now apply (process_user_fetch_error classifier now w s data user_id).
  - intros Hid Hgate. destruct (id data) as [user_id|] eqn:E; [|congruence].
    rewrite (process_user_metric_gate classifier now fetched w s data user_id
               E Hgate).
    rewrite (save_account_irrelevant now w _ data user_id E). eauto.
  - intros tweets Hid. destruct (id data) as [user_id|] eqn:E; [|congruence].
    now apply (process_user_returns classifier now w s data user_id).
Qed.

(** ** Loading: what is kept later, and what can go wrong *)

Section LoadingMore.
Context `{PyRuntime}.

(** The ageing test only gets stricter as the clock advances. *)
Lemma kept_earlier t1 t2 account :
  t1 <= t2 -> kept t2 account = true -> kept t1 account = true.
Proof.
  intros Hle. unfold kept, keeps, timedelta_days.
  destruct (flagged account); [reflexivity|].
  destruct (classified_at account) as [stamp|]; [|reflexivity].
  destruct (String.eqb stamp ""); [reflexivity|].
  destruct (fromisoformat stamp) as [|wall|t off]; try reflexivity.
  destruct (Z.ltb_spec ((t2 - t) / microseconds_per_day) 30) as [H2|H2];
    [|discriminate].
  intros _.
  assert (Hmono : (t1 - t) / microseconds_per_day <= (t2 - t) / microseconds_per_day).
  { apply Z.div_le_mono; [reflexivity|lia]. }
  destruct (Z.ltb_spec ((t1 - t) / microseconds_per_day) 30); [reflexivity|lia].
Qed.

Lemma whole_seconds_mono now1 now2 :
  now1 <= now2 -> whole_seconds now1 <= whole_seconds now2.
Proof.
  intros Hle. unfold whole_seconds.
  apply Z.mul_le_mono_nonneg_r; [lia|].
  apply Z.div_le_mono; lia.
Qed.

Lemma index_by_id_error (accounts : list Account) :
  forall d e,
    snd (index_by_id accounts d) = Some e ->
    e = KeyError "id" /\ Exists (fun a => id a = None) accounts.
Proof.
  induction accounts as [|a rest IH]; intros d e; simpl; [discriminate|].
  destruct (id a) as [k|] eqn:Hid.
  - intros Hr. apply IH in Hr as [-> Hex]. split; [reflexivity|].
    now apply Exists_cons_tl.
  - simpl. intros [= <-]. split; [reflexivity|]. now apply Exists_cons_hd.
Qed.

Lemma index_by_id_In (accounts : list Account) :
  forall d k a,
    PyDict.get k (fst (index_by_id accounts d)) = Some a ->
    In a accounts \/ PyDict.get k d = Some a.
Proof.
  induction accounts as [|b rest IH]; intros d k a; simpl; auto.
  destruct (id b) as [kb|]; simpl; auto.
  intros Hg. apply IH in Hg as [Hg|Hg]; auto.
  destruct (String.eqb_spec k kb) as [->|Hne].
  - rewrite PyDictFacts.get_set_same in Hg. injection Hg as ->. auto.
  - rewrite PyDictFacts.get_set_other in Hg by auto. auto.
Qed.

(** The ageing loop raises only on a stamp without offset. *)
Lemma age_out_raises now_utc items :
  forall fresh s s' e,
    age_out now_utc items fresh s = (s', inl e) ->
    e = TypeError
    /\ same_stores s s'
    /\ exists item stamp wall,
         In item items /\ flagged (snd item) = false
         /\ classified_at (snd item) = Some stamp
         /\ fromisoformat stamp = Naive wall.
Proof.
  induction items as [|[user_id account] rest IH]; intros fresh s s' e; simpl.
  - discriminate.
  - destruct (keeps now_utc account) as [e0|[|]] eqn:K.
    + intros [= <- <-]. unfold keeps in K.
      destruct (flagged account) eqn:F; [discriminate|].
      destruct (classified_at account) as [stamp|] eqn:C; [|discriminate].
      destruct (String.eqb stamp ""); [discriminate|].
      destruct (fromisoformat stamp) as [|wall|t off] eqn:P; try discriminate.
      injection K as <-. split; [reflexivity|].
      split; [repeat split|].
      exists (user_id, account), stamp, wall. simpl. auto.
    + intros Hrun. apply IH in Hrun as (He & Hs & item & stamp & wall & Hin & Hrest).
      split; [exact He|]. split; [exact Hs|].
      exists item, stamp, wall. simpl. auto.
    + unfold bind, modify. intros Hrun.
      apply IH in Hrun as (He & Hs & item & stamp & wall & Hin & Hrest).
      split; [exact He|]. split; [exact Hs|].
      exists item, stamp, wall. simpl. auto.
Qed.

(** The body of the [try] raises on a corrupt file or a record without
    an id, and does not touch the files. *)
Lemma load_files_raises rel irr s1 e :
  load_files (initial rel irr) = (s1, inl e) ->
  relevant_file s1 = rel /\ irrelevant_file s1 = irr
  /\ ((e = JSONDecodeError /\ (rel = Corrupt \/ irr = Corrupt))
      \/ (e = KeyError "id"
          /\ exists records, (rel = Json records \/ irr = Json records)
                             /\ Exists (fun a => id a = None) records)).
Proof.
  unfold load_files, load_file, bind, gets, modify, raise, ret, initial.
  destruct rel as [|rs|]; simpl.
  - destruct irr as [|irs|]; simpl; try discriminate.
    + pose proof (index_by_id_error irs PyDict.empty) as Ei.
      destruct (index_by_id irs PyDict.empty) as [d' [e'|]]; simpl;
        [|discriminate].
      intros [= <- <-]. simpl. destruct (Ei e' eq_refl) as [-> Hex].
      repeat split. right. split; [reflexivity|]. exists irs. auto.
    + intros [= <- <-]. simpl. repeat split. left. auto.
  - pose proof (index_by_id_error rs PyDict.empty) as Er.
    destruct (index_by_id rs PyDict.empty) as [d [er|]]; simpl.
    + intros [= <- <-]. simpl. destruct (Er er eq_refl) as [-> Hex].
      repeat split. right. split; [reflexivity|]. exists rs. auto.
    + destruct irr as [|irs|]; simpl; try discriminate.
      * pose proof (index_by_id_error irs PyDict.empty) as Ei.
        destruct (index_by_id irs PyDict.empty) as [d' [e'|]]; simpl;
          [|discriminate].
        intros [= <- <-]. simpl. destruct (Ei e' eq_refl) as [-> Hex].
        repeat split. right. split; [reflexivity|]. exists irs. auto.
      * intros [= <- <-]. simpl. repeat split. left. auto.
  - intros [= <- <-]. simpl. repeat split. left. auto.
Qed.

End LoadingMore.

(** X6: the decay is monotone in time. Of two loads of the same two
    files, the later one keeps in the irrelevant dictionary only
    records that the earlier one keeps, each as the file has it: waiting
    never brings an aged-out account back, and the relevant dictionary
    does not depend on the clock at all. *)
Theorem later_load_keeps_no_more :
  forall (R : PyRuntime) (now1 now2 : Z) (rel irr : File) (s1 s2 : State),
    now1 <= now2 ->
    load_existing_accounts now1 (initial rel irr) = (s1, inr tt) ->
    load_existing_accounts now2 (initial rel irr) = (s2, inr tt) ->
    relevant_accounts s2 = relevant_accounts s1
    /\ forall user_id account,
         PyDict.get user_id (irrelevant_accounts s2) = Some account ->
         PyDict.get user_id (irrelevant_accounts s1) = Some account.
Proof.
  intros R now1 now2 rel irr s1 s2 Hle L1 L2.
  apply load_existing_accounts_run in L1 as (R1 & I1 & _).
  apply load_existing_accounts_run in L2 as (R2 & I2 & _).
  split; [congruence|].
  intros user_id account. rewrite I1, I2.
  rewrite !get_filter_values by apply load_quietly_wf.
  destruct (PyDict.get user_id (load_quietly irr)) as [a|]; [|discriminate].
  destruct (kept (whole_seconds now2) a) eqn:K2; [|discriminate].
  intros [= <-].
  now rewrite (kept_earlier _ _ a (whole_seconds_mono _ _ Hle) K2).
Qed.

Lemma later_load_keeps_no_more_witness :
  let files := initial (Json [dave]) (Json [carol; garbled; unstamped; whale]) in
  let s1 := fst (load_existing_accounts jan30 files) in
  let s2 := fst (load_existing_accounts feb01 files) in
  relevant_accounts s2 = relevant_accounts s1
  /\ forall user_id account,
       PyDict.get user_id (irrelevant_accounts s2) = Some account ->
       PyDict.get user_id (irrelevant_accounts s1) = Some account.
Proof.
  apply (later_load_keeps_no_more sample_runtime jan30 feb01
           (Json [dave]) (Json [carol; garbled; unstamped; whale])).
  - vm_compute. discriminate.
  - reflexivity.
  - reflexivity.
Defined.

(** X7: how [load_existing_accounts] fails. It never writes a file, and
    when it raises it is one of three exceptions: [JSONDecodeError], and
    then one of the two files is corrupt; [KeyError] on ["id"], and then a
    record of one of the files has no id; or [TypeError], and then the
    irrelevant file holds an unflagged record whose [classified_at]
    parses to a datetime without offset, which cannot be subtracted from
    the aware [now_utc]. *)
Theorem load_existing_accounts_failures :
  forall (R : PyRuntime) (now : Z) (rel irr : File) (s' : State) (e : Exn),
    load_existing_accounts now (initial rel irr) = (s', inl e) ->
    relevant_file s' = rel /\ irrelevant_file s' = irr
    /\ ((e = JSONDecodeError /\ (rel = Corrupt \/ irr = Corrupt))
        \/ (e = KeyError "id"
            /\ exists records, (rel = Json records \/ irr = Json records)
                               /\ Exists (fun a => id a = None) records)
        \/ (e = TypeError
            /\ exists records account stamp wall,
                 irr = Json records /\ In account records
                 /\ flagged account = false
                 /\ classified_at account = Some stamp
                 /\ fromisoformat stamp = Naive wall)).
Proof.
  intros R now rel irr s' e.
  unfold load_existing_accounts, bind at 1, try_except.
  destruct (load_files (initial rel irr)) as [s1 [e1|[]]] eqn:L.
  - apply load_files_raises in L as (Lr & Li & Lcase).
    unfold bind, modify, raise. intros [= <- <-]. simpl.
    split; [exact Lr|]. split; [exact Li|].
    destruct Lcase as [Lc|Lc]; auto.
  - apply load_files_run in L. destruct L as (Lr & Li & Lrf & Lif).
    unfold bind, gets, modify. rewrite Li.
    destruct (age_out (whole_seconds now) (load_quietly irr) PyDict.empty s1)
      as [s2 [e2|fresh]] eqn:A; [|discriminate].
    intros [= <- <-].
    apply age_out_raises in A
      as (-> & (_ & _ & Arf & Aif) & [k a] & stamp & wall & Hin & Hf & Hc & Hp).
    split; [congruence|]. split; [congruence|].
    right. right. split; [reflexivity|].
    destruct irr as [|records|]; simpl in Hin; try contradiction.
    exists records, a, stamp, wall. repeat split; auto.
    apply PyDictFacts.In_get in Hin;
      [|apply (index_by_id_wf records PyDict.empty PyDictFacts.wf_empty)].
    apply index_by_id_In in Hin as [Hin|Hin]; [exact Hin|discriminate].
Qed.

Lemma load_existing_accounts_failures_witness :
  let s' := fst (load_existing_accounts jan30
                   (initial Missing (Json [carol; naive_stamped]))) in
  relevant_file s' = Missing /\ irrelevant_file s' = Json [carol; naive_stamped]
  /\ ((TypeError = JSONDecodeError
       /\ (Missing = Corrupt \/ Json [carol; naive_stamped] = Corrupt))
      \/ (TypeError = KeyError "id"
          /\ exists records,
               (Missing = Json records \/ Json [carol; naive_stamped] = Json records)
               /\ Exists (fun a => id a = None) records)
      \/ (TypeError = TypeError
          /\ exists records account stamp wall,
               Json [carol; naive_stamped] = Json records /\ In account records
               /\ flagged account = false
               /\ classified_at account = Some stamp
               /\ fromisoformat stamp = Naive wall)).
Proof.
  apply (load_existing_accounts_failures sample_runtime jan30 Missing
           (Json [carol; naive_stamped]) _ TypeError).
  reflexivity.
Defined.

(** ** [fetch_recent_tweets]: the users it passes on *)

(** X8: the users [fetch_recent_tweets] hands to the pipeline. When the
    loop over [includes.users] completes, every entry it added to
    [users_map] is a user of the answer, stored under its own id, that
    has at least 300 tweets and fewer than 2000 followers; every such
    user of the answer is in the map; nothing that was in the map is
    lost; and the loop raises (a [KeyError]) exactly when a user of the
    answer has no id. *)
Theorem collect_users_admits_the_filtered :
  forall (users : list Account) (users_map : PyDict.t Account),
    (forall result,
       collect_users users users_map = inr result ->
       (forall k user,
          PyDict.get k result = Some user ->
          PyDict.get k users_map = Some user
          \/ (In user users /\ id user = Some k
              /\ min_tweets <= tweet_count_of user
              /\ followers_of user < max_followers))
       /\ (forall k user,
             In user users -> id user = Some k ->
             passes_inline_filter user = true ->
             PyDict.contains k result = true)
       /\ (forall k, PyDict.contains k users_map = true ->
                     PyDict.contains k result = true))
    /\ (forall e, collect_users users users_map = inl e ->
                  e = KeyError "id" /\ Exists (fun user => id user = None) users)
    /\ (Forall (fun user => id user <> None) users ->
        exists result, collect_users users users_map = inr result).
Proof.
  intros users. induction users as [|user rest IH]; intros users_map.
  - split; [|split].
    + intros result [= <-]. split; [auto|]. split; [|auto].
      intros k user [].
    + discriminate.
    + intros _. now exists users_map.
  - simpl. destruct (id user) as [ku|] eqn:Hid.
    2:{ split; [discriminate|]. split.
        - intros e [= <-]. split; [reflexivity|]. now apply Exists_cons_hd.
        - intros Hall. inversion Hall; subst. congruence. }
    destruct (passes_inline_filter user) eqn:Hpass.
    + destruct (IH (PyDict.set ku user users_map)) as (IHr & IHe & IHt).
      split; [|split].
      * intros result Hrun. destruct (IHr result Hrun) as (I1 & I2 & I3).
        split; [|split].
        -- intros k u Hg. apply I1 in Hg as [Hg|(Hin & Hk & Hb)].
           ++ destruct (String.eqb_spec k ku) as [->|Hne].
              ** rewrite PyDictFacts.get_set_same in Hg. injection Hg as <-.
                 right. apply inline_filter_spec in Hpass. tauto.
              ** rewrite PyDictFacts.get_set_other in Hg by auto. auto.
           ++ right. tauto.
        -- intros k u [<-|Hin] Hk Hp.
           ++ rewrite Hid in Hk. injection Hk as <-.
              apply I3. apply PyDictFacts.contains_set_same.
           ++ now apply (I2 k u).
        -- intros k Hk. apply I3.
           destruct (String.eqb_spec k ku) as [->|Hne].
           ++ apply PyDictFacts.contains_set_same.
           ++ now rewrite PyDictFacts.contains_set_other.
      * intros e He. apply IHe in He as [-> Hex]. split; [reflexivity|].
        now apply Exists_cons_tl.
      * intros Hall. inversion Hall; subst. now apply IHt.
    + destruct (IH users_map) as (IHr & IHe & IHt).
      split; [|split].
      * intros result Hrun. destruct (IHr result Hrun) as (I1 & I2 & I3).
        split; [|split].
        -- intros k u Hg. apply I1 in Hg as [Hg|(Hin & Hk & Hb)]; [auto|].
           right. tauto.
        -- intros k u [<-|Hin] Hk Hp; [congruence|]. now apply (I2 k u).
        -- exact I3.
      * intros e He. apply IHe in He as [-> Hex]. split; [reflexivity|].
        now apply Exists_cons_tl.
      * intros Hall. inversion Hall; subst. now apply IHt.
Qed.

(** ** The tweet store: what a save adds, and the cursor *)

Lemma leb_trans (a b c : string) :
  String.leb a b = true -> String.leb b c = true -> String.leb a c = true.
Proof.
  assert (Hle : forall x y, String.leb x y = true
                            <-> x = y \/ OrderedTypeEx.String_as_OT.lt x y).
  { intros x y. unfold String.leb.
    destruct (String.compare x y) eqn:E.
    - apply String.compare_eq_iff in E. tauto.
    - apply OrderedTypeEx.String_as_OT.cmp_lt in E. tauto.
    - split; [discriminate|]. intros [->|Hlt].
      + assert (Eq = Gt); [|discriminate]. rewrite <- E.
        symmetry. destruct (String.compare y y) eqn:E'; auto;
          pose proof (String.compare_antisym y y) as Ha; rewrite E' in Ha;
          discriminate.
      + apply OrderedTypeEx.String_as_OT.cmp_lt in Hlt.
        unfold OrderedTypeEx.String_as_OT.cmp in Hlt. congruence. }
  intros Hab Hbc. apply Hle in Hab. apply Hle in Hbc. apply Hle.
  destruct Hab as [->|Hab]; [assumption|].
  destruct Hbc as [<-|Hbc]; [auto|].
  right. exact (OrderedTypeEx.String_as_OT.lt_trans _ _ _ Hab Hbc).
Qed.

Lemma leb_refl (a : string) : String.leb a a = true.
Proof. destruct (String.leb_total a a); assumption. Qed.

Lemma ltb_false_leb (a b : string) :
  String.ltb a b = false -> String.leb b a = true.
Proof.
  unfold String.ltb, String.leb. rewrite (String.compare_antisym b a).
  destruct (String.compare a b); simpl; congruence.
Qed.

Lemma ltb_true_leb (a b : string) :
  String.ltb a b = true -> String.leb a b = true.
Proof.
  unfold String.ltb, String.leb. destruct (String.compare a b); congruence.
Qed.

Lemma latest_upper (rest : list string) :
  forall best,
    String.leb best (latest best rest) = true
    /\ forall s, In s rest -> String.leb s (latest best rest) = true.
Proof.
  induction rest as [|s rest IH]; intros best; simpl.
  - split; [apply leb_refl|tauto].
  - destruct (IH (if String.ltb best s then s else best)) as [Hb Hr].
    destruct (String.ltb best s) eqn:E.
    + split.
      * apply (leb_trans best s); [now apply ltb_true_leb|exact Hb].
      * intros x [<-|Hin]; auto.
    + split; [exact Hb|].
      intros x [<-|Hin]; auto.
      apply (leb_trans s best); [now apply ltb_false_leb|exact Hb].
Qed.

Lemma latest_In (rest : list string) :
  forall best, latest best rest = best \/ In (latest best rest) rest.
Proof.
  induction rest as [|s rest IH]; intros best; simpl; [auto|].
  destruct (IH (if String.ltb best s then s else best)) as [Hl|Hl].
  - rewrite Hl. destruct (String.ltb best s); auto.
  - auto.
Qed.

Lemma latest_app (l1 l2 : list string) :
  forall best, latest best (l1 ++ l2) = latest (latest best l1) l2.
Proof.
  induction l1 as [|s l1 IH]; intros best; simpl; [reflexivity|apply IH].
Qed.

Lemma new_tweets_distinct (stored tweets : list Tweet) :
  NoDup (map tweet_id stored) ->
  NoDup (map tweet_id tweets) ->
  NoDup (map tweet_id (stored ++ new_tweets stored tweets)).
Proof.
  intros Hs Ht. rewrite map_app. apply NoDup_app.
  - exact Hs.
  - unfold new_tweets. clear Hs.
    induction tweets as [|t rest IH]; simpl; [constructor|].
    inversion Ht as [|? ? Hnotin Hrest]; subst.
    destruct (negb (seen (map tweet_id stored) t)); simpl; auto.
    constructor; auto.
    intros Hin. apply Hnotin. apply in_map_iff in Hin as (t' & Ht' & Hin).
    apply filter_In in Hin as [Hin _]. rewrite <- Ht'. now apply in_map.
  - intros a Ha Hin. apply in_map_iff in Hin as (t & <- & Hin).
    apply new_tweets_In in Hin as [_ Hnot]. contradiction.
Qed.

Lemma merge_fetched_wf username tweets store :
  PyDict.wf store -> PyDict.wf (merge_fetched username tweets store).
Proof.
  intros W. destruct tweets; simpl; [exact W|]. now apply PyDictFacts.wf_set.
Qed.

Lemma collected_merge_fetched_other username other tweets store :
  other <> username ->
  collected other (merge_fetched username tweets store) = collected other store.
Proof.
  intros Hne. unfold collected. destruct tweets as [|t rest]; [reflexivity|].
  unfold merge_fetched. now rewrite PyDictFacts.get_set_other.
Qed.

Lemma merge_fetched_distinct username tweets store :
  distinct_ids store ->
  NoDup (map tweet_id tweets) ->
  distinct_ids (merge_fetched username tweets store).
Proof.
  intros Hd Ht name. destruct (String.eqb_spec name username) as [->|Hne].
  - destruct tweets as [|t rest]; [apply Hd|].
    rewrite collected_merge_fetched. apply new_tweets_distinct; auto.
  - rewrite collected_merge_fetched_other by auto. apply Hd.
Qed.

Lemma save_all_tweets_distinct memory file :
  PyDict.wf memory ->
  PyDict.wf (on_disk file) ->
  distinct_ids memory ->
  distinct_ids (on_disk file) ->
  distinct_ids (save_all_tweets memory file).
Proof.
  intros Wm Wf Dm Df name. unfold collected at 1.
  rewrite (save_all_tweets_get memory file name Wm Wf).
  specialize (Dm name). specialize (Df name). unfold collected in Dm, Df.
  destruct (PyDict.get name memory) as [tweets|];
    destruct (PyDict.get name (on_disk file)) as [stored|]; simpl.
  - destruct (stored ++ new_tweets stored tweets) as [|t l] eqn:E;
      [constructor|]. rewrite <- E. now apply new_tweets_distinct.
  - destruct tweets; [constructor|exact Dm].
  - destruct stored; [constructor|exact Df].
  - constructor.
Qed.

(** X9: [save_all_tweets] only adds to the file. For every name, the
    tweets the file held stay, in their order, at the head of the entry,
    and what is appended are tweets of the dictionary in memory whose
    ids the file did not have; every tweet in memory has its id in the
    file afterwards; and the file never holds an empty list. *)
Theorem save_all_tweets_only_adds :
  forall (memory : PyDict.t (list Tweet)) (file : option (PyDict.t (list Tweet))),
    PyDict.wf memory ->
    PyDict.wf (on_disk file) ->
    let file' := save_all_tweets memory file in
    PyDict.wf file'
    /\ (forall name stored,
          PyDict.get name (on_disk file) = Some stored -> stored <> [] ->
          exists added,
            PyDict.get name file' = Some (stored ++ added)
            /\ forall tweet, In tweet added ->
                 In tweet (collected name memory)
                 /\ ~ In (tweet_id tweet) (map tweet_id stored))
    /\ (forall name tweet,
          In tweet (collected name memory) ->
          exists entry,
            PyDict.get name file' = Some entry
            /\ In (tweet_id tweet) (map tweet_id entry))
    /\ (forall name, PyDict.get name file' <> Some []).
Proof.
  intros memory file Wm Wf file'. subst file'.
  split; [now apply save_all_tweets_wf|].
  split; [|split].
  - intros name stored Hs Hne.
    rewrite (save_all_tweets_get memory file name Wm Wf), Hs.
    unfold collected.
    destruct (PyDict.get name memory) as [tweets|]; simpl.
    + exists (new_tweets stored tweets). split.
      * destruct stored as [|t l]; [congruence|]. reflexivity.
      * intros tweet Hin. now apply new_tweets_In in Hin.
    + exists []. split.
      * rewrite app_nil_r. destruct stored; [congruence|reflexivity].
      * intros tweet [].
  - intros name tweet Hin.
    rewrite (save_all_tweets_get memory file name Wm Wf).
    unfold collected in Hin.
    destruct (PyDict.get name memory) as [tweets|]; [|contradiction].
    destruct (PyDict.get name (on_disk file)) as [stored|]; simpl.
    + pose proof (merged_covers stored tweets tweet Hin) as Hc.
      destruct (stored ++ new_tweets stored tweets) as [|t l] eqn:E;
        [contradiction|].
      exists (t :: l). auto.
    + destruct tweets as [|t l]; [contradiction|].
      exists (t :: l). split; [reflexivity|]. now apply in_map.
  - intros name. rewrite (save_all_tweets_get memory file name Wm Wf).
    destruct (merged_entry _ _) as [[|t l]|]; simpl; discriminate.
Qed.

Lemma save_all_tweets_only_adds_witness :
  let file' := save_all_tweets [("carol", carol_batch)] (Some carol_tweets) in
  PyDict.wf file'
  /\ (forall name stored,
        PyDict.get name (on_disk (Some carol_tweets)) = Some stored ->
        stored <> [] ->
        exists added,
          PyDict.get name file' = Some (stored ++ added)
          /\ forall tweet, In tweet added ->
               In tweet (collected name [("carol", carol_batch)])
               /\ ~ In (tweet_id tweet) (map tweet_id stored))
  /\ (forall name tweet,
        In tweet (collected name [("carol", carol_batch)]) ->
        exists entry,
          PyDict.get name file' = Some entry
          /\ In (tweet_id tweet) (map tweet_id entry))
  /\ (forall name, PyDict.get name file' <> Some []).
Proof.
  apply (save_all_tweets_only_adds [("carol", carol_batch)] (Some carol_tweets)).
  - repeat constructor. simpl. tauto.
  - repeat constructor. simpl. tauto.
Defined.

(** X10: [clean_all_tweets] drops the empty entries and nothing else.
    A file that does not exist is not created; in an existing file
    every name with tweets keeps them and every name with an empty
    list is gone; cleaning twice is cleaning once; and a file that
    [save_all_tweets] has written is already clean. *)
Theorem clean_all_tweets_drops_only_empty_entries :
  forall (file : option (PyDict.t (list Tweet))),
    (file = None -> clean_all_tweets file = None)
    /\ (forall d, file = Some d -> PyDict.wf d ->
          exists d',
            clean_all_tweets file = Some d'
            /\ PyDict.wf d'
            /\ forall name,
                 PyDict.get name d' = unless_empty (PyDict.get name d))
    /\ clean_all_tweets (clean_all_tweets file) = clean_all_tweets file
    /\ (forall memory,
          clean_all_tweets (Some (save_all_tweets memory file))
          = Some (save_all_tweets memory file)).
Proof.
  assert (Hidem : forall d : PyDict.t (list Tweet), cleaned (cleaned d) = cleaned d).
  { intros d. unfold cleaned. induction d as [|[k [|t l]] rest IH]; simpl; auto.
    now rewrite IH. }
  intros file. split; [|split; [|split]].
  - now intros ->.
  - intros d -> W. exists (cleaned d). split; [reflexivity|]. split.
    + unfold PyDict.wf, PyDict.keys, cleaned in *.
      induction d as [|[k v] rest IH]; simpl; auto.
      inversion W as [|? ? Hnotin W']; subst.
      destruct v; simpl; auto. constructor; auto.
      intros Hin. apply Hnotin. apply in_map_iff in Hin as ([k0 v0] & Hk & Hin).
      apply filter_In in Hin as [Hin _]. simpl in Hk. subst k0.
      now apply (in_map fst) in Hin.
    + intros name. unfold cleaned.
      rewrite (get_filter_values
                 (fun tweets => match tweets with [] => false | _ :: _ => true end))
        by exact W.
      destruct (PyDict.get name d) as [[|t l]|]; reflexivity.
  - destruct file as [d|]; simpl; [|reflexivity]. now rewrite Hidem.
  - intros memory. unfold clean_all_tweets, save_all_tweets. simpl.
    now rewrite Hidem.
Qed.

(** X11: distinct ids are an invariant of [process_account]. When no
    tweet id comes twice under one name, in memory and in the file, and
    the answer of the API has distinct ids, the same holds after the
    merge and the save. *)
Theorem process_account_keeps_ids_distinct :
  forall (account : Account) (tweets : list Tweet) (st : FetchTweets),
    PyDict.wf (all_tweets st) ->
    PyDict.wf (on_disk (all_tweets_file st)) ->
    distinct_ids (all_tweets st) ->
    distinct_ids (on_disk (all_tweets_file st)) ->
    NoDup (map tweet_id tweets) ->
    let st' := process_account account tweets st in
    distinct_ids (all_tweets st')
    /\ distinct_ids (on_disk (all_tweets_file st'))
    /\ PyDict.wf (all_tweets st')
    /\ PyDict.wf (on_disk (all_tweets_file st')).
Proof.
  intros account tweets st Wm Wf Dm Df Ht st'. subst st'.
  unfold process_account.
  destruct (id account) as [user_id|]; [|auto].
  destruct (String.eqb user_id ""); [auto|].
  destruct tweets as [|t rest]; [auto|].
  cbn [all_tweets all_tweets_file on_disk].
  split; [now apply merge_fetched_distinct|].
  split; [|split].
  - apply save_all_tweets_distinct; auto.
    + now apply merge_fetched_wf.
    + now apply merge_fetched_distinct.
  - now apply merge_fetched_wf.
  - now apply save_all_tweets_wf.
Qed.

Lemma process_account_keeps_ids_distinct_witness :
  let st' := process_account carol carol_batch
               (mkFetchTweets carol_tweets (Some carol_tweets)) in
  distinct_ids (all_tweets st')
  /\ distinct_ids (on_disk (all_tweets_file st'))
  /\ PyDict.wf (all_tweets st')
  /\ PyDict.wf (on_disk (all_tweets_file st')).
Proof.
  assert (W : PyDict.wf carol_tweets) by (repeat constructor; simpl; tauto).
  assert (D : distinct_ids carol_tweets).
  { intros name. unfold collected, carol_tweets. simpl.
    destruct (String.eqb name "carol"); repeat constructor; simpl; tauto. }
  apply (process_account_keeps_ids_distinct carol carol_batch
           (mkFetchTweets carol_tweets (Some carol_tweets)) W W D D).
  repeat constructor; simpl; intuition discriminate.
Defined.

(** X12: the cursor of [process_account]. [get_latest_collected_time]
    answers [None] exactly when nothing is collected under the name;
    otherwise it answers the [created_at] of a collected tweet that no
    collected tweet exceeds (as strings); and merging an answer of the
    API never moves it backwards. *)
Theorem get_latest_collected_time_is_latest :
  forall (username : string) (store : PyDict.t (list Tweet)),
    (get_latest_collected_time username store = None
     <-> collected username store = [])
    /\ (forall t,
          get_latest_collected_time username store = Some t ->
          (exists tweet, In tweet (collected username store)
                         /\ created_at tweet = t)
          /\ forall tweet, In tweet (collected username store) ->
                           String.leb (created_at tweet) t = true)
    /\ (forall tweets t,
          get_latest_collected_time username store = Some t ->
          exists t',
            get_latest_collected_time username
              (merge_fetched username tweets store) = Some t'
            /\ String.leb t t' = true).
Proof.
  intros username store.
  unfold get_latest_collected_time.
  split; [|split].
  - unfold collected.
    destruct (PyDict.get username store) as [[|tw rest]|];
      split; try reflexivity; discriminate.
  - intros t. unfold collected.
    destruct (PyDict.get username store) as [[|tw rest]|]; try discriminate.
    intros [= <-].
    destruct (latest_upper (map created_at rest) (created_at tw)) as [Hb Hr].
    split.
    + destruct (latest_In (map created_at rest) (created_at tw)) as [Hl|Hl].
      * exists tw. split; [now left|now symmetry].
      * apply in_map_iff in Hl as (tweet & Hc & Hin).
        exists tweet. split; [now right|exact Hc].
    + intros tweet [<-|Hin]; [exact Hb|]. apply Hr. now apply in_map.
  - intros tweets t Hl.
    destruct tweets as [|b batch].
    { simpl. exists t. split; [exact Hl|apply leb_refl]. }
    unfold merge_fetched. rewrite PyDictFacts.get_set_same.
    unfold collected.
    destruct (PyDict.get username store) as [[|tw rest]|]; try discriminate.
    injection Hl as <-. cbn [app]. eexists. split; [reflexivity|].
    rewrite map_app, latest_app.
    apply (proj1 (latest_upper _ _)).
Qed.

(** ** The re-evaluation scripts: what a review decides and writes *)

Section ReviewFacts.
Context `{PyRuntime}.
Variable fetch_user_metrics : string -> option Account.

(** A review that returns has read the id, the name and the tweet
    store, and has counted the recent tweets; its verdict is the
    inactivity test, then the follower test. *)
Lemma review_run now tweets_file account purged account' :
  review fetch_user_metrics now tweets_file account = inr (purged, account') ->
  exists user_id name store recent,
    id account = Some user_id
    /\ username account = Some name
    /\ tweets_file = Some store
    /\ recent_after (now - DAYS_BACK * microseconds_per_day) (collected name store)
       = inr recent
    /\ let followers := match fetch_user_metrics user_id with
                        | Some new_data => followers_of new_data
                        | None => 0
                        end in
       let checked := set_last_checked (Z.of_nat (List.length recent))
                        (isoformat now) account in
       let stale := match recent, fromisoformat
                                     (match last_checked_at account with
                                      | Some s => s
                                      | None => "1970-01-01T00:00:00Z"
                                      end) with
                    | [], Aware last _ => DAYS_BACK <? timedelta_days (now - last)
                    | _, _ => false
                    end in
       (purged, account')
       = if stale then (true, checked)
         else if MAX_FOLLOWERS <=? followers
              then (true, set_too_many_followers checked)
              else (false, checked).
Proof.
  unfold review.
  destruct (id account) as [user_id|] eqn:Hid; [|discriminate].
  destruct (username account) as [name|]; [|discriminate].
  destruct (fromisoformat _) as [|wall|last off]; [discriminate| |];
    (destruct tweets_file as [store|]; [|discriminate]);
    (destruct (recent_after _ _) as [e|[|t recent]] eqn:Hr; [discriminate| |]);
    try discriminate;
    intros Hrun; exists user_id, name, store;
    (eexists; split; [reflexivity|]; split; [reflexivity|];
     split; [reflexivity|]; split; [exact Hr|]);
    cbv beta iota zeta;
    repeat match goal with
           | |- context [if ?c then _ else _] => destruct c
           | Hx : context [if ?c then _ else _] |- _ => destruct c
           end;
    congruence.
Qed.

(** The loop reviews the accounts one by one, in order, and sends each
    reviewed record to the end of one of the two lists, by its verdict. *)
Lemma purge_loop_deals now tweets_file accounts :
  forall remaining purged remaining' purged',
    purge_loop fetch_user_metrics now tweets_file accounts remaining purged
    = inr (remaining', purged') ->
    exists reviewed : list (bool * Account),
      Forall2 (fun account r =>
                 review fetch_user_metrics now tweets_file account = inr r)
              accounts reviewed
      /\ remaining'
         = remaining ++ map snd (filter (fun r => negb (fst r)) reviewed)
      /\ purged' = purged ++ map snd (filter (fun r => fst r) reviewed).
Proof.
  induction accounts as [|account rest IH];
    intros remaining purged remaining' purged'; simpl.
  - intros [= <- <-]. exists []. rewrite !app_nil_r.
    split; [constructor|]. split; reflexivity.
  - destruct (review fetch_user_metrics now tweets_file account)
      as [e|[[|] account']] eqn:Hrev; [discriminate| |];
      intros Hloop; apply IH in Hloop as (reviewed & Hall & -> & ->).
    + exists ((true, account') :: reviewed).
      split; [constructor; [exact Hrev|exact Hall]|].
      cbn [filter fst negb map snd]. rewrite <- app_assoc. split; reflexivity.
    + exists ((false, account') :: reviewed).
      split; [constructor; [exact Hrev|exact Hall]|].
      cbn [filter fst negb map snd]. rewrite <- app_assoc. split; reflexivity.
Qed.

End ReviewFacts.

(** X13: the verdict of a review. In a run of the loop body of
    [purge_irrelevant_accounts] that returns, an account for which X
    answers 2000 followers or more is always purged (a failed fetch
    counts as 0 followers); an account that is purged has 2000
    followers or more, or has no stored tweet of the last 30 days; an
    account with a stored tweet of the last 30 days that is purged is
    flagged [too_many_followers]; an account that stays keeps its flag
    as it was. In every case the record is stamped with the time of the
    review and the number of recent tweets, and nothing else of it
    changes: its [classified_at] is not refreshed. *)
Theorem review_verdict :
  forall (R : PyRuntime) (fetch_user_metrics : string -> option Account)
         (now : Z) (tweets_file : option (PyDict.t (list Tweet)))
         (account account' : Account) (purged : bool),
    review fetch_user_metrics now tweets_file account = inr (purged, account') ->
    exists user_id name store recent,
      id account = Some user_id
      /\ username account = Some name
      /\ tweets_file = Some store
      /\ recent_after (now - DAYS_BACK * microseconds_per_day) (collected name store)
         = inr recent
      /\ let followers := match fetch_user_metrics user_id with
                          | Some new_data => followers_of new_data
                          | None => 0
                          end in
         (MAX_FOLLOWERS <= followers -> purged = true)
         /\ (purged = true -> MAX_FOLLOWERS <= followers \/ recent = [])
         /\ (purged = true -> recent <> [] -> flagged account' = true)
         /\ (purged = false ->
             too_many_followers account' = too_many_followers account)
         /\ id account' = id account
         /\ username account' = username account
         /\ public_metrics account' = public_metrics account
         /\ classified_at account' = classified_at account
         /\ last_checked_at account' = Some (isoformat now)
         /\ last_relevant_tweet_count account'
            = Some (Z.of_nat (List.length recent)).
Proof.
  intros R fetch_user_metrics now tweets_file account account' purged Hrun.
  apply review_run in Hrun
    as (user_id & name & store & recent & Hid & Hname & Hstore & Hrecent & Hv).
  exists user_id, name, store, recent.
  split; [exact Hid|]. split; [exact Hname|]. split; [exact Hstore|].
  split; [exact Hrecent|]. cbv zeta in *.
  destruct recent as [|t recent];
    repeat match type of Hv with
           | context [match ?c with _ => _ end] => destruct c eqn:?
           end;
    injection Hv as -> ->;
    repeat match goal with
           | Hx : (_ <=? _) = true |- _ => apply Z.leb_le in Hx
           | Hx : (_ <=? _) = false |- _ => apply Z.leb_gt in Hx
           end;
    repeat split; try reflexivity; try congruence; try lia; auto;
    try (intros; lia); try (intros; congruence).
Qed.

Lemma review_verdict_witness :
  exists user_id name store recent,
    id dave = Some user_id
    /\ username dave = Some name
    /\ Some dave_tweets = Some store
    /\ recent_after (jan31 - DAYS_BACK * microseconds_per_day) (collected name store)
       = inr recent
    /\ let followers := match dave_has_grown user_id with
                        | Some new_data => followers_of new_data
                        | None => 0
                        end in
       let account' := set_too_many_followers
                         (set_last_checked 1 "2024-01-31T00:00:00+00:00" dave) in
       (MAX_FOLLOWERS <= followers -> true = true)
       /\ (true = true -> MAX_FOLLOWERS <= followers \/ recent = [])
       /\ (true = true -> recent <> [] -> flagged account' = true)
       /\ (true = false ->
           too_many_followers account' = too_many_followers dave)
       /\ id account' = id dave
       /\ username account' = username dave
       /\ public_metrics account' = public_metrics dave
       /\ classified_at account' = classified_at dave
       /\ last_checked_at account' = Some (isoformat jan31)
       /\ last_relevant_tweet_count account'
          = Some (Z.of_nat (List.length recent)).
Proof.
  apply (review_verdict sample_runtime dave_has_grown jan31 (Some dave_tweets)
           dave _ true).
  reflexivity.
Defined.

(** X14: inactivity purges only accounts that were not reviewed for
    more than 30 days. The inactivity test reads the [last_checked_at]
    that the previous review wrote; so when an account is reviewed
    again 30 whole days or less after a review (and the runtime reads
    its own time stamps back), the verdict of the second review is the
    follower test alone, whatever tweets are stored. *)
Theorem regular_reviews_never_purge_for_inactivity :
  forall (R : PyRuntime) (fetch1 fetch2 : string -> option Account)
         (now1 now2 utcoffset : Z)
         (tweets_file1 tweets_file2 : option (PyDict.t (list Tweet)))
         (account a1 a2 : Account) (purged1 purged2 : bool) (user_id : string),
    fromisoformat (isoformat now1) = Aware now1 utcoffset ->
    timedelta_days (now2 - now1) <= DAYS_BACK ->
    id account = Some user_id ->
    review fetch1 now1 tweets_file1 account = inr (purged1, a1) ->
    review fetch2 now2 tweets_file2 a1 = inr (purged2, a2) ->
    purged2 = (MAX_FOLLOWERS <=? match fetch2 user_id with
                                 | Some new_data => followers_of new_data
                                 | None => 0
                                 end).
Proof.
  intros R fetch1 fetch2 now1 now2 utcoffset tf1 tf2 account a1 a2 purged1 purged2
         user_id Hround Hdays Hid Hrun1 Hrun2.
  apply review_run in Hrun1
    as (u1 & n1 & st1 & r1 & Hid1 & _ & _ & _ & Hv1).
  assert (Hstamp : last_checked_at a1 = Some (isoformat now1) /\ id a1 = id account).
  { cbv zeta in Hv1.
    repeat match type of Hv1 with
           | context [if ?c then _ else _] => destruct c
           end;
      injection Hv1 as _ ->; split; reflexivity. }
  destruct Hstamp as [Hstamp Hid'].
  apply review_run in Hrun2
    as (u2 & n2 & st2 & r2 & Hid2 & _ & _ & _ & Hv2).
  rewrite Hid', Hid in Hid2. injection Hid2 as <-.
  cbv zeta in Hv2. rewrite Hstamp, Hround in Hv2.
  assert (Hfresh : (DAYS_BACK <? timedelta_days (now2 - now1)) = false)
    by (apply Z.ltb_ge; exact Hdays).
  rewrite Hfresh in Hv2.
  destruct r2; destruct (MAX_FOLLOWERS <=? _); now injection Hv2 as -> _.
Qed.

Lemma regular_reviews_never_purge_for_inactivity_witness :
  false = (MAX_FOLLOWERS <=? match api_down "42" with
                             | Some new_data => followers_of new_data
                             | None => 0
                             end).
Proof.
  apply (regular_reviews_never_purge_for_inactivity sample_runtime
           api_down api_down jan30 jan31 0 (Some carol_tweets) (Some PyDict.empty)
           carol
           (set_last_checked 1 "2024-01-30T00:00:00+00:00" carol)
           (set_last_checked 0 "2024-01-31T00:00:00+00:00"
              (set_last_checked 1 "2024-01-30T00:00:00+00:00" carol))
           false false "42").
  - reflexivity.
  - vm_compute. discriminate.
  - reflexivity.
  - reflexivity.
  - reflexivity.
Defined.

(** X15: what [purge_irrelevant_accounts] writes. When it reaches its
    two writes, the accounts of the relevant file have been reviewed
    one by one, in order; each is written exactly once: to the relevant
    file when the verdict is to keep it, appended to the irrelevant
    file when it is purged, in the order of the relevant file; the
    records the irrelevant file held are still at its head, untouched;
    a record that stays is the original with [last_checked_at] and
    [last_relevant_tweet_count] set, and a purged record is that, with
    or without the [too_many_followers] flag: the purge does not stamp
    a new [classified_at]. *)
Theorem purge_irrelevant_accounts_writes_reviewed_records :
  forall (R : PyRuntime) (fetch_user_metrics : string -> option Account)
         (now : Z) (rel irr rel' irr' : File)
         (tweets_file : option (PyDict.t (list Tweet)))
         (relevant irrelevant : list Account),
    load_json rel = inr relevant ->
    load_json irr = inr irrelevant ->
    purge_irrelevant_accounts fetch_user_metrics now rel irr tweets_file
    = inr (rel', irr') ->
    exists reviewed : list (bool * Account),
      Forall2 (fun account r =>
                 review fetch_user_metrics now tweets_file account = inr r
                 /\ exists count,
                      r = (false, set_last_checked count (isoformat now) account)
                      \/ r = (true, set_last_checked count (isoformat now) account)
                      \/ r = (true, set_too_many_followers
                                      (set_last_checked count (isoformat now)
                                         account)))
              relevant reviewed
      /\ rel' = Json (map snd (filter (fun r => negb (fst r)) reviewed))
      /\ irr' = Json (irrelevant ++ map snd (filter (fun r => fst r) reviewed)).
Proof.
  intros R fetch_user_metrics now rel irr rel' irr' tweets_file relevant irrelevant
         Hrel Hirr.
  unfold purge_irrelevant_accounts. rewrite Hrel, Hirr.
  destruct (purge_loop fetch_user_metrics now tweets_file relevant [] [])
    as [e|[remaining purged]] eqn:L; [discriminate|].
  intros [= <- <-].
  apply purge_loop_deals in L as (reviewed & Hall & -> & ->).
  exists reviewed. split; [|split; reflexivity].
  clear Hrel. induction Hall as [|account r accounts rs Hrev Hrest IH];
    constructor; [|exact IH].
  split; [exact Hrev|]. destruct r as [purged account'].
  apply review_run in Hrev as (u & n & st & recent & _ & _ & _ & _ & Hv).
  exists (Z.of_nat (List.length recent)).
  cbv zeta in Hv.
  repeat match type of Hv with
         | context [if ?c then _ else _] => destruct c
         end; rewrite Hv; auto.
Qed.

Lemma purge_irrelevant_accounts_writes_reviewed_records_witness :
  exists reviewed : list (bool * Account),
    Forall2 (fun account r =>
               review dave_has_grown jan31 (Some (carol_tweets ++ dave_tweets))
                 account = inr r
               /\ exists count,
                    r = (false, set_last_checked count (isoformat jan31) account)
                    \/ r = (true, set_last_checked count (isoformat jan31) account)
                    \/ r = (true, set_too_many_followers
                                    (set_last_checked count (isoformat jan31)
                                       account)))
            [dave; carol] reviewed
    /\ Json [set_last_checked 1 "2024-01-31T00:00:00+00:00" carol]
       = Json (map snd (filter (fun r => negb (fst r)) reviewed))
    /\ Json [whale; set_too_many_followers
                      (set_last_checked 1 "2024-01-31T00:00:00+00:00" dave)]
       = Json ([whale] ++ map snd (filter (fun r => fst r) reviewed)).
Proof.
  apply (purge_irrelevant_accounts_writes_reviewed_records sample_runtime
           dave_has_grown jan31 (Json [dave; carol]) (Json [whale]) _ _
           (Some (carol_tweets ++ dave_tweets))).
  - reflexivity.
  - reflexivity.
  - reflexivity.
Defined.

(** ** [reclassify_large_accounts]: who moves *)

Lemma index_by_id_values (d2 : PyDict.t Account) :
  forall d1,
    PyDict.wf (d1 ++ d2) ->
    (forall k a, In (k, a) d2 -> id a = Some k) ->
    index_by_id (PyDict.values d2) d1 = (d1 ++ d2, None).
Proof.
  induction d2 as [|[k a] rest IH]; intros d1 W Hkey; simpl.
  - now rewrite app_nil_r.
  - rewrite (Hkey k a (or_introl eq_refl)).
    assert (Habs : PyDict.get k d1 = None).
    { apply PyDictFacts.get_None_keys. intros Hin.
      unfold PyDict.wf, PyDict.keys in W. rewrite map_app in W.
      apply (NoDup_app_disjoint _ _ W k Hin). now left. }
    rewrite (set_absent _ _ _ Habs).
    replace (d1 ++ (k, a) :: rest) with ((d1 ++ [(k, a)]) ++ rest)
      by now rewrite <- app_assoc.
    apply IH.
    + now rewrite <- app_assoc.
    + intros k' a' Hin. apply Hkey. now right.
Qed.

Lemma load_quietly_values (d : PyDict.t Account) :
  keyed_by_id d -> load_quietly (Json (PyDict.values d)) = d.
Proof.
  intros [W Hkey]. unfold load_quietly.
  now rewrite (index_by_id_values d PyDict.empty W Hkey).
Qed.

Lemma keyed_by_id_set (d : PyDict.t Account) (k : string) (a : Account) :
  keyed_by_id d -> id a = Some k -> keyed_by_id (PyDict.set k a d).
Proof.
  intros [W Hkey] Hid. split; [now apply PyDictFacts.wf_set|].
  induction d as [|[k0 a0] rest IH]; simpl.
  - intros k' a' [[= <- <-]|[]]. exact Hid.
  - assert (Hrest : forall k' a', In (k', a') rest -> id a' = Some k')
      by (intros k' a' Hin; apply Hkey; now right).
    assert (Wrest : PyDict.wf rest)
      by (unfold PyDict.wf, PyDict.keys in *; simpl in W; now inversion W).
    destruct (String.eqb_spec k k0) as [->|Hne].
    + intros k' a' [[= <- <-]|Hin]; [exact Hid|now apply Hrest].
    + intros k' a' [[= <- <-]|Hin].
      * apply Hkey. now left.
      * now apply (IH Wrest Hrest).
Qed.

Lemma keyed_by_id_del (d : PyDict.t Account) (k : string) :
  keyed_by_id d -> keyed_by_id (PyDict.del k d).
Proof.
  intros [W Hkey]. split; [now apply PyDictFacts.wf_del|].
  intros k' a' Hin. apply filter_In in Hin as [Hin _]. now apply Hkey.
Qed.

Section ReclassifyFacts.
Context `{PyRuntime}.
Variable fetch_user_metrics : string -> option Account.

Lemma reclassify_loop_wf now items :
  forall updated irrelevant,
    PyDict.wf updated -> PyDict.wf irrelevant ->
    PyDict.wf (fst (reclassify_loop fetch_user_metrics now items updated irrelevant))
    /\ PyDict.wf (snd (reclassify_loop fetch_user_metrics now items updated irrelevant)).
Proof.
  induction items as [|[user_id data] rest IH]; intros updated irrelevant Wu Wi;
    simpl; [auto|].
  destruct (fetch_user_metrics user_id) as [new_data|];
    [destruct (MAX_FOLLOWERS <=? followers_of new_data)|];
    apply IH; auto using PyDictFacts.wf_set.
Qed.

Lemma reclassify_loop_get now items :
  forall updated irrelevant k,
    PyDict.wf items ->
    PyDict.get k (fst (reclassify_loop fetch_user_metrics now items updated irrelevant))
    = match PyDict.get k items with
      | Some data => if outgrown fetch_user_metrics k
                     then PyDict.get k updated else Some data
      | None => PyDict.get k updated
      end
    /\ PyDict.get k (snd (reclassify_loop fetch_user_metrics now items updated irrelevant))
       = match PyDict.get k items with
         | Some data =>
             if outgrown fetch_user_metrics k
             then Some (set_classified_at (isoformat (now k))
                          (set_too_many_followers data))
             else PyDict.get k irrelevant
         | None => PyDict.get k irrelevant
         end.
Proof.
  unfold PyDict.wf, PyDict.keys.
  induction items as [|[user_id data] rest IH]; intros updated irrelevant k Hnd;
    [simpl; auto|].
  inversion Hnd as [|? ? Hnotin Hnd']; subst.
  assert (Hrest : PyDict.get user_id rest = None)
    by now apply PyDictFacts.get_None_keys.
  cbn [reclassify_loop PyDict.get].
  destruct (String.eqb_spec k user_id) as [->|Hne].
  - unfold outgrown.
    destruct (fetch_user_metrics user_id) as [new_data|];
      [destruct (MAX_FOLLOWERS <=? followers_of new_data)|];
      match goal with
      | |- context [reclassify_loop _ _ _ ?u ?i] =>
          destruct (IH u i user_id Hnd') as [I1 I2]
      end;
      rewrite I1, I2, Hrest, ?PyDictFacts.get_set_same; auto.
  - match goal with
    | |- context [match fetch_user_metrics user_id with _ => _ end] =>
        destruct (fetch_user_metrics user_id) as [new_data|];
          [destruct (MAX_FOLLOWERS <=? followers_of new_data)|]
    end;
      match goal with
      | |- context [reclassify_loop _ _ _ ?u ?i] =>
          destruct (IH u i k Hnd') as [I1 I2]
      end;
      rewrite I1, I2, ?PyDictFacts.get_set_other by auto; auto.
Qed.

End ReclassifyFacts.

(** A dictionary lists each of its records once. *)
Lemma values_In {V : Type} (d : PyDict.t V) (v : V) :
  PyDict.wf d ->
  (In v (PyDict.values d) <-> exists k, PyDict.get k d = Some v).
Proof.
  intros W. unfold PyDict.values. split.
  - intros Hin. apply in_map_iff in Hin as ([k v'] & Hv & Hin).
    simpl in Hv. subst v'. exists k. now apply PyDictFacts.In_get.
  - intros [k Hget]. apply PyDictFacts.get_In in Hget.
    now apply (in_map snd) in Hget.
Qed.

Lemma keyed_by_id_ids (d : PyDict.t Account) :
  keyed_by_id d -> NoDup (map id (PyDict.values d)).
Proof.
  intros [W Hkey].
  assert (Hmap : map id (PyDict.values d) = map Some (PyDict.keys d)).
  { unfold PyDict.values, PyDict.keys. rewrite !map_map.
    apply map_ext_in. intros [k a] Hin. simpl. now apply Hkey. }
  rewrite Hmap. clear Hmap Hkey. unfold PyDict.wf in W.
  induction (PyDict.keys d) as [|k ks IH]; simpl; [constructor|].
  inversion W as [|? ? Hnotin W']; subst. constructor; [|now apply IH].
  intros Hin. apply in_map_iff in Hin as (x & [= ->] & Hx). contradiction.
Qed.

Lemma index_by_id_keyed (accounts : list Account) :
  forall d, keyed_by_id d -> keyed_by_id (fst (index_by_id accounts d)).
Proof.
  induction accounts as [|a rest IH]; intros d K; simpl; [exact K|].
  destruct (id a) as [k|] eqn:Hid; [|exact K].
  apply IH. now apply keyed_by_id_set.
Qed.

Lemma load_quietly_keyed (f : File) : keyed_by_id (load_quietly f).
Proof.
  assert (Hempty : keyed_by_id (@PyDict.empty Account)).
  { split; [apply PyDictFacts.wf_empty|]. intros k a []. }
  destruct f as [|records|]; simpl; try exact Hempty.
  now apply index_by_id_keyed.
Qed.

(** Every record of a file is loaded when each has an id. *)
Lemma load_quietly_all (records : list Account) :
  Forall (fun a => id a <> None) records ->
  forall a, In a records ->
            exists user_id,
              id a = Some user_id
              /\ PyDict.contains user_id (load_quietly (Json records)) = true.
Proof.
  unfold load_quietly.
  assert (Hkeep : forall l d k,
             PyDict.contains k d = true ->
             PyDict.contains k (fst (index_by_id l d)) = true).
  { induction l as [|b l IH]; intros d k Hk; simpl; [exact Hk|].
    destruct (id b) as [kb|]; [|exact Hk]. apply IH.
    destruct (String.eqb_spec k kb) as [->|Hne].
    - apply PyDictFacts.contains_set_same.
    - now rewrite PyDictFacts.contains_set_other. }
  generalize (@PyDict.empty Account).
  induction records as [|b rest IH]; intros d Hall a Hin; [contradiction|].
  inversion Hall as [|? ? Hb Hrest]; subst. simpl.
  destruct (id b) as [kb|] eqn:Hid; [|congruence].
  destruct Hin as [<-|Hin].
  - exists kb. split; [exact Hid|]. apply Hkeep.
    apply PyDictFacts.contains_set_same.
  - now apply IH.
Qed.

Section ReclassifyFiles.
Context `{PyRuntime}.
Variable fetch_user_metrics : string -> option Account.

Lemma reclassify_loop_keyed now items :
  forall updated irrelevant,
    (forall k a, In (k, a) items -> id a = Some k) ->
    keyed_by_id updated -> keyed_by_id irrelevant ->
    keyed_by_id (fst (reclassify_loop fetch_user_metrics now items updated irrelevant))
    /\ keyed_by_id (snd (reclassify_loop fetch_user_metrics now items updated
                           irrelevant)).
Proof.
  induction items as [|[user_id data] rest IH];
    intros updated irrelevant Hitems Ku Ki; simpl; [auto|].
  assert (Hid : id data = Some user_id) by (apply Hitems; now left).
  assert (Hrest : forall k a, In (k, a) rest -> id a = Some k)
    by (intros k a Hin; apply Hitems; now right).
  destruct (fetch_user_metrics user_id) as [new_data|];
    [destruct (MAX_FOLLOWERS <=? followers_of new_data)|];
    apply IH; auto using keyed_by_id_set.
Qed.

End ReclassifyFiles.

(** X16: who [reclassify_large_accounts] moves, in terms of what it
    loads: from each file, the records up to the first one without an
    id, by id (all the records when each has an id; nothing from a
    file that is missing or does not parse).  With nothing loaded from
    the relevant file, the two files are left as they are.  Otherwise
    both files are rewritten, each with one record per id: the
    relevant file lists exactly the loaded relevant accounts for which
    X does not answer 2000 followers or more, as they were (in
    particular when the fetch of the metrics fails); the irrelevant
    file lists exactly the other loaded relevant accounts, flagged
    [too_many_followers] and stamped with the time of the move, and
    the loaded irrelevant records whose id was not moved. *)
Theorem reclassify_large_accounts_moves_the_outgrown :
  forall (R : PyRuntime) (fetch_user_metrics : string -> option Account)
         (now : string -> Z) (rel irr : File),
    (load_quietly rel = [] ->
     reclassify_large_accounts fetch_user_metrics now rel irr = (rel, irr))
    /\ (load_quietly rel <> [] ->
        exists rel_records irr_records,
          reclassify_large_accounts fetch_user_metrics now rel irr
          = (Json rel_records, Json irr_records)
          /\ NoDup (map id rel_records)
          /\ NoDup (map id irr_records)
          /\ (forall a,
                In a rel_records
                <-> exists user_id,
                      PyDict.get user_id (load_quietly rel) = Some a
                      /\ outgrown fetch_user_metrics user_id = false)
          /\ (forall a,
                In a irr_records
                <-> (exists user_id data,
                       PyDict.get user_id (load_quietly rel) = Some data
                       /\ outgrown fetch_user_metrics user_id = true
                       /\ a = set_classified_at (isoformat (now user_id))
                                (set_too_many_followers data))
                    \/ (exists user_id,
                          PyDict.get user_id (load_quietly irr) = Some a
                          /\ (PyDict.get user_id (load_quietly rel) = None
                              \/ outgrown fetch_user_metrics user_id = false))))
    /\ (forall records,
          rel = Json records ->
          Forall (fun a => id a <> None) records ->
          forall a, In a records ->
                    exists user_id,
                      id a = Some user_id
                      /\ PyDict.contains user_id (load_quietly rel) = true).
Proof.
  intros R fetch_user_metrics now rel irr. unfold reclassify_large_accounts.
  split; [|split].
  - intros ->. reflexivity.
  - intros Hne.
    destruct (load_quietly rel) as [|item items] eqn:E; [congruence|].
    rewrite <- E.
    destruct (reclassify_loop fetch_user_metrics now (load_quietly rel)
                PyDict.empty (load_quietly irr)) as [u i] eqn:L.
    exists (PyDict.values u), (PyDict.values i). split; [reflexivity|].
    assert (Hempty : keyed_by_id (@PyDict.empty Account)).
    { split; [apply PyDictFacts.wf_empty|]. intros k a []. }
    pose proof (reclassify_loop_keyed fetch_user_metrics now (load_quietly rel)
                  PyDict.empty (load_quietly irr)
                  (proj2 (load_quietly_keyed rel)) Hempty
                  (load_quietly_keyed irr)) as [Ku Ki].
    rewrite L in Ku, Ki. cbn [fst snd] in Ku, Ki.
    split; [now apply keyed_by_id_ids|]. split; [now apply keyed_by_id_ids|].
    assert (Hget : forall user_id,
               PyDict.get user_id u
               = match PyDict.get user_id (load_quietly rel) with
                 | Some data =>
                     if outgrown fetch_user_metrics user_id then None else Some data
                 | None => None
                 end
               /\ PyDict.get user_id i
                  = match PyDict.get user_id (load_quietly rel) with
                    | Some data =>
                        if outgrown fetch_user_metrics user_id
                        then Some (set_classified_at (isoformat (now user_id))
                                     (set_too_many_followers data))
                        else PyDict.get user_id (load_quietly irr)
                    | None => PyDict.get user_id (load_quietly irr)
                    end).
    { intros user_id.
      pose proof (reclassify_loop_get fetch_user_metrics now (load_quietly rel)
                    PyDict.empty (load_quietly irr) user_id (load_quietly_wf rel))
        as [G1 G2].
      rewrite L in G1, G2. simpl in G1, G2. split; [exact G1|exact G2]. }
    split.
    + intros a. rewrite (values_In u a (proj1 Ku)). split.
      * intros [k Hk]. exists k. destruct (Hget k) as [G1 _]. rewrite G1 in Hk.
        destruct (PyDict.get k (load_quietly rel)) as [data|]; [|discriminate].
        destruct (outgrown fetch_user_metrics k); [discriminate|].
        injection Hk as ->. auto.
      * intros (k & Hk & Hout). exists k. destruct (Hget k) as [G1 _].
        now rewrite G1, Hk, Hout.
    + intros a. rewrite (values_In i a (proj1 Ki)). split.
      * intros [k Hk]. destruct (Hget k) as [_ G2]. rewrite G2 in Hk.
        destruct (PyDict.get k (load_quietly rel)) as [data|] eqn:Hrel.
        -- destruct (outgrown fetch_user_metrics k) eqn:Hout.
           ++ injection Hk as <-. left. exists k, data. auto.
           ++ right. exists k. auto.
        -- right. exists k. auto.
      * intros [(k & data & Hk & Hout & ->)|(k & Hk & Hcase)]; exists k;
          destruct (Hget k) as [_ G2]; rewrite G2.
        -- now rewrite Hk, Hout.
        -- destruct Hcase as [Hnone|Hout]; [now rewrite Hnone|].
           destruct (PyDict.get k (load_quietly rel)); [now rewrite Hout|exact Hk].
  - intros records -> Hall. now apply load_quietly_all.
Qed.

(** A record behind one without an id is not loaded, and the rewrite
    drops it: here Dave, who has outgrown the limit, ends in neither
    file. *)
Example reclassify_large_accounts_drops_the_unloaded :
  reclassify_large_accounts dave_has_grown (fun _ => jan30)
    (Json [carol; nameless; dave]) (Json [])
  = (Json [carol], Json []).
Proof. vm_compute. reflexivity. Qed.

(** ** [fetch_user_tweets]: the retry loop and the monthly cap *)

Lemma update_usage_metrics_run (tweets_count : Z) (t : Traffic) :
  update_usage_metrics tweets_count t
  = (let used := post_cap_used t + tweets_count in
     mkTraffic used (requests_made t + 1) (slept t)
               (notices t
                  ++ (if warning_level <=? used then [ApproachingCap used] else [])
                  ++ (if post_cap_monthly <=? used then [CapReached] else [])),
     if post_cap_monthly <=? post_cap_used t + tweets_count
     then inl (Exception "Monthly post cap reached")
     else inr tt).
Proof.
  unfold update_usage_metrics, when, notice, bind, modify, gets, raise, ret,
    count_request.
  cbn [post_cap_used requests_made slept notices].
  destruct (warning_level <=? post_cap_used t + tweets_count);
    destruct (post_cap_monthly <=? post_cap_used t + tweets_count);
    cbn [post_cap_used requests_made slept notices app];
    rewrite <- ?app_assoc, ?app_nil_r; reflexivity.
Qed.

(** The warning level of [update_usage_metrics] is the product that
    the code computes, in binary64. *)
Example warning_level_is_the_product :
  PrimFloat.eqb (PrimFloat.mul (float_of_count post_cap_monthly) 0.9%float)
                (float_of_count warning_level) = true.
Proof. vm_compute. reflexivity. Qed.

Lemma after_client_error_run (retry_count : Z) (t : Traffic) :
  after_client_error retry_count t
  = (mkTraffic (post_cap_used t) (requests_made t)
               (slept t ++ (if retry_count + 1 <? max_retries
                            then [base_delay * 2 ^ (retry_count + 1)] else []))
               (notices t ++ [ErrorFetchingUserTweets]),
     inr (retry_count + 1)).
Proof.
  unfold after_client_error, when, notice, sleep, bind, modify, ret.
  destruct (retry_count + 1 <? max_retries);
    cbn [post_cap_used requests_made slept notices];
    rewrite ?app_nil_r; reflexivity.
Qed.

Lemma paused_here (t : Traffic) (n : nat) (requests : Z) :
  0 <= requests -> paused t t n requests.
Proof.
  intros Hr. exists []. rewrite app_nil_r. repeat split; auto; simpl; lia.
Qed.

Lemma paused_then (t t1 t2 : Traffic) (n m : nat) (a b : Z) :
  paused t t1 n a -> paused t1 t2 m b -> paused t t2 (n + m) (a + b).
Proof.
  intros (p1 & S1 & L1 & F1 & R1) (p2 & S2 & L2 & F2 & R2).
  exists (p1 ++ p2). rewrite S2, S1, <- app_assoc.
  split; [reflexivity|]. split; [rewrite length_app; lia|].
  split; [apply Forall_app; auto|lia].
Qed.

Lemma paused_more (t t' : Traffic) (n n' : nat) (a a' : Z) :
  (n <= n')%nat -> a <= a' -> paused t t' n a -> paused t t' n' a'.
Proof.
  intros Hn Ha (p & S & L & F & R). exists p. repeat split; auto; lia.
Qed.

Lemma paused_sleep (t : Traffic) (seconds : Z) :
  1 <= seconds <= 900 -> paused t (fst (sleep seconds t)) 1 0.
Proof.
  intros Hs. exists [seconds]. unfold sleep, modify. cbn [fst slept requests_made].
  repeat split; auto; lia.
Qed.

Lemma paused_notice (t : Traffic) (n : Notice) :
  paused t (fst (notice n t)) 0 0.
Proof.
  exists []. unfold notice, modify. cbn [fst slept requests_made].
  rewrite app_nil_r. repeat split; auto; lia.
Qed.

Ltac solve_paused pauses :=
  exists pauses; cbn [slept requests_made fst];
  rewrite ?app_nil_r, <- ?app_assoc;
  repeat split; auto; simpl; try lia; repeat constructor; lia.

Section FetchingFacts.
Context `{PyRuntime}.
Variable server : Z -> Attempt (list string).
Variable clock : Z -> Z.

(** A turn that fails goes to the next turn through the [except] branch. *)
Lemma fetch_attempts_failed_turn (retries_left : nat) (t : Traffic) :
  fails (server (max_retries - Z.of_nat (S retries_left))) = true ->
  fetch_attempts server clock (S retries_left) t
  = fetch_attempts server clock retries_left
      (fst (after_client_error (max_retries - Z.of_nat (S retries_left)) t)).
Proof.
  intros Hf. cbn [fetch_attempts].
  set (retry_count := max_retries - Z.of_nat (S retries_left)) in *.
  unfold fails in Hf.
  destruct (server retry_count) as [|response body|e]; [| |discriminate].
  - unfold bind at 1. now rewrite after_client_error_run.
  - apply andb_prop in Hf as [H429 Hbad].
    unfold handle_rate_limit. rewrite H429.
    destruct (400 <=? status response).
    + unfold bind at 1. now rewrite after_client_error_run.
    + destruct body; try discriminate.
      unfold bind at 1. now rewrite after_client_error_run.
Qed.

(** The loop sleeps at most once per turn, between 1 and 900 seconds,
    counts at most one request, and raises only what [int()], [json],
    the reading of the body or the cap raise. *)
Lemma fetch_attempts_bounded (retries_left : nat) :
  forall t t' r,
    (retries_left <= 3)%nat ->
    fetch_attempts server clock retries_left t = (t', r) ->
    fetch_bound server retries_left t t' r.
Proof.
  induction retries_left as [|n IH]; intros t t' r Hle.
  - simpl. intros [= <- <-]. split; [apply paused_here; lia|simpl; lia].
  - assert (Hstep : forall t1,
              paused t t1 1 0 ->
              fetch_attempts server clock n t1 = (t', r) ->
              fetch_bound server (S n) t t' r).
    { intros t1 Hp Hrun. apply IH in Hrun as [Hq Hres]; [|lia].
      split; [|exact Hres].
      apply (paused_more _ _ (1 + n) _ (0 + 1) _); [lia|lia|].
      exact (paused_then _ _ _ _ _ _ _ Hp Hq). }
    cbn [fetch_attempts].
    set (retry_count := max_retries - Z.of_nat (S n)) in *.
    assert (Hexcept : bind (after_client_error retry_count)
                        (fun _ => fetch_attempts server clock n) t = (t', r) ->
                      fetch_bound server (S n) t t' r).
    { unfold bind at 1. rewrite after_client_error_run. apply Hstep.
      exists (if retry_count + 1 <? max_retries
              then [base_delay * 2 ^ (retry_count + 1)] else []).
      cbn [slept requests_made]. split; [reflexivity|].
      split; [destruct (_ <? _); simpl; lia|]. split; [|lia].
      destruct (Z.ltb_spec (retry_count + 1) max_retries); [|constructor].
      constructor; [|constructor].
      subst retry_count. unfold max_retries, base_delay in *.
      assert (Hn : Z.of_nat (S n) = 3 \/ Z.of_nat (S n) = 2) by lia.
      destruct Hn as [-> | ->]; simpl; lia. }
    destruct (server retry_count) as [|response body|e] eqn:Hserver;
      [exact Hexcept| |].
    2: { intros [= <- <-]. split; [apply paused_here; lia|].
         unfold may_escape_fetch. do 5 right. now exists retry_count. }
    destruct (handle_rate_limit (clock retry_count) response retry_count)
      as [e|[|wait_time]] eqn:Hh.
    + intros [= <- <-]. apply handle_rate_limit_raises in Hh. subst e.
      split; [apply paused_here; lia|unfold may_escape_fetch; auto].
    + destruct (400 <=? status response); [exact Hexcept|].
      destruct body as [| | |counted e|tweets]; [exact Hexcept| | | |].
      * intros [= <- <-].
        split; [apply paused_here; lia|unfold may_escape_fetch; auto].
      * intros [= <- <-].
        split; [apply paused_here; lia|unfold may_escape_fetch; auto].
      * assert (Hmis : may_escape_fetch server e).
        { unfold may_escape_fetch. do 4 right. left.
          exists retry_count, response, counted. exact Hserver. }
        destruct counted as [[|counted]|]; unfold bind at 1.
        -- intros [= <- <-]. split; [apply paused_here; lia|exact Hmis].
        -- rewrite update_usage_metrics_run.
           destruct (post_cap_monthly <=? _); intros [= <- <-].
           ++ split; [solve_paused (@nil Z)|unfold may_escape_fetch; auto 6].
           ++ split; [solve_paused (@nil Z)|exact Hmis].
        -- intros [= <- <-]. split; [apply paused_here; lia|exact Hmis].
      * destruct tweets as [|tw tweets].
        { unfold bind, ret. intros [= <- <-].
          split; [apply paused_here; lia|simpl; lia]. }
        unfold bind at 1. rewrite update_usage_metrics_run.
        destruct (post_cap_monthly <=? _); intros [= <- <-].
        -- split; [solve_paused (@nil Z)|unfold may_escape_fetch; auto 6].
        -- split; [solve_paused (@nil Z)|].
           unfold tweets_per_user.
           repeat match goal with
                  | |- context [match ?l with [] => _ | _ :: _ => _ end] =>
                      destruct l
                  end; simpl; lia.
    + unfold bind at 1, sleep, modify. apply Hstep.
      pose proof (handle_rate_limit_wait_bounds _ _ _ _ Hh).
      solve_paused [wait_time].
Qed.

(** Once the cap is reached it stays reached, and no text comes back. *)
Lemma fetch_attempts_after_the_cap (retries_left : nat) :
  forall t t' r,
    post_cap_monthly <= post_cap_used t ->
    fetch_attempts server clock retries_left t = (t', r) ->
    post_cap_monthly <= post_cap_used t'
    /\ forall texts, r = inr texts -> texts = [].
Proof.
  induction retries_left as [|n IH]; intros t t' r Hcap.
  - simpl. intros [= <- <-]. split; [exact Hcap|]. now intros texts [= <-].
  - cbn [fetch_attempts].
    set (retry_count := max_retries - Z.of_nat (S n)) in *.
    assert (Hexcept : bind (after_client_error retry_count)
                        (fun _ => fetch_attempts server clock n) t = (t', r) ->
              post_cap_monthly <= post_cap_used t'
              /\ forall texts, r = inr texts -> texts = []).
    { unfold bind at 1. rewrite after_client_error_run. apply IH. exact Hcap. }
    destruct (server retry_count) as [|response body|e]; [exact Hexcept| |].
    2: { intros [= <- <-]. split; [exact Hcap|discriminate]. }
    destruct (handle_rate_limit (clock retry_count) response retry_count)
      as [e|[|wait_time]].
    + intros [= <- <-]. split; [exact Hcap|discriminate].
    + destruct (400 <=? status response); [exact Hexcept|].
      destruct body as [| | |counted e|tweets]; [exact Hexcept| | | |].
      * intros [= <- <-]. split; [exact Hcap|discriminate].
      * intros [= <- <-]. split; [exact Hcap|discriminate].
      * destruct counted as [[|counted]|]; unfold bind at 1.
        -- intros [= <- <-]. split; [exact Hcap|discriminate].
        -- rewrite update_usage_metrics_run.
           destruct (post_cap_monthly <=? _); intros [= <- <-];
             cbn [post_cap_used]; (split; [lia|discriminate]).
        -- intros [= <- <-]. split; [exact Hcap|discriminate].
      * destruct tweets as [|tw tweets].
        -- unfold bind, ret. intros [= <- <-]. split; [exact Hcap|].
           now intros texts [= <-].
        -- unfold bind at 1. rewrite update_usage_metrics_run.
           destruct (Z.leb_spec post_cap_monthly
                       (post_cap_used t + Z.of_nat (List.length (tw :: tweets))))
             as [Hc|Hc]; [|lia].
           intros [= <- <-]. cbn [post_cap_used]. split; [lia|discriminate].
    + unfold bind at 1, sleep, modify. apply IH. exact Hcap.
Qed.

End FetchingFacts.

(** X17: [fetch_user_tweets] is bounded. Whatever the network answers,
    a call sleeps at most three times (once per turn of its retry
    loop), each time between 1 and 900 seconds; it counts at most one
    request in [requests_made]; it returns at most [tweets_per_user]
    texts; and an exception that escapes it is the [ValueError] of a
    reset header that is not a number, the [JSONDecodeError] of a body
    that does not parse, the [AttributeError] of a body that is not a
    JSON object, the monthly cap, the exception that the code meets on
    reading an object of another shape than the API documents, or an
    exception of the request itself that is not a [ClientError] (a
    timeout of the session, for instance). *)
Theorem fetch_user_tweets_is_bounded :
  forall (R : PyRuntime) (server : Z -> Attempt (list string)) (clock : Z -> Z)
         (start_time end_time : string) (t : Traffic),
    let t' := fst (fetch_user_tweets server clock start_time end_time t) in
    let r := snd (fetch_user_tweets server clock start_time end_time t) in
    (exists pauses,
       slept t' = slept t ++ pauses
       /\ (List.length pauses <= 3)%nat
       /\ Forall (fun p => 1 <= p <= 900) pauses)
    /\ requests_made t <= requests_made t' <= requests_made t + 1
    /\ match r with
       | inr texts => (List.length texts <= tweets_per_user)%nat
       | inl e =>
           e = ValueError \/ e = JSONDecodeError \/ e = AttributeError
           \/ e = Exception "Monthly post cap reached"
           \/ (exists retry_count response counted,
                 server retry_count = Answered response (Misshapen counted e))
           \/ (exists retry_count, server retry_count = Raised e)
       end.
Proof.
  intros R server clock start_time end_time t. cbv zeta.
  unfold fetch_user_tweets.
  destruct (negb (String.ltb start_time end_time)).
  - unfold bind, notice, modify, ret. cbn [fst snd slept requests_made].
    split; [|split; [lia|simpl; lia]].
    exists []. rewrite app_nil_r. repeat split; auto.
  - destruct (fetch_attempts_bounded server clock (Z.to_nat max_retries) t _ _
                ltac:(vm_compute; lia) (surjective_pairing _))
      as [(pauses & Hs & Hl & Hf & Hr) Hres].
    split; [exists pauses; repeat split; auto|]. split; [exact Hr|exact Hres].
Qed.

(** X18: giving up. When every attempt fails (no answer, an error
    status other than 429, or a body that is not declared as JSON),
    [fetch_user_tweets] makes three attempts, backs off 2 and then 4
    seconds between them, does not sleep after the last, leaves the
    usage counters as they were and answers the empty list; so
    [process_user] takes the user for one without original tweets and
    writes no record for it. *)
Theorem fetch_user_tweets_gives_up_after_three_failures :
  forall (R : PyRuntime) (server : Z -> Attempt (list string)) (clock : Z -> Z)
         (start_time end_time : string) (t : Traffic),
    (forall retry_count, fails (server retry_count) = true) ->
    String.ltb start_time end_time = true ->
    fetch_user_tweets server clock start_time end_time t
    = (mkTraffic (post_cap_used t) (requests_made t) (slept t ++ [2; 4])
                 (notices t ++ [ErrorFetchingUserTweets; ErrorFetchingUserTweets;
                                ErrorFetchingUserTweets]),
       inr [])
    /\ forall classifier now w s data user_id,
         id data = Some user_id ->
         meets_metric_thresholds data = true ->
         process_user classifier now
           (snd (fetch_user_tweets server clock start_time end_time t)) w
           (mkFrame s data)
         = (mkFrame (with_log (log s ++ [SkippingNoOriginalTweets user_id]) s) data,
            inr tt).
Proof.
  intros R server clock start_time end_time t Hfails Hwindow.
  assert (Hrun : fetch_user_tweets server clock start_time end_time t
                 = (mkTraffic (post_cap_used t) (requests_made t) (slept t ++ [2; 4])
                      (notices t ++ [ErrorFetchingUserTweets; ErrorFetchingUserTweets;
                                     ErrorFetchingUserTweets]),
                    inr [])).
  { unfold fetch_user_tweets. rewrite Hwindow. cbn [negb].
    change (Z.to_nat max_retries) with 3%nat.
    rewrite !fetch_attempts_failed_turn by apply Hfails.
    rewrite !after_client_error_run. cbn [fst fetch_attempts ret].
    cbn [post_cap_used requests_made slept notices].
    rewrite <- !app_assoc. reflexivity. }
  split; [exact Hrun|].
  intros classifier now w s data user_id Hid Hgate. rewrite Hrun. cbn [snd].
  now apply process_user_activity_gate.
Qed.

Lemma fetch_user_tweets_gives_up_after_three_failures_witness :
  fetch_user_tweets network_down (fun _ => 1700000000)
    "2024-01-23T00:00:00Z" "2024-01-30T00:00:00Z" fresh_traffic
  = (mkTraffic (post_cap_used fresh_traffic) (requests_made fresh_traffic)
               (slept fresh_traffic ++ [2; 4])
               (notices fresh_traffic
                  ++ [ErrorFetchingUserTweets; ErrorFetchingUserTweets;
                      ErrorFetchingUserTweets]),
     inr [])
  /\ forall classifier now w s data user_id,
       id data = Some user_id ->
       meets_metric_thresholds data = true ->
       process_user classifier now
         (snd (fetch_user_tweets network_down (fun _ => 1700000000)
                 "2024-01-23T00:00:00Z" "2024-01-30T00:00:00Z" fresh_traffic)) w
         (mkFrame s data)
       = (mkFrame (with_log (log s ++ [SkippingNoOriginalTweets user_id]) s) data,
          inr tt).
Proof.
  apply (fetch_user_tweets_gives_up_after_three_failures sample_runtime
           network_down (fun _ => 1700000000)
           "2024-01-23T00:00:00Z" "2024-01-30T00:00:00Z" fresh_traffic).
  - intros retry_count. reflexivity.
  - reflexivity.
Defined.

(** X19: the monthly cap is final. Once [post_cap_used] has reached
    [post_cap_monthly], it stays there, and [fetch_user_tweets] never
    returns a text again: it answers the empty list or raises. So from
    then on [process_user] classifies no account by its tweets: for a
    user that passes the metric gate, both dictionaries and both files
    are left as they are. *)
Theorem fetch_user_tweets_after_the_cap :
  forall (R : PyRuntime) (server : Z -> Attempt (list string)) (clock : Z -> Z)
         (start_time end_time : string) (t : Traffic),
    post_cap_monthly <= post_cap_used t ->
    let t' := fst (fetch_user_tweets server clock start_time end_time t) in
    let r := snd (fetch_user_tweets server clock start_time end_time t) in
    post_cap_monthly <= post_cap_used t'
    /\ (forall texts, r = inr texts -> texts = [])
    /\ forall classifier now w s data,
         meets_metric_thresholds data = true ->
         same_stores s (self (fst (process_user classifier now r w
                                     (mkFrame s data)))).
Proof.
  intros R server clock start_time end_time t Hcap. cbv zeta.
  assert (Hrun : post_cap_monthly
                 <= post_cap_used
                      (fst (fetch_user_tweets server clock start_time end_time t))
                 /\ forall texts,
                      snd (fetch_user_tweets server clock start_time end_time t)
                      = inr texts -> texts = []).
  { unfold fetch_user_tweets.
    destruct (negb (String.ltb start_time end_time)).
    - unfold bind, notice, modify, ret. cbn [fst snd post_cap_used].
      split; [exact Hcap|]. now intros texts [= <-].
    - apply (fetch_attempts_after_the_cap server clock (Z.to_nat max_retries) t);
        [exact Hcap|apply surjective_pairing]. }
  destruct Hrun as [Hstay Hempty].
  split; [exact Hstay|]. split; [exact Hempty|].
  intros classifier now w s data Hgate.
  destruct (id data) as [user_id|] eqn:Hid.
  - destruct (snd (fetch_user_tweets server clock start_time end_time t))
      as [e|texts].
    + rewrite (process_user_fetch_error classifier now w s data user_id e Hid Hgate).
      repeat split.
    + rewrite (Hempty texts eq_refl).
      rewrite (process_user_activity_gate classifier now w s data user_id Hid Hgate).
      repeat split.
  - rewrite (process_user_without_id classifier now _ w (mkFrame s data) Hid).
    repeat split.
Qed.

Lemma fetch_user_tweets_after_the_cap_witness :
  let t := mkTraffic 15000 1200 [] [] in
  let t' := fst (fetch_user_tweets network_down (fun _ => 1700000000)
                   "2024-01-23T00:00:00Z" "2024-01-30T00:00:00Z" t) in
  let r := snd (fetch_user_tweets network_down (fun _ => 1700000000)
                  "2024-01-23T00:00:00Z" "2024-01-30T00:00:00Z" t) in
  post_cap_monthly <= post_cap_used t'
  /\ (forall texts, r = inr texts -> texts = [])
  /\ forall classifier now w s data,
       meets_metric_thresholds data = true ->
       same_stores s (self (fst (process_user classifier now r w
                                   (mkFrame s data)))).
Proof.
  apply (fetch_user_tweets_after_the_cap sample_runtime network_down
           (fun _ => 1700000000) "2024-01-23T00:00:00Z" "2024-01-30T00:00:00Z"
           (mkTraffic 15000 1200 [] [])).
  vm_compute. discriminate.
Defined.

(** ** The lock file *)

Section LockFacts.
Context `{PyRuntime}.
Variable str : Z -> string.

Lemma check_existing_process_alive host content pid :
  int_of_str content = Some pid ->
  probe host pid = Alive ->
  check_existing_process str host (Some content) = (Some content, inr true).
Proof.
  intros Hint Halive.
  unfold check_existing_process, probe_lock, try_except, bind, gets, read_pid,
    kill0, open_process.
  rewrite Hint. destruct (os_name host); rewrite Halive; reflexivity.
Qed.

Lemma check_existing_process_takes_over host lock :
  match lock with
  | None => True
  | Some content =>
      match int_of_str content with
      | None => True
      | Some pid => probe host pid = NoSuchProcess \/ probe host pid = NotPermitted
      end
  end ->
  check_existing_process str host lock = (Some (str (getpid host)), inr false).
Proof.
  unfold check_existing_process, probe_lock, try_except, bind, gets, read_pid,
    kill0, open_process, write_lock, unlink, modify, ret, raise.
  destruct lock as [content|]; [|reflexivity].
  destruct (int_of_str content) as [pid|]; [|reflexivity].
  intros [Hp|Hp]; destruct (os_name host); rewrite Hp; reflexivity.
Qed.

End LockFacts.

(** X20: what [check_existing_process] decides. It answers [True], and
    leaves the lock file as it is, exactly when the file exists, holds a
    number, and the probe finds that process; in every other case in
    which it returns it answers [False] and the lock file then holds
    the caller's own process id. A lock that does not hold a number, or
    names a process that is gone, is taken over; so is, under POSIX as
    under Windows, a lock whose process exists but may not be signalled.
    The only exception that escapes is the one for a number that is no
    process id. *)
Theorem check_existing_process_decides :
  forall (R : PyRuntime) (str : Z -> string) (host : Host) (lock : Lock),
    (forall lock',
       check_existing_process str host lock = (lock', inr true) ->
       lock' = lock
       /\ exists content pid,
            lock = Some content /\ int_of_str content = Some pid
            /\ probe host pid = Alive)
    /\ (forall content pid,
          lock = Some content -> int_of_str content = Some pid ->
          probe host pid = Alive ->
          check_existing_process str host lock = (lock, inr true))
    /\ (forall lock',
          check_existing_process str host lock = (lock', inr false) ->
          lock' = Some (str (getpid host)))
    /\ (lock = None ->
        check_existing_process str host lock
        = (Some (str (getpid host)), inr false))
    /\ (forall content,
          lock = Some content -> int_of_str content = None ->
          check_existing_process str host lock
          = (Some (str (getpid host)), inr false))
    /\ (forall content pid,
          lock = Some content -> int_of_str content = Some pid ->
          probe host pid = NoSuchProcess \/ probe host pid = NotPermitted ->
          check_existing_process str host lock
          = (Some (str (getpid host)), inr false))
    /\ (forall lock' e,
          check_existing_process str host lock = (lock', inl e) ->
          lock' = lock
          /\ exists content pid,
               lock = Some content /\ int_of_str content = Some pid
               /\ probe host pid = OutOfRange).
Proof.
  intros R str host lock.
  assert (Hcases :
            (exists content pid, lock = Some content
                                 /\ int_of_str content = Some pid
                                 /\ probe host pid = Alive)
            \/ (exists content pid, lock = Some content
                                    /\ int_of_str content = Some pid
                                    /\ probe host pid = OutOfRange)
            \/ match lock with
               | None => True
               | Some content =>
                   match int_of_str content with
                   | None => True
                   | Some pid => probe host pid = NoSuchProcess
                                 \/ probe host pid = NotPermitted
                   end
               end).
  { destruct lock as [content|]; [|auto].
    destruct (int_of_str content) as [pid|] eqn:Hint; [|auto].
    destruct (probe host pid) eqn:Hp; eauto 10. }
  assert (Hrange : forall content pid,
             lock = Some content -> int_of_str content = Some pid ->
             probe host pid = OutOfRange ->
             check_existing_process str host lock
             = (lock, inl (Exception "OverflowError"))).
  { intros content pid -> Hint Hp.
    unfold check_existing_process, probe_lock, try_except, bind, gets, read_pid,
      kill0, open_process.
    rewrite Hint. destruct (os_name host); rewrite Hp; reflexivity. }
  split; [|split; [|split; [|split; [|split; [|split]]]]].
  - intros lock' Hrun.
    destruct Hcases as [(content & pid & -> & Hint & Hp)|[(content & pid & Hl & Hint & Hp)|Hstale]].
    + rewrite (check_existing_process_alive str host content pid Hint Hp) in Hrun.
      injection Hrun as <-. eauto 10.
    + rewrite (Hrange content pid Hl Hint Hp) in Hrun. discriminate.
    + rewrite (check_existing_process_takes_over str host lock Hstale) in Hrun.
      discriminate.
  - intros content pid -> Hint Hp.
    exact (check_existing_process_alive str host content pid Hint Hp).
  - intros lock' Hrun.
    destruct Hcases as [(content & pid & -> & Hint & Hp)|[(content & pid & Hl & Hint & Hp)|Hstale]].
    + rewrite (check_existing_process_alive str host content pid Hint Hp) in Hrun.
      discriminate.
    + rewrite (Hrange content pid Hl Hint Hp) in Hrun. discriminate.
    + rewrite (check_existing_process_takes_over str host lock Hstale) in Hrun.
      now injection Hrun as <-.
  - intros ->. now apply check_existing_process_takes_over.
  - intros content -> Hint. apply check_existing_process_takes_over.
    now rewrite Hint.
  - intros content pid -> Hint Hp. apply check_existing_process_takes_over.
    now rewrite Hint.
  - intros lock' e Hrun.
    destruct Hcases as [(content & pid & -> & Hint & Hp)|[(content & pid & Hl & Hint & Hp)|Hstale]].
    + rewrite (check_existing_process_alive str host content pid Hint Hp) in Hrun.
      discriminate.
    + rewrite (Hrange content pid Hl Hint Hp) in Hrun.
      injection Hrun as <- <-. eauto 10.
    + rewrite (check_existing_process_takes_over str host lock Hstale) in Hrun.
      discriminate.
Qed.

(** X21: one instance at a time. When [int] reads back what [str]
    writes, a classifier that starts without a lock file writes its
    process id and goes on; a second one that starts while the first is
    running finds it, answers [True] and leaves the lock to the first;
    and after the [cleanup_lock] of the first, the second can start and
    the lock is its own. *)
Theorem second_instance_is_refused :
  forall (R : PyRuntime) (str : Z -> string) (first second : Host),
    int_of_str (str (getpid first)) = Some (getpid first) ->
    probe second (getpid first) = Alive ->
    let started := fst (check_existing_process str first None) in
    check_existing_process str first None
    = (Some (str (getpid first)), inr false)
    /\ check_existing_process str second started = (started, inr true)
    /\ fst (cleanup_lock started) = None
    /\ check_existing_process str second (fst (cleanup_lock started))
       = (Some (str (getpid second)), inr false).
Proof.
  intros R str first second Hround Halive started. subst started.
  rewrite (check_existing_process_takes_over str first None I). cbn [fst].
  split; [reflexivity|]. split.
  - now apply check_existing_process_alive with (pid := getpid first).
  - split; [reflexivity|]. now apply check_existing_process_takes_over.
Qed.

Lemma second_instance_is_refused_witness :
  let started := fst (check_existing_process decimal_str first_instance None) in
  check_existing_process decimal_str first_instance None
  = (Some (decimal_str (getpid first_instance)), inr false)
  /\ check_existing_process decimal_str second_instance started
     = (started, inr true)
  /\ fst (cleanup_lock started) = None
  /\ check_existing_process decimal_str second_instance (fst (cleanup_lock started))
     = (Some (decimal_str (getpid second_instance)), inr false).
Proof.
  apply (second_instance_is_refused sample_runtime decimal_str
           first_instance second_instance).
  - reflexivity.
  - reflexivity.
Defined.

(** ** [reevaluate_irrelevant]: flagged accounts stay where they are *)

Section RecheckFacts.
Context `{PyRuntime}.
Variable classifier : list string -> Exn + list (list float).



Variable fetch_user_data : string -> option Account.
Variable fetched : string -> Exn + list string.
Variable write_outcome : string -> WriteOutcome.
Variable now : string -> Z.


End RecheckFacts.



(** ** [fix_double_ellipses] *)

Lemma length_append (s1 s2 : string) :
  String.length (String.append s1 s2) = (String.length s1 + String.length s2)%nat.
Proof. induction s1 as [|c s1 IH]; simpl; [reflexivity|now rewrite IH]. Qed.

Lemma prefix_length (p : string) :
  forall s, String.prefix p s = true -> (String.length p <= String.length s)%nat.
Proof.
  induction p as [|a p IH]; intros s; simpl; [lia|].
  destruct s as [|b s]; simpl; [discriminate|].
  destruct (ascii_dec a b); [|discriminate].
  intros Hp. apply IH in Hp. lia.
Qed.

Section Replace.
Variables old new : string.
Hypothesis old_longer : (String.length new < String.length old)%nat.

Lemma replace_skipping_length (text : string) :
  forall skip,
    (String.length (replace_skipping skip old new text)
       + Nat.min skip (String.length text)
     <= String.length text)%nat.
Proof.
  induction text as [|c rest IH]; intros skip; [simpl; lia|].
  destruct skip as [|skip'].
  - cbn [replace_skipping].
    destruct (String.prefix old (String c rest)) eqn:Hp.
    + apply prefix_length in Hp. rewrite length_append.
      specialize (IH (String.length old - 1)%nat).
      cbn [String.length] in *. lia.
    + specialize (IH 0%nat). cbn [String.length]. lia.
  - cbn [replace_skipping String.length]. specialize (IH skip'). lia.
Qed.

(** A pass over a text that holds an occurrence shortens it. *)
Lemma replace_shortens (text : string) :
  occurs old text = true ->
  (String.length (replace old new text) < String.length text)%nat.
Proof.
  unfold replace. induction text as [|c rest IH].
  - simpl. destruct old; [simpl in old_longer; lia|discriminate].
  - intros Hocc. cbn [replace_skipping].
    destruct (String.prefix old (String c rest)) eqn:Hp.
    + apply prefix_length in Hp. rewrite length_append.
      pose proof (replace_skipping_length rest (String.length old - 1)) as Hl.
      cbn [String.length] in *. lia.
    + cbn [occurs] in Hocc. rewrite Hp in Hocc. apply IH in Hocc.
      cbn [String.length]. lia.
Qed.

Lemma replace_absent (text : string) :
  occurs old text = false -> replace old new text = text.
Proof.
  unfold replace. induction text as [|c rest IH]; [reflexivity|].
  cbn [occurs replace_skipping].
  destruct (String.prefix old (String c rest)); [discriminate|].
  intros Hocc. now rewrite IH.
Qed.

End Replace.

Lemma fix_double_ellipses_loop_done (fuel : nat) :
  forall text,
    (String.length text <= fuel)%nat ->
    occurs "... ..." (fix_double_ellipses_loop fuel text) = false
    /\ (String.length (fix_double_ellipses_loop fuel text)
        <= String.length text)%nat
    /\ forall more, fix_double_ellipses_loop (fuel + more) text
                    = fix_double_ellipses_loop fuel text.
Proof.
  induction fuel as [|fuel' IH]; intros text Hlen.
  - destruct text; [|simpl in Hlen; lia].
    split; [reflexivity|]. split; [reflexivity|].
    intros more. destruct more; reflexivity.
  - cbn [fix_double_ellipses_loop Nat.add].
    destruct (occurs "... ..." text) eqn:Hocc.
    + assert (Hshort : (String.length (replace "... ..." "..." text)
                        < String.length text)%nat).
      { apply replace_shortens; [simpl; lia|exact Hocc]. }
      destruct (IH (replace "... ..." "..." text)) as (I1 & I2 & I3); [lia|].
      split; [exact I1|]. split; [lia|exact I3].
    + split; [exact Hocc|]. split; [lia|reflexivity].
Qed.

(** X23: [fix_double_ellipses] terminates with a clean text. Every turn
    of its [while] loop shortens the text, so the loop ends within as
    many turns as the text has characters (more fuel changes nothing);
    the result holds no ["... ..."], is not longer than the text, and is
    the text itself when that holds no ["... ..."]; so cleaning a
    cleaned text changes nothing. *)
Theorem fix_double_ellipses_cleans :
  forall text : string,
    occurs "... ..." (fix_double_ellipses text) = false
    /\ (String.length (fix_double_ellipses text) <= String.length text)%nat
    /\ (forall more,
          fix_double_ellipses_loop (String.length text + more) text
          = fix_double_ellipses text)
    /\ (occurs "... ..." text = false -> fix_double_ellipses text = text)
    /\ fix_double_ellipses (fix_double_ellipses text) = fix_double_ellipses text.
Proof.
  assert (Hclean : forall text, occurs "... ..." text = false ->
                                fix_double_ellipses text = text).
  { intros text Hocc. unfold fix_double_ellipses.
    destruct (String.length text); simpl; [reflexivity|]. now rewrite Hocc. }
  intros text. unfold fix_double_ellipses at 1 2 3.
  destruct (fix_double_ellipses_loop_done (String.length text) text (le_n _))
    as (H1 & H2 & H3).
  split; [exact H1|]. split; [exact H2|]. split; [exact H3|].
  split; [apply Hclean|].
  apply Hclean. exact H1.
Qed.

(** Two passes are needed here: the first leaves a new ["... ..."]. *)
Example fix_double_ellipses_second_pass :
  replace "... ..." "..." "wait... ... ... ok" = "wait... ... ok"
  /\ fix_double_ellipses "wait... ... ... ok" = "wait... ok".
Proof. split; reflexivity. Qed.

(** ** [fetch_recent_tweets]: pages and retries *)

Lemma collect_users_admitted (users : list Account) :
  forall users_map result,
    admitted users_map ->
    collect_users users users_map = inr result ->
    admitted result.
Proof.
  induction users as [|user rest IH]; intros users_map result Hadm; simpl.
  - now intros [= <-].
  - destruct (id user) as [ku|] eqn:Hid; [|discriminate].
    destruct (passes_inline_filter user) eqn:Hpass; [|now apply IH].
    apply IH. intros k u Hg.
    destruct (String.eqb_spec k ku) as [->|Hne].
    + rewrite PyDictFacts.get_set_same in Hg. injection Hg as <-. auto.
    + rewrite PyDictFacts.get_set_other in Hg by auto. now apply Hadm.
Qed.

Lemma collect_users_error (users : list Account) :
  forall users_map e, collect_users users users_map = inl e -> e = KeyError "id".
Proof.
  induction users as [|user rest IH]; intros users_map e; simpl; [discriminate|].
  destruct (id user); [|now intros [= <-]].
  destruct (passes_inline_filter user); apply IH.
Qed.

Lemma page_bound_after_pause search n request t t1 t' r :
  paused t t1 1 0 ->
  page_bound search n (S request) t1 t' r ->
  page_bound search (S n) request t t' r.
Proof.
  intros Hp. unfold page_bound.
  destruct r as [e|[a u|a u rl' req']].
  - intros [He Hb]. split; [exact He|].
    exact (paused_then _ _ _ _ _ _ _ Hp Hb).
  - intros [Ha Hb]. split; [exact Ha|].
    exact (paused_then _ _ _ _ _ _ _ Hp Hb).
  - intros (Ha & Hle & Hb & Hreq). split; [exact Ha|]. split; [lia|].
    split; [|lia].
    apply (paused_more _ _ (1 + (n - rl' + 1)) _ (0 + 1) _); [lia|lia|].
    exact (paused_then _ _ _ _ _ _ _ Hp Hb).
Qed.

Section SearchingFacts.
Context `{PyRuntime}.
Variable search : nat -> Attempt Page.
Variable clock : nat -> Z.

(** The part of a turn after [response.json()]. *)
Lemma read_page_bounded retries_left request all_tweets users_map page t t' r :
  admitted users_map ->
  bind (match page_tweets page with
        | [] => ret all_tweets
        | _ :: _ =>
            bind (update_usage_metrics (Z.of_nat (List.length (page_tweets page))))
                 (fun _ => ret (all_tweets ++ page_tweets page))
        end)
       (fun all_tweets' =>
          match collect_users (page_users page) users_map with
          | inl e => raise e
          | inr users_map' =>
              match page_next_token page with
              | Some (String _ _) =>
                  bind (sleep 60)
                       (fun _ => ret (Break all_tweets' users_map' retries_left
                                            (S request)))
              | Some EmptyString | None => ret (Return all_tweets' users_map')
              end
          end) t = (t', r) ->
  page_bound search retries_left request t t' r.
Proof.
  intros Hadm.
  assert (Hrest : forall all_tweets' t1,
             paused t t1 0 1 ->
             match collect_users (page_users page) users_map with
             | inl e => raise e
             | inr users_map' =>
                 match page_next_token page with
                 | Some (String _ _) =>
                     bind (sleep 60)
                          (fun _ => ret (Break all_tweets' users_map' retries_left
                                               (S request)))
                 | Some EmptyString | None => ret (Return all_tweets' users_map')
                 end
             end t1 = (t', r) ->
             page_bound search retries_left request t t' r).
  { intros all_tweets' t1 Hp.
    destruct (collect_users (page_users page) users_map) as [e|users_map'] eqn:Hc.
    - intros [= <- <-]. apply collect_users_error in Hc. subst e.
      split; [unfold may_escape; tauto|].
      apply (paused_more _ _ 0 _ 1 _); [lia|lia|exact Hp].
    - apply (collect_users_admitted _ _ _ Hadm) in Hc.
      destruct (page_next_token page) as [[|c token]|].
      + intros [= <- <-]. split; [exact Hc|].
        apply (paused_more _ _ 0 _ 1 _); [lia|lia|exact Hp].
      + unfold bind, sleep, modify, ret. intros [= <- <-].
        split; [exact Hc|]. split; [lia|]. split; [|lia].
        apply (paused_more _ _ (0 + 1) _ (1 + 0) _); [lia|lia|].
        apply (paused_then _ _ _ _ _ _ _ Hp).
        solve_paused [60].
      + intros [= <- <-]. split; [exact Hc|].
        apply (paused_more _ _ 0 _ 1 _); [lia|lia|exact Hp]. }
  destruct (page_tweets page) as [|tw tweets].
  - unfold bind at 1, ret at 1. apply Hrest. apply paused_here. lia.
  - unfold bind at 1. unfold bind at 1. rewrite update_usage_metrics_run.
    destruct (post_cap_monthly <=? _).
    + intros [= <- <-]. split; [unfold may_escape; tauto|].
      solve_paused (@nil Z).
    + unfold ret at 1. apply Hrest. solve_paused (@nil Z).
Qed.

(** The reading of a body of unexpected shape. *)
Lemma misshapen_bounded (A : Type) (retries_left request : nat) response counted
    e t t' (r : Exn + A) :
  search request = Answered response (Misshapen counted e) ->
  bind (match counted with
        | Some (S _ as n) => update_usage_metrics (Z.of_nat n)
        | Some O | None => ret tt
        end)
       (fun _ => @raise Traffic A e) t = (t', r) ->
  match r with
  | inl e' => may_escape search e' /\ paused t t' retries_left 1
  | inr _ => False
  end.
Proof.
  intros Hserver.
  assert (Hmis : may_escape search e).
  { unfold may_escape. do 5 right. left.
    now exists request, response, counted. }
  destruct counted as [[|counted]|]; unfold bind at 1.
  - intros [= <- <-]. split; [exact Hmis|apply paused_here; lia].
  - rewrite update_usage_metrics_run.
    destruct (post_cap_monthly <=? _); intros [= <- <-].
    + split; [unfold may_escape; tauto|solve_paused (@nil Z)].
    + split; [exact Hmis|solve_paused (@nil Z)].
  - intros [= <- <-]. split; [exact Hmis|apply paused_here; lia].
Qed.

(** One page: what the [while True] leaves behind, however it ends. *)
Lemma while_true_bounded (retries_left : nat) :
  forall request all_tweets users_map t t' r,
    admitted users_map ->
    while_true search clock retries_left request all_tweets users_map t = (t', r) ->
    page_bound search retries_left request t t' r.
Proof.
  induction retries_left as [|n IH];
    intros request all_tweets users_map t t' r Hadm.
  - cbn [while_true].
    assert (Hexcept : bind (notice ErrorFetchingTweets)
                        (fun _ => ret (Return all_tweets users_map)) t = (t', r) ->
                      page_bound search 0 request t t' r).
    { unfold bind, notice, modify, ret. intros [= <- <-].
      split; [exact Hadm|]. solve_paused (@nil Z). }
    destruct (search request) as [|response body|e] eqn:Hserver;
      [exact Hexcept| |].
    2: { intros [= <- <-]. split; [|apply paused_here; lia].
         unfold may_escape. do 6 right. now exists request. }
    destruct (handle_rate_limit (clock request) response (max_retries - Z.of_nat 0))
      as [e|[|wait_time]] eqn:Hh.
    + intros [= <- <-].
      apply handle_rate_limit_raises in Hh. subst e.
      split; [unfold may_escape; tauto|]. apply paused_here. lia.
    + destruct (400 <=? status response); [exact Hexcept|].
      destruct body as [| | |counted e|page]; [exact Hexcept| | | |].
      * intros [= <- <-]. split; [unfold may_escape; tauto|].
        apply paused_here. lia.
      * intros [= <- <-]. split; [unfold may_escape; tauto|].
        apply paused_here. lia.
      * intros Hrun.
        apply (misshapen_bounded PageEnd 0 request response counted e t t' r
                 Hserver) in Hrun.
        destruct r as [e'|]; [exact Hrun|contradiction].
      * now apply read_page_bounded.
    + intros [= <- <-]. split; [exact Hadm|]. apply paused_here. lia.
  - cbn [while_true].
    assert (Hexcept : bind (notice ErrorFetchingTweets)
                        (fun _ =>
                           bind (sleep 10)
                             (fun _ => while_true search clock n (S request)
                                         all_tweets users_map)) t = (t', r) ->
                      page_bound search (S n) request t t' r).
    { unfold bind, notice, sleep, modify. intros Hrun.
      apply (IH _ _ _ _ _ _ Hadm) in Hrun.
      refine (page_bound_after_pause search n request t _ t' r _ Hrun).
      solve_paused [10]. }
    destruct (search request) as [|response body|e] eqn:Hserver;
      [exact Hexcept| |].
    2: { intros [= <- <-]. split; [|apply paused_here; lia].
         unfold may_escape. do 6 right. now exists request. }
    destruct (handle_rate_limit (clock request) response
                (max_retries - Z.of_nat (S n))) as [e|[|wait_time]] eqn:Hh.
    + intros [= <- <-].
      apply handle_rate_limit_raises in Hh. subst e.
      split; [unfold may_escape; tauto|]. apply paused_here. lia.
    + destruct (400 <=? status response); [exact Hexcept|].
      destruct body as [| | |counted e|page]; [exact Hexcept| | | |].
      * intros [= <- <-]. split; [unfold may_escape; tauto|].
        apply paused_here. lia.
      * intros [= <- <-]. split; [unfold may_escape; tauto|].
        apply paused_here. lia.
      * intros Hrun.
        apply (misshapen_bounded PageEnd (S n) request response counted e t t' r
                 Hserver) in Hrun.
        destruct r as [e'|]; [exact Hrun|contradiction].
      * now apply read_page_bounded.
    + unfold bind, sleep, modify. intros Hrun.
      apply (IH _ _ _ _ _ _ Hadm) in Hrun.
      refine (page_bound_after_pause search n request t _ t' r _ Hrun).
      pose proof (handle_rate_limit_wait_bounds _ _ _ _ Hh).
      solve_paused [wait_time].
Qed.

(** The pages: at most one pause and one counted request per page, and
    one more pause per retry. *)
Lemma pages_bounded (pages_left : nat) :
  forall retries_left request all_tweets users_map t t' r,
    admitted users_map ->
    pages search clock pages_left retries_left request all_tweets users_map t
    = (t', r) ->
    paused t t' (pages_left + retries_left) (Z.of_nat pages_left)
    /\ match r with
       | inl e => may_escape search e
       | inr (_, users_map') => admitted users_map'
       end.
Proof.
  induction pages_left as [|n IH];
    intros retries_left request all_tweets users_map t t' r Hadm.
  - simpl. intros [= <- <-]. split; [apply paused_here; lia|exact Hadm].
  - cbn [pages]. unfold bind at 1.
    destruct (while_true search clock retries_left request all_tweets users_map t)
      as [t1 [e|[a u|a u rl' req']]] eqn:Hpage;
      apply (while_true_bounded _ _ _ _ _ _ _ Hadm) in Hpage;
      unfold page_bound in Hpage.
    + intros [= <- <-]. destruct Hpage as [He Hp]. split; [|exact He].
      apply (paused_more _ _ retries_left _ 1 _); [lia|lia|exact Hp].
    + intros [= <- <-]. destruct Hpage as [Ha Hp]. split; [|exact Ha].
      apply (paused_more _ _ retries_left _ 1 _); [lia|lia|exact Hp].
    + destruct Hpage as (Ha & Hle & Hp & Hreq). intros Hrun.
      apply (IH _ _ _ _ _ _ _ Ha) in Hrun as [Hq Hr]. split; [|exact Hr].
      apply (paused_more _ _ ((retries_left - rl' + 1) + (n + rl')) _
               (1 + Z.of_nat n) _); [lia|lia|].
      exact (paused_then _ _ _ _ _ _ _ Hp Hq).
Qed.

End SearchingFacts.

Section SearchingReads.
Context `{PyRuntime}.
Variables search search' : nat -> Attempt Page.
Variables clock clock' : nat -> Z.
Variable bound : nat.
Hypothesis same_answers :
  forall n, (n < bound)%nat -> search n = search' n /\ clock n = clock' n.

(** A page reads the network at its request and at the next
    [retries_left] ones at most. *)
Lemma while_true_reads (retries_left : nat) :
  forall request all_tweets users_map t,
    (request + retries_left < bound)%nat ->
    while_true search clock retries_left request all_tweets users_map t
    = while_true search' clock' retries_left request all_tweets users_map t.
Proof.
  induction retries_left as [|n IH]; intros request all_tweets users_map t Hb;
    cbn [while_true];
    (destruct (same_answers request) as [<- <-]; [lia|]).
  - reflexivity.
  - assert (Hnext : forall t1,
               while_true search clock n (S request) all_tweets users_map t1
               = while_true search' clock' n (S request) all_tweets users_map t1)
      by (intros t1; apply IH; lia).
    assert (Hexcept : bind (notice ErrorFetchingTweets)
                        (fun _ =>
                           bind (sleep 10)
                             (fun _ => while_true search clock n (S request)
                                         all_tweets users_map)) t
                      = bind (notice ErrorFetchingTweets)
                          (fun _ =>
                             bind (sleep 10)
                               (fun _ => while_true search' clock' n (S request)
                                           all_tweets users_map)) t).
    { unfold bind, notice, sleep, modify. apply Hnext. }
    destruct (search request) as [|response body|e];
      [exact Hexcept| |reflexivity].
    destruct (handle_rate_limit (clock request) response
                (max_retries - Z.of_nat (S n))) as [e|[|wait_time]];
      [reflexivity| |].
    + destruct (400 <=? status response); [exact Hexcept|].
      destruct body as [| | |counted e|page];
        [exact Hexcept|reflexivity|reflexivity|reflexivity|reflexivity].
    + unfold bind, sleep, modify. apply Hnext.
Qed.

Lemma pages_reads (pages_left : nat) :
  forall retries_left request all_tweets users_map t,
    admitted users_map ->
    (request + pages_left + retries_left <= bound)%nat ->
    pages search clock pages_left retries_left request all_tweets users_map t
    = pages search' clock' pages_left retries_left request all_tweets users_map t.
Proof.
  induction pages_left as [|n IH];
    intros retries_left request all_tweets users_map t Hadm Hb; [reflexivity|].
  cbn [pages]. unfold bind.
  rewrite <- (while_true_reads retries_left request all_tweets users_map t)
    by lia.
  destruct (while_true search clock retries_left request all_tweets users_map t)
    as [t1 [e|[a u|a u rl' req']]] eqn:Hpage; try reflexivity.
  apply (while_true_bounded _ _ _ _ _ _ _ _ _ Hadm) in Hpage.
  destruct Hpage as (Ha & Hle & _ & Hreq).
  apply IH; [exact Ha|lia].
Qed.

End SearchingReads.

(** X24: [fetch_recent_tweets] is bounded. Whatever the network
    answers, one search sleeps at most eight times (once per page and
    once per retry), each time between 1 and 900 seconds, and counts at
    most five requests in [requests_made]; every user of the map it
    returns is stored under its own id, has at least 300 tweets and
    fewer than 2000 followers; and an exception that escapes it is the
    [ValueError] of a reset header that is not a number, the
    [JSONDecodeError] of a body that does not parse, the
    [AttributeError] of a body that is not a JSON object, the
    [KeyError] of a user without id, the monthly cap, the exception
    that the code meets on reading an object of another shape than the
    API documents, or an exception of a request itself that is not a
    [ClientError] (a timeout of the session, for instance). *)
Theorem fetch_recent_tweets_is_bounded :
  forall (R : PyRuntime) (search : nat -> Attempt Page) (clock : nat -> Z)
         (t : Traffic),
    let t' := fst (fetch_recent_tweets search clock t) in
    let r := snd (fetch_recent_tweets search clock t) in
    (exists pauses,
       slept t' = slept t ++ pauses
       /\ (List.length pauses <= 8)%nat
       /\ Forall (fun p => 1 <= p <= 900) pauses)
    /\ requests_made t <= requests_made t' <= requests_made t + 5
    /\ match r with
       | inr (_, users_map) =>
           forall k user,
             PyDict.get k users_map = Some user ->
             id user = Some k
             /\ min_tweets <= tweet_count_of user
             /\ followers_of user < max_followers
       | inl e =>
           e = ValueError \/ e = JSONDecodeError \/ e = AttributeError
           \/ e = KeyError "id"
           \/ e = Exception "Monthly post cap reached"
           \/ (exists request response counted,
                 search request = Answered response (Misshapen counted e))
           \/ (exists request, search request = Raised e)
       end.
Proof.
  intros R search clock t. cbv zeta. unfold fetch_recent_tweets.
  assert (Hempty : admitted PyDict.empty) by (intros k user; discriminate).
  destruct (pages_bounded search clock max_pages (Z.to_nat max_retries) 0%nat []
              PyDict.empty t _ _ Hempty (surjective_pairing _))
    as [(pauses & Hs & Hl & Hf & Hr) Hres].
  split; [exists pauses; repeat split; auto|].
  split; [exact Hr|].
  destruct (snd (pages search clock max_pages (Z.to_nat max_retries) 0 []
                   PyDict.empty t)) as [e|[all_tweets users_map]].
  - exact Hres.
  - intros k user Hg. destruct (Hres k user Hg) as [Hid Hpass].
    apply inline_filter_spec in Hpass. tauto.
Qed.

(** X25: one search sends at most eight requests: five pages and three
    retries, and the retries are shared by the pages, since
    [retry_count] is never reset. Two networks that answer the first
    eight requests alike (at the same times) give the same search,
    with the same sleeps, counters and exception. *)
Theorem fetch_recent_tweets_sends_at_most_eight_requests :
  forall (R : PyRuntime) (search search' : nat -> Attempt Page)
         (clock clock' : nat -> Z) (t : Traffic),
    (forall n, (n < 8)%nat -> search n = search' n /\ clock n = clock' n) ->
    fetch_recent_tweets search clock t = fetch_recent_tweets search' clock' t.
Proof.
  intros R search search' clock clock' t Hsame. unfold fetch_recent_tweets.
  apply (pages_reads search search' clock clock' 8 Hsame).
  - intros k user. discriminate.
  - vm_compute. lia.
Qed.

Lemma fetch_recent_tweets_sends_at_most_eight_requests_witness :
  fetch_recent_tweets busy_search (fun _ => 1700000000) fresh_traffic
  = fetch_recent_tweets busy_search_then_garbage (fun _ => 1700000000)
      fresh_traffic.
Proof.
  apply (fetch_recent_tweets_sends_at_most_eight_requests sample_runtime
           busy_search busy_search_then_garbage
           (fun _ => 1700000000) (fun _ => 1700000000) fresh_traffic).
  intros n Hn. split; [|reflexivity].
  unfold busy_search_then_garbage.
  destruct (Nat.ltb_spec n 8); [reflexivity|lia].
Defined.

(** The eighth request is sent: after three retries and four pages, the
    fifth page is still fetched, and its answer decides the result. *)
Example fetch_recent_tweets_reads_the_eighth_answer :
  slept (fst (fetch_recent_tweets busy_search (fun _ => 1700000000)
                fresh_traffic))
  = [10; 10; 10; 60; 60; 60; 60; 60]
  /\ requests_made (fst (fetch_recent_tweets busy_search (fun _ => 1700000000)
                           fresh_traffic)) = 5
  /\ snd (fetch_recent_tweets busy_search_then_early_garbage
            (fun _ => 1700000000) fresh_traffic)
     = inl JSONDecodeError.
Proof. vm_compute. repeat split. Qed.

(** ** What is saved is loaded back *)

(** X26: what is saved is loaded back. When both dictionaries hold
    every record under its own id, they still do after [save_account];
    and when the rewrite succeeds, the file that was rewritten holds
    exactly the dictionary it was written from, so that a classifier
    started on the two files afterwards has, as its relevant
    dictionary, the relevant dictionary the first one had in memory
    after a save as relevant. *)
Theorem saved_accounts_are_loaded_back :
  forall (R : PyRuntime) (now : Z) (relevant : bool) (s : State)
         (data : Account) (user_id : string),
    keyed_by_id (relevant_accounts s) ->
    keyed_by_id (irrelevant_accounts s) ->
    id data = Some user_id ->
    let s' := self (fst (save_account now WriteOk relevant (mkFrame s data))) in
    keyed_by_id (relevant_accounts s')
    /\ keyed_by_id (irrelevant_accounts s')
    /\ (if relevant
        then load_quietly (relevant_file s') = relevant_accounts s'
        else load_quietly (irrelevant_file s') = irrelevant_accounts s')
    /\ (relevant = true ->
        forall restart restarted,
          load_existing_accounts restart
            (initial (relevant_file s') (irrelevant_file s')) = (restarted, inr tt) ->
          relevant_accounts restarted = relevant_accounts s').
Proof.
  intros R now relevant s data user_id Kr Ki Hid s'. subst s'.
  destruct relevant.
  - rewrite (save_account_relevant _ _ _ _ _ Hid).
    cbn [fst self relevant_accounts irrelevant_accounts relevant_file
         irrelevant_file written].
    assert (K' : keyed_by_id (PyDict.set user_id (promoted now data)
                                (relevant_accounts s)))
      by (apply keyed_by_id_set; [exact Kr|exact Hid]).
    split; [exact K'|]. split; [now apply keyed_by_id_del|].
    split; [now apply load_quietly_values|].
    intros _ restart restarted Hload.
    apply load_existing_accounts_run in Hload as (Lr & _).
    rewrite Lr. now apply load_quietly_values.
  - rewrite (save_account_irrelevant _ _ _ _ _ Hid).
    cbn [fst self relevant_accounts irrelevant_accounts relevant_file
         irrelevant_file written].
    assert (Hid' : id (demoted now data) = Some user_id).
    { unfold demoted. destruct (max_followers <=? followers_of data); exact Hid. }
    assert (K' : keyed_by_id (PyDict.set user_id (demoted now data)
                                (irrelevant_accounts s)))
      by (apply keyed_by_id_set; [exact Ki|exact Hid']).
    split; [now apply keyed_by_id_del|]. split; [exact K'|].
    split; [now apply load_quietly_values|discriminate].
Qed.

Lemma saved_accounts_are_loaded_back_witness :
  let s' := self (fst (save_account jan30 WriteOk true
                         (mkFrame carol_irrelevant carol))) in
  keyed_by_id (relevant_accounts s')
  /\ keyed_by_id (irrelevant_accounts s')
  /\ (if true
      then load_quietly (relevant_file s') = relevant_accounts s'
      else load_quietly (irrelevant_file s') = irrelevant_accounts s')
  /\ (true = true ->
      forall restart restarted,
        load_existing_accounts restart
          (initial (relevant_file s') (irrelevant_file s')) = (restarted, inr tt) ->
        relevant_accounts restarted = relevant_accounts s').
Proof.
  apply (saved_accounts_are_loaded_back sample_runtime jan30 true
           carol_irrelevant carol "42").
  - split; [constructor|]. intros k a [].
  - split; [repeat constructor; simpl; tauto|].
    intros k a [[= <- <-]|[]]. reflexivity.
  - reflexivity.
Defined.
